(** * Task manager API: the handlers of the Express back end over a model of
    their PostgreSQL store.

    Embedded here, with the names of the sources:
    - models/userModel.js: [createUser], [findUserByEmail], [findUserById]
    - models/taskModel.js: [createTask], [getTasksByUserId], [getTaskById],
      [updateTask], [deleteTask]
    - controllers/authController.js: [signup], [login]
    - controllers/userController.js: [getCurrentUser]
    - controllers/taskController.js: [create], [getAllTasks], [getTask],
      [update], [remove]

    - frontend/src/services/api.js and the tasks page: the interceptors, the
      path of a task, [handleCreate], [handleUpdate], [handleEdit]

    JavaScript values are an inductive type with the language's truthiness;
    request bodies are finite maps from property names to values; the two
    tables are finite maps keyed by their primary key; an [async] function is
    a store-passing computation that returns or throws; a handler maps a
    store and a request to a store and a response. *)

From Stdlib Require Import ZArith Ascii String List Bool Lia Sorted Permutation.
From stdpp Require Import base option gmap strings list fin_maps.

Set Warnings "-register-all".

Local Open Scope string_scope.
Local Open Scope Z_scope.

(** ** JavaScript values *)

Module Js.

(** The values that flow through the handlers: what [express.json()] can put
    in [req.body], [undefined] for a missing property, and the [Date] objects
    the driver returns for timestamp columns.  Numbers are the integers;
    every branch below treats a non-integer number like a non-zero integer.
    Strings are sequences of code units below 256. *)
Inductive JsValue : Type :=
  | JUndefined
  | JNull
  | JBool (b : bool)
  | JNum (z : Z)
  | JStr (s : string)
  | JArr (items : list JsValue)
  | JObj (fields : list (string * JsValue))
  | JDate (ms : Z).

(** ToBoolean: [!v] is [negb (truthy v)]. *)
Definition truthy (v : JsValue) : bool :=
  match v with
  | JUndefined | JNull => false
  | JBool b => b
  | JNum z => negb (z =? 0)
  | JStr s => negb (String.eqb s "")
  | JArr _ | JObj _ | JDate _ => true
  end.

(** [a || b] *)
Definition js_or (a b : JsValue) : JsValue := if truthy a then a else b.

(** [list.includes(v)] for an array literal of strings: SameValueZero never
    identifies a string with a value of another type. *)
Definition includes (l : list string) (v : JsValue) : bool :=
  match v with
  | JStr s => existsb (String.eqb s) l
  | _ => false
  end.

(** Property read [o.k] on an object literal or a result row. *)
Fixpoint assoc (k : string) (fields : list (string * JsValue)) : option JsValue :=
  match fields with
  | [] => None
  | (k', v) :: rest => if String.eqb k k' then Some v else assoc k rest
  end.

Definition has_prop (k : string) (v : JsValue) : bool :=
  match v with
  | JObj fields => match assoc k fields with Some _ => true | None => false end
  | _ => false
  end.

Definition prop (k : string) (v : JsValue) : JsValue :=
  match v with
  | JObj fields => default JUndefined (assoc k fields)
  | _ => JUndefined
  end.

(** Thrown values: [code] is set by the database driver only. *)
Record JsError : Type := mkError { code : option string; message : string }.

Inductive result (A : Type) : Type :=
  | Ok (a : A)
  | Throw (e : JsError).
Arguments Ok {A} a.
Arguments Throw {A} e.

Definition TypeError (msg : string) : JsError := mkError None msg.

(** *** Strings *)

(** WhiteSpace and LineTerminator code units below 256: TAB, LF, VT, FF, CR,
    SP and NBSP.  This is the class stripped by [trim] and matched by [\s]. *)
Definition is_white (c : ascii) : bool :=
  match N_of_ascii c with
  | 9%N | 10%N | 11%N | 12%N | 13%N | 32%N | 160%N => true
  | _ => false
  end.

Fixpoint trimStart (s : string) : string :=
  match s with
  | EmptyString => EmptyString
  | String c s' => if is_white c then trimStart s' else s
  end.

Fixpoint trimEnd (s : string) : string :=
  match s with
  | EmptyString => EmptyString
  | String c s' =>
      let r := trimEnd s' in
      if is_white c && String.eqb r "" then EmptyString else String c r
  end.

(** [String.prototype.trim] *)
Definition trim (s : string) : string := trimEnd (trimStart s).

(** [v.trim()]: only strings have the method. *)
Definition call_trim (v : JsValue) : result string :=
  match v with
  | JStr s => Ok (trim s)
  | _ => Throw (TypeError "trim is not a function")
  end.

(** *** parseInt *)

Definition digit_value (radix : Z) (c : ascii) : option Z :=
  let n := Z.of_N (N_of_ascii c) in
  let d :=
    if (48 <=? n) && (n <=? 57) then n - 48
    else if (97 <=? n) && (n <=? 122) then n - 87
    else if (65 <=? n) && (n <=? 90) then n - 55
    else 36 in
  if d <? radix then Some d else None.

(** Value of the longest prefix of digits; [acc] is [None] until a digit has
    been read. *)
Fixpoint read_digits (radix : Z) (acc : option Z) (s : string) : option Z :=
  match s with
  | EmptyString => acc
  | String c s' =>
      match digit_value radix c with
      | Some d => read_digits radix (Some (radix * default 0 acc + d)) s'
      | None => acc
      end
  end.

(** A leading [-] or [+] is removed; [-] negates the result. *)
Definition strip_sign (s : string) : bool * string :=
  match s with
  | String c s' =>
      if Ascii.eqb c "-" then (true, s')
      else if Ascii.eqb c "+" then (false, s')
      else (false, s)
  | EmptyString => (false, s)
  end.

(** With no radix argument, a leading [0x] or [0X] is removed and selects
    radix 16; otherwise the radix is 10. *)
Definition strip_radix (s : string) : Z * string :=
  match s with
  | String c0 (String c1 s') =>
      if Ascii.eqb c0 "0" && (Ascii.eqb c1 "x" || Ascii.eqb c1 "X")
      then (16, s')
      else (10, s)
  | _ => (10, s)
  end.

(** The Number nearest to an integer.  A Number is a double: integers below
    2^53 in magnitude are Numbers themselves; a larger one keeps its 53
    leading bits, rounded to the nearest such value, to the even one on a
    tie.  (From 2^1024 on the Number is Infinity; it is kept here as the
    rounded integer, which like Infinity is not NaN and is no id of any
    table.) *)
Definition number_value (n : Z) : Z :=
  let a := Z.abs n in
  if a <? 2 ^ 53 then n
  else
    let e := Z.log2 a - 52 in
    let q := a / 2 ^ e in
    let r := a mod 2 ^ e in
    let half := 2 ^ (e - 1) in
    let q' := if (half <? r) || ((r =? half) && Z.odd q) then q + 1 else q in
    Z.sgn n * (q' * 2 ^ e).

(** [parseInt(s)] with no radix argument; [None] is NaN. *)
Definition parseInt (s : string) : option Z :=
  let '(neg, s1) := strip_sign (trimStart s) in
  let '(radix, s2) := strip_radix s1 in
  match read_digits radix None s2 with
  | None => None
  | Some m => Some (number_value (if neg then - m else m))
  end.

End Js.
Export Js.

(** ** Libraries outside the repository

    What the handlers call but the repository does not define.  Each function
    is a parameter of the development; nothing is assumed about it. *)

Record Runtime : Type := mkRuntime {
  (** [isNaN(new Date(v).getTime())]; [new Date(v)] throws for an object
      that cannot be converted to a primitive *)
  date_is_nan : JsValue -> result bool;
  (** [bcrypt.hash(password, saltRounds)] with the salt it draws *)
  bcrypt_hash : JsValue -> result string;
  (** [bcrypt.compare(password, hash)] *)
  bcrypt_compare : JsValue -> JsValue -> result bool;
  (** [jwt.sign(payload, process.env.JWT_SECRET, { expiresIn })] *)
  jwt_sign : JsValue -> result string;
  (** the text the driver sends for a parameter that is not a string, [None]
      for SQL NULL *)
  pg_text : JsValue -> option string;
  (** ToString of a value that is not a string *)
  to_string : JsValue -> result string;
  (** [v.length < n] for a value that is not a string *)
  length_below : JsValue -> Z -> bool;
  (** whether the server takes a text parameter (or NULL) for the column
      named: its type, length, encoding and constraints other than the keys
      are those of [database/schema.sql], which is not among the sources *)
  pg_accepts : string -> option string -> bool;
  (** whether the server can read a text parameter for the column named: a
      text it cannot read is refused when the statement is bound, before the
      row is formed; one it reads and does not take is refused on the row *)
  pg_reads : string -> option string -> bool;
  (** the date the server reads from the text bound to [due_date], as the
      time value of the [Date] the driver returns for it; [None] when the
      server refuses the text *)
  pg_date : string -> option Z;
  (** [Date.prototype.toISOString], the text of a [Date] in a JSON body *)
  date_iso : Z -> string
}.

(** ** The store *)

Module User.
(** Modelled from the spec: the [users] table of [database/schema.sql],
    which is not among the sources.  Columns
    [users(id, email UNIQUE, password_hash, name, created_at)]; the primary
    key [id] is the key of the finite map holding the table.  A text cell is
    [None] when it holds NULL. *)
Record Row : Type := mkRow {
  email : option string;
  password_hash : option string;
  name : option string;
  created_at : Z
}.
End User.

Module Task.
(** Modelled from the spec: the [tasks] table of [database/schema.sql],
    which is not among the sources.  Columns
    [tasks(id, user_id FK, title, description, priority, status, due_date,
    created_at, updated_at)]; the primary key [id] is the key of the finite
    map holding the table.  The text cells hold the text bound by the
    statements.  [due_date] is the task's optional calendar date: the cell
    holds a date, not the text it was read from, and like the two timestamps
    it is identified with the time value of the [Date] the driver returns
    for it (the page reads the part of its JSON text before the [T]). *)
Record Row : Type := mkRow {
  user_id : Z;
  title : option string;
  description : option string;
  priority : option string;
  due_date : option Z;
  status : option string;
  created_at : Z;
  updated_at : Z
}.
End Task.

Record Db : Type := mkDb {
  users : gmap Z User.Row;
  user_seq : Z;
  tasks : gmap Z Task.Row;
  task_seq : Z
}.

Definition empty_db : Db := mkDb ∅ 1 ∅ 1.

Definition with_users (db : Db) (u : gmap Z User.Row) (seq : Z) : Db :=
  mkDb u seq (tasks db) (task_seq db).

Definition with_tasks (db : Db) (t : gmap Z Task.Row) (seq : Z) : Db :=
  mkDb (users db) (user_seq db) t seq.

(** The store after a statement has drawn an id from a sequence and stored
    no row. *)
Definition skip_user_id (db : Db) : Db := with_users db (users db) (user_seq db + 1).

Definition skip_task_id (db : Db) : Db := with_tasks db (tasks db) (task_seq db + 1).

(** The statements below are followed on the parameters the server takes.
    An INSERT or UPDATE whose text or date the server refuses fails, as it
    does on a key or a foreign key.  An INSERT draws the id of its row when
    the row is formed: it has moved the sequence when it fails on the row or
    on a key, and has not when the server refuses a parameter on binding the
    statement (a text or a date it cannot read).  The three SELECTs, the
    DELETE and an UPDATE that selects no row are followed for every
    parameter: there the server would refuse, before looking for rows, a
    text it cannot read or an id outside the range of the id column, and the
    handler would answer 500.  Properties that state another answer for such
    a statement are stated for ids within [Pg.id_in_range]. *)

Module Pg.

(** A statement parameter as the server receives it. *)
Definition bind (rt : Runtime) (v : JsValue) : option string :=
  match v with
  | JStr s => Some s
  | JNull | JUndefined => None
  | _ => pg_text rt v
  end.

(** A text cell as the driver returns it. *)
Definition cell (c : option string) : JsValue :=
  match c with
  | Some s => JStr s
  | None => JNull
  end.

(** A date cell as the driver returns it: a [Date], or null. *)
Definition date_cell (c : option Z) : JsValue :=
  match c with
  | Some ms => JDate ms
  | None => JNull
  end.

(** Modelled from the spec: identifiers are integers, and an integer column
    holds the 32-bit range (a wider id column holds these ids too). *)
Definition id_in_range (id : Z) : bool :=
  (- 2 ^ 31 <=? id) && (id <? 2 ^ 31).

(** [column = $n] on text: never true against NULL. *)
Definition text_eq (c p : option string) : bool :=
  match c, p with
  | Some a, Some b => String.eqb a b
  | _, _ => false
  end.

Definition unique_violation : JsError :=
  mkError (Some "23505") "duplicate key value violates unique constraint".

Definition foreign_key_violation : JsError :=
  mkError (Some "23503") "insert or update on table violates foreign key constraint".

(** A parameter the server does not take for its column.  The code is one
    of class 22 or 23 other than 23505; the callers only tell 23505 from the
    rest. *)
Definition data_exception : JsError :=
  mkError (Some "22000") "value refused for its column".

(** Whether the server can read each of the cells as a parameter. *)
Definition reads (rt : Runtime) (cells : list (string * option string)) : bool :=
  forallb (fun cv => pg_reads rt cv.1 cv.2) cells.

Definition invalid_datetime : JsError :=
  mkError (Some "22007") "invalid input syntax for type date".

(** Whether the server takes each of the cells for its column. *)
Definition accepts (rt : Runtime) (cells : list (string * option string)) : bool :=
  forallb (fun cv => pg_accepts rt cv.1 cv.2) cells.

(** The date read from the parameter bound to [due_date]. *)
Definition date_in (rt : Runtime) (p : option string) : result (option Z) :=
  match p with
  | None => Ok None
  | Some s =>
      match pg_date rt s with
      | Some ms => Ok (Some ms)
      | None => Throw invalid_datetime
      end
  end.

(** The parameters of a statement writing a task, as the server reads them:
    the date of [due_date] when it takes them all. *)
Definition task_params (rt : Runtime) (t d p dd s : option string)
  : result (option Z) :=
  if accepts rt [("title", t); ("description", d); ("priority", p); ("status", s)]
  then date_in rt dd
  else Throw data_exception.

(** Whether an INSERT that fails on its parameters had drawn the id of its
    row: it has when the server read every parameter and refused the row
    formed from them, not when it refused a parameter on binding the
    statement. *)
Definition user_id_drawn (rt : Runtime) (e h n : option string) : bool :=
  reads rt [("email", e); ("password_hash", h); ("name", n)].

Definition task_id_drawn (rt : Runtime) (t d p dd s : option string) : bool :=
  reads rt [("title", t); ("description", d); ("priority", p); ("status", s)]
  && match date_in rt dd with
     | Ok _ => true
     | Throw _ => false
     end.

(** Rows of a table satisfying a WHERE clause, in key order. *)
Definition select {R : Type} (p : Z -> R -> bool) (t : gmap Z R) : list (Z * R) :=
  List.filter (fun kr => p kr.1 kr.2) (map_to_list t).

(** [INSERT INTO users (email, password_hash, name) VALUES ($1, $2, $3)]:
    the id comes from the sequence, [created_at] from the clock; the
    statement fails when the server does not take a parameter and when the id
    or the email is taken.  The id is drawn when the row is formed, before
    the row and its keys are checked: an INSERT refused on its row or on a
    key has moved the sequence. *)
Definition insert_user (rt : Runtime) (now : Z) (e h n : option string) (db : Db)
  : Db * result (Z * User.Row) :=
  if negb (accepts rt [("email", e); ("password_hash", h); ("name", n)])
  then (if user_id_drawn rt e h n then skip_user_id db else db, Throw data_exception)
  else
    let id := user_seq db in
    let taken :=
      match select (fun _ r => text_eq (User.email r) e) (users db) with
      | [] => false
      | _ :: _ => true
      end in
    match users db !! id with
    | Some _ => (skip_user_id db, Throw unique_violation)
    | None =>
        if taken then (skip_user_id db, Throw unique_violation)
        else
          let r := User.mkRow e h n now in
          (with_users db (<[id := r]> (users db)) (id + 1), Ok (id, r))
    end.

(** [INSERT INTO tasks (user_id, title, description, priority, due_date,
    status) VALUES ($1 .. $6)]: the id comes from the sequence, both
    timestamps from the clock; the statement fails when the server does not
    take a parameter, when the id is taken and when the owner is not a row of
    [users].  As for [users], an INSERT refused on its row or on a key has
    moved the sequence. *)
Definition insert_task (rt : Runtime) (now : Z) (uid : Z) (t d p dd s : option string)
    (db : Db) : Db * result (Z * Task.Row) :=
  match task_params rt t d p dd s with
  | Throw e => (if task_id_drawn rt t d p dd s then skip_task_id db else db, Throw e)
  | Ok due =>
      let id := task_seq db in
      match tasks db !! id with
      | Some _ => (skip_task_id db, Throw unique_violation)
      | None =>
          match users db !! uid with
          | None => (skip_task_id db, Throw foreign_key_violation)
          | Some _ =>
              let r := Task.mkRow uid t d p due s now now in
              (with_tasks db (<[id := r]> (tasks db)) (id + 1), Ok (id, r))
          end
      end
  end.

(** Rows of [tasks] with [id = $1 AND user_id = $2]: at most the row under
    the key. *)
Definition owned_task (taskId userId : Z) (db : Db) : option Task.Row :=
  match tasks db !! taskId with
  | Some r => if Task.user_id r =? userId then Some r else None
  | None => None
  end.

Definition user_public (id : Z) (r : User.Row) : JsValue :=
  JObj [("id", JNum id); ("email", cell (User.email r));
        ("name", cell (User.name r)); ("created_at", JDate (User.created_at r))].

Definition user_full (id : Z) (r : User.Row) : JsValue :=
  JObj [("id", JNum id); ("email", cell (User.email r));
        ("password_hash", cell (User.password_hash r));
        ("name", cell (User.name r)); ("created_at", JDate (User.created_at r))].

(** [id, user_id, title, description, priority, due_date, status,
    created_at, updated_at] *)
Definition task_object (id : Z) (r : Task.Row) : JsValue :=
  JObj [("id", JNum id); ("user_id", JNum (Task.user_id r));
        ("title", cell (Task.title r)); ("description", cell (Task.description r));
        ("priority", cell (Task.priority r));
        ("due_date", date_cell (Task.due_date r));
        ("status", cell (Task.status r));
        ("created_at", JDate (Task.created_at r));
        ("updated_at", JDate (Task.updated_at r))].

End Pg.

(** ** Store-passing computations that may throw

    An [async] function body: it reads and writes the store and either
    returns a value or throws. *)

Definition M (A : Type) : Type := Db -> Db * result A.

Definition ret {A : Type} (a : A) : M A := fun db => (db, Ok a).

Definition throw {A : Type} (e : JsError) : M A := fun db => (db, Throw e).

Definition lift {A : Type} (r : result A) : M A := fun db => (db, r).

Definition bind {A B : Type} (m : M A) (k : A -> M B) : M B :=
  fun db =>
    match m db with
    | (db', Ok a) => k a db'
    | (db', Throw e) => (db', Throw e)
    end.

(** [try { m } catch (e) { h e }] *)
Definition try_catch {A : Type} (m : M A) (h : JsError -> M A) : M A :=
  fun db =>
    match m db with
    | (db', Ok a) => (db', Ok a)
    | (db', Throw e) => h e db'
    end.

Notation "'do' x <- m ;; k" := (bind m (fun x => k))
  (at level 10, x name, m at level 99, k at level 200, only parsing).

(** ** models/userModel.js *)

Module UserModel.

Definition createUser (rt : Runtime) (now : Z) (email password name : JsValue)
  : M JsValue :=
  do passwordHash <- lift (bcrypt_hash rt password) ;;
  try_catch
    (do row <- Pg.insert_user rt now (Pg.bind rt email) (Some passwordHash)
                (Pg.bind rt name) ;;
     ret (Pg.user_public row.1 row.2))
    (fun error =>
       if bool_decide (code error = Some "23505")
       then throw (mkError None "Email already exists")
       else throw error).

Definition findUserByEmail (rt : Runtime) (email : JsValue) : M JsValue :=
  fun db =>
    let rows :=
      Pg.select (fun _ r => Pg.text_eq (User.email r) (Pg.bind rt email)) (users db) in
    match rows with
    | [] => (db, Ok JNull)
    | (id, r) :: _ => (db, Ok (Pg.user_full id r))
    end.

Definition findUserById (userId : Z) : M JsValue :=
  fun db =>
    match users db !! userId with
    | None => (db, Ok JNull)
    | Some r => (db, Ok (Pg.user_public userId r))
    end.

End UserModel.

(** ** models/taskModel.js *)

Module TaskModel.

(** The object literal [{ title, description, priority, dueDate, status }]. *)
Record TaskData : Type := mkTaskData {
  title : JsValue;
  description : JsValue;
  priority : JsValue;
  dueDate : JsValue;
  status : JsValue
}.

Definition createTask (rt : Runtime) (now : Z) (userId : Z) (taskData : TaskData)
  : M JsValue :=
  try_catch
    (do row <- Pg.insert_task rt now userId
              (Pg.bind rt (title taskData))
              (Pg.bind rt (js_or (description taskData) JNull))
              (Pg.bind rt (js_or (priority taskData) (JStr "medium")))
              (Pg.bind rt (js_or (dueDate taskData) JNull))
              (Pg.bind rt (js_or (status taskData) (JStr "pending"))) ;;
     ret (Pg.task_object row.1 row.2))
    (fun error => throw error).

Fixpoint insert_desc (x : Z * Task.Row) (l : list (Z * Task.Row)) : list (Z * Task.Row) :=
  match l with
  | [] => [x]
  | y :: l' =>
      if Task.created_at y.2 <=? Task.created_at x.2 then x :: l
      else y :: insert_desc x l'
  end.

(** [ORDER BY created_at DESC]; the order among equal timestamps, which SQL
    leaves open, is by key. *)
Definition order_by_created_desc (l : list (Z * Task.Row)) : list (Z * Task.Row) :=
  foldr insert_desc [] l.

Definition getTasksByUserId (userId : Z) : M (list JsValue) :=
  fun db =>
    let rows := Pg.select (fun _ r => Task.user_id r =? userId) (tasks db) in
    (db, Ok (map (fun kr => Pg.task_object kr.1 kr.2) (order_by_created_desc rows))).

Definition getTaskById (taskId userId : Z) : M JsValue :=
  fun db =>
    match Pg.owned_task taskId userId db with
    | None => (db, Ok JNull)
    | Some r => (db, Ok (Pg.task_object taskId r))
    end.

(** [UPDATE tasks SET ... WHERE id = $6 AND user_id = $7]: on the row it
    selects, the statement fails when the server does not take a
    parameter. *)
Definition updateTask (rt : Runtime) (now : Z) (taskId userId : Z) (taskData : TaskData)
  : M JsValue :=
  fun db =>
    match Pg.owned_task taskId userId db with
    | None => (db, Ok JNull)
    | Some old =>
        match Pg.task_params rt
                (Pg.bind rt (title taskData))
                (Pg.bind rt (description taskData))
                (Pg.bind rt (priority taskData))
                (Pg.bind rt (dueDate taskData))
                (Pg.bind rt (status taskData)) with
        | Throw e => (db, Throw e)
        | Ok due =>
            let r := Task.mkRow (Task.user_id old)
                       (Pg.bind rt (title taskData))
                       (Pg.bind rt (description taskData))
                       (Pg.bind rt (priority taskData))
                       due
                       (Pg.bind rt (status taskData))
                       (Task.created_at old) now in
            (with_tasks db (<[taskId := r]> (tasks db)) (task_seq db),
             Ok (Pg.task_object taskId r))
        end
    end.

Definition deleteTask (taskId userId : Z) : M bool :=
  fun db =>
    match Pg.owned_task taskId userId db with
    | None => (db, Ok false)
    | Some _ =>
        (with_tasks db (delete taskId (tasks db)) (task_seq db), Ok true)
    end.

End TaskModel.

(** ** Requests and responses *)

(** What the handlers read of [req]: [req.user.userId], set by the
    [authenticateToken] middleware from the verified token before a protected
    handler runs; the path parameter [req.params.id]; the parsed JSON body. *)
Record Request : Type := mkRequest {
  userId : Z;
  params_id : string;
  body : gmap string JsValue
}.

(** A destructured property of [req.body]: [undefined] when missing. *)
Definition field (k : string) (req : Request) : JsValue :=
  default JUndefined (body req !! k).

(** [res.status(code).json(payload)].  Every payload built below has all
    its properties defined, so none is dropped when it is serialised. *)
Record Response : Type := mkResponse { code_of : Z; json : JsValue }.

Definition error_response (c : Z) (msg : string) : Response :=
  mkResponse c (JObj [("error", JStr msg)]).

Definition Handler : Type := Db -> Db * Response.

(** [try { body } catch (error) { on_error error }] around a handler body. *)
Definition respond (m : M Response) (on_error : JsError -> Response) : Handler :=
  fun db =>
    match m db with
    | (db', Ok r) => (db', r)
    | (db', Throw e) => (db', on_error e)
    end.

(** ** controllers/authController.js *)

Module AuthController.

Definition plain (c : ascii) : bool :=
  negb (is_white c) && negb (Ascii.eqb c "@").

Fixpoint all_plain (s : string) : bool :=
  match s with
  | EmptyString => true
  | String c s' => plain c && all_plain s'
  end.

(** The text before the first [@] and the text after it. *)
Fixpoint split_at (s : string) : option (string * string) :=
  match s with
  | EmptyString => None
  | String c s' =>
      if Ascii.eqb c "@" then Some (EmptyString, s')
      else match split_at s' with
           | Some (a, b) => Some (String c a, b)
           | None => None
           end
  end.

(** A dot with at least one character after it. *)
Fixpoint dot_inside (s : string) : bool :=
  match s with
  | EmptyString => false
  | String c s' =>
      (Ascii.eqb c "." && negb (String.eqb s' "")) || dot_inside s'
  end.

(** [/^[^\s@]+@[^\s@]+\.[^\s@]+$/.test(s)] on a string: one [@], neither
    side with white space, a non-empty left side, and on the right a dot
    that is neither its first nor its last character. *)
Definition emailRegex_test (s : string) : bool :=
  match split_at s with
  | None => false
  | Some (a, b) =>
      negb (String.eqb a "") && all_plain a && all_plain b &&
      match b with
      | EmptyString => false
      | String _ b' => dot_inside b'
      end
  end.

Definition regex_test (rt : Runtime) (v : JsValue) : result bool :=
  match v with
  | JStr s => Ok (emailRegex_test s)
  | _ =>
      match to_string rt v with
      | Ok s => Ok (emailRegex_test s)
      | Throw e => Throw e
      end
  end.

(** [v.length < n] *)
Definition shorter_than (rt : Runtime) (v : JsValue) (n : Z) : bool :=
  match v with
  | JStr s => Z.of_nat (String.length s) <? n
  | _ => length_below rt v n
  end.

Definition user_summary (user : JsValue) : JsValue :=
  JObj [("id", prop "id" user); ("email", prop "email" user);
        ("name", prop "name" user)].

Definition signup (rt : Runtime) (now : Z) (req : Request) : Handler :=
  respond
    (let email := field "email" req in
     let password := field "password" req in
     let name := field "name" req in
     if negb (truthy email) || negb (truthy password) || negb (truthy name)
     then ret (error_response 400 "Email, password, and name are required")
     else
       do matches <- lift (regex_test rt email) ;;
       if negb matches
       then ret (error_response 400 "Invalid email format")
       else if shorter_than rt password 6
       then ret (error_response 400 "Password must be at least 6 characters")
       else
         do user <- UserModel.createUser rt now email password name ;;
         ret (mkResponse 201
                (JObj [("message", JStr "User created successfully");
                       ("user", user_summary user)])))
    (fun error =>
       if String.eqb (message error) "Email already exists"
       then error_response 409 "Email already exists"
       else error_response 500 "Server error during signup").

Definition login (rt : Runtime) (req : Request) : Handler :=
  respond
    (let email := field "email" req in
     let password := field "password" req in
     if negb (truthy email) || negb (truthy password)
     then ret (error_response 400 "Email and password are required")
     else
       do user <- UserModel.findUserByEmail rt email ;;
       if negb (truthy user)
       then ret (error_response 401 "Invalid email or password")
       else
         do isPasswordValid <-
           lift (bcrypt_compare rt password (prop "password_hash" user)) ;;
         if negb isPasswordValid
         then ret (error_response 401 "Invalid email or password")
         else
           let tokenPayload :=
             JObj [("userId", prop "id" user); ("email", prop "email" user)] in
           do token <- lift (jwt_sign rt tokenPayload) ;;
           ret (mkResponse 200
                  (JObj [("message", JStr "Login successful");
                         ("token", JStr token);
                         ("user", user_summary user)])))
    (fun _ => error_response 500 "Server error during login").

End AuthController.

(** ** controllers/userController.js *)

Module UserController.

Definition getCurrentUser (req : Request) : Handler :=
  respond
    (do user <- UserModel.findUserById (userId req) ;;
     if negb (truthy user)
     then ret (error_response 404 "User not found")
     else
       ret (mkResponse 200
              (JObj [("user",
                      JObj [("id", prop "id" user); ("email", prop "email" user);
                            ("name", prop "name" user);
                            ("createdAt", prop "created_at" user)])])))
    (fun _ => error_response 500 "Server error fetching user").

End UserController.

(** ** controllers/taskController.js *)

Module TaskController.

Definition validPriorities : list string := ["low"; "medium"; "high"].

Definition validStatuses : list string := ["pending"; "in_progress"; "completed"].

(** [description?.trim()] *)
Definition optional_trim (v : JsValue) : result JsValue :=
  match v with
  | JUndefined | JNull => Ok JUndefined
  | _ =>
      match call_trim v with
      | Ok s => Ok (JStr s)
      | Throw e => Throw e
      end
  end.

(** [if (dueDate) { const date = new Date(dueDate); if (isNaN(date.getTime()))
    ...]: whether the 400 branch is taken. *)
Definition invalid_date (rt : Runtime) (dueDate : JsValue) : result bool :=
  if truthy dueDate then date_is_nan rt dueDate else Ok false.

(** The object sent under ["task"]. *)
Definition task_json (task : JsValue) : JsValue :=
  JObj [("id", prop "id" task); ("userId", prop "user_id" task);
        ("title", prop "title" task); ("description", prop "description" task);
        ("priority", prop "priority" task); ("dueDate", prop "due_date" task);
        ("status", prop "status" task); ("createdAt", prop "created_at" task);
        ("updatedAt", prop "updated_at" task)].

Definition create (rt : Runtime) (now : Z) (req : Request) : Handler :=
  respond
    (let title := field "title" req in
     let description := field "description" req in
     let priority := field "priority" req in
     let dueDate := field "dueDate" req in
     let status := field "status" req in
     if negb (truthy title)
     then ret (error_response 400 "Title is required")
     else
       do trimmed <- lift (call_trim title) ;;
       if String.eqb trimmed ""
       then ret (error_response 400 "Title is required")
       else if truthy priority && negb (includes validPriorities priority)
       then ret (error_response 400 "Priority must be low, medium, or high")
       else if truthy status && negb (includes validStatuses status)
       then ret (error_response 400 "Status must be pending, in_progress, or completed")
       else
         do invalid <- lift (invalid_date rt dueDate) ;;
         if invalid
         then ret (error_response 400 "Invalid due date format")
         else
           do title' <- lift (call_trim title) ;;
           do description' <- lift (optional_trim description) ;;
           let taskData :=
             TaskModel.mkTaskData (JStr title') description' priority dueDate status in
           do task <- TaskModel.createTask rt now (userId req) taskData ;;
           ret (mkResponse 201
                  (JObj [("message", JStr "Task created successfully");
                         ("task", task_json task)])))
    (fun _ => error_response 500 "Server error creating task").

Definition getAllTasks (req : Request) : Handler :=
  respond
    (do tasks <- TaskModel.getTasksByUserId (userId req) ;;
     let formattedTasks := map task_json tasks in
     ret (mkResponse 200
            (JObj [("count", JNum (Z.of_nat (length formattedTasks)));
                   ("tasks", JArr formattedTasks)])))
    (fun _ => error_response 500 "Server error fetching tasks").

Definition getTask (req : Request) : Handler :=
  respond
    (match parseInt (params_id req) with
     | None => ret (error_response 400 "Invalid task ID")
     | Some taskId =>
         do task <- TaskModel.getTaskById taskId (userId req) ;;
         if negb (truthy task)
         then ret (error_response 404 "Task not found")
         else ret (mkResponse 200 (JObj [("task", task_json task)]))
     end)
    (fun _ => error_response 500 "Server error fetching task").

Definition update (rt : Runtime) (now : Z) (req : Request) : Handler :=
  respond
    (match parseInt (params_id req) with
     | None => ret (error_response 400 "Invalid task ID")
     | Some taskId =>
         let title := field "title" req in
         let description := field "description" req in
         let priority := field "priority" req in
         let dueDate := field "dueDate" req in
         let status := field "status" req in
         if negb (truthy title)
         then ret (error_response 400 "Title is required")
         else
           do trimmed <- lift (call_trim title) ;;
           if String.eqb trimmed ""
           then ret (error_response 400 "Title is required")
           else if truthy priority && negb (includes validPriorities priority)
           then ret (error_response 400 "Priority must be low, medium, or high")
           else if truthy status && negb (includes validStatuses status)
           then ret (error_response 400 "Status must be pending, in_progress, or completed")
           else
             do invalid <- lift (invalid_date rt dueDate) ;;
             if invalid
             then ret (error_response 400 "Invalid due date format")
             else
               do title' <- lift (call_trim title) ;;
               do description' <- lift (optional_trim description) ;;
               let taskData :=
                 TaskModel.mkTaskData (JStr title')
                   (js_or description' JNull)
                   (js_or priority (JStr "medium"))
                   (js_or dueDate JNull)
                   (js_or status (JStr "pending")) in
               do updatedTask <- TaskModel.updateTask rt now taskId (userId req) taskData ;;
               if negb (truthy updatedTask)
               then ret (error_response 404 "Task not found")
               else
                 ret (mkResponse 200
                        (JObj [("message", JStr "Task updated successfully");
                               ("task", task_json updatedTask)]))
     end)
    (fun _ => error_response 500 "Server error updating task").

Definition remove (req : Request) : Handler :=
  respond
    (match parseInt (params_id req) with
     | None => ret (error_response 400 "Invalid task ID")
     | Some taskId =>
         do deleted <- TaskModel.deleteTask taskId (userId req) ;;
         if negb deleted
         then ret (error_response 404 "Task not found")
         else ret (mkResponse 200 (JObj [("message", JStr "Task deleted successfully")]))
     end)
    (fun _ => error_response 500 "Server error deleting task").

End TaskController.

(** ** The routes mounted by server.js *)

Inductive Route : Type :=
  | PostSignup
  | PostLogin
  | GetMe
  | GetTasks
  | PostTasks
  | GetTaskId
  | PutTaskId
  | DeleteTaskId.

(** One request that has passed the router (and, on a protected route, the
    token check), served at time [now]. *)
Definition serve (rt : Runtime) (now : Z) (route : Route) (req : Request) : Handler :=
  match route with
  | PostSignup => AuthController.signup rt now req
  | PostLogin => AuthController.login rt req
  | GetMe => UserController.getCurrentUser req
  | GetTasks => TaskController.getAllTasks req
  | PostTasks => TaskController.create rt now req
  | GetTaskId => TaskController.getTask req
  | PutTaskId => TaskController.update rt now req
  | DeleteTaskId => TaskController.remove req
  end.

(** A sequence of requests, each with its arrival time. *)
Fixpoint serve_all (rt : Runtime) (reqs : list (Z * Route * Request)) (db : Db) : Db :=
  match reqs with
  | [] => db
  | (now, route, req) :: rest => serve_all rt rest (serve rt now route req db).1
  end.

(** ** Concrete inputs

    A runtime and a few stores to evaluate the handlers on. *)

Module Sample.

Definition hash_of (s : string) : string := "$2a$10$" ++ s.

(** U+0000, which no text column holds. *)
Fixpoint has_nul (s : string) : bool :=
  match s with
  | EmptyString => false
  | String c s' => Ascii.eqb c zero || has_nul s'
  end.

(** A runtime in which 2024-01-15 and 2024-02-30 (which JavaScript reads as
    the first of March) are the date strings that parse, the server reads the
    first and refuses the second, and the server reads every text without
    U+0000 and takes, of those, every text and NULL for [description]
    only. *)
Definition runtime : Runtime :=
  mkRuntime
    (fun v => match v with
              | JStr s => Ok (negb (String.eqb s "2024-01-15" || String.eqb s "2024-02-30"))
              | JNum _ => Ok false
              | JObj (("valueOf", _) :: _) =>
                  Throw (mkError None "Cannot convert object to primitive value")
              | _ => Ok true
              end)
    (fun v => match v with
              | JStr s => Ok (hash_of s)
              | _ => Throw (mkError None "Illegal arguments")
              end)
    (fun p h => match p, h with
                | JStr s, JStr t => Ok (String.eqb (hash_of s) t)
                | _, _ => Throw (mkError None "Illegal arguments")
                end)
    (fun _ => Ok "header.payload.signature")
    (fun v => match v with
              | JBool true => Some "true"
              | JBool false => Some "false"
              | _ => None
              end)
    (fun v => match v with
              | JBool true => Ok "true"
              | JBool false => Ok "false"
              | JNull => Ok "null"
              | JUndefined => Ok "undefined"
              | _ => Ok "[object Object]"
              end)
    (fun _ _ => false)
    (fun column c => match c with
                     | Some s => negb (has_nul s)
                     | None => String.eqb column "description"
                     end)
    (fun _ c => match c with
                | Some s => negb (has_nul s)
                | None => true
                end)
    (fun s => if String.eqb s "2024-01-15" then Some 1705276800000 else None)
    (fun ms => if ms =? 1705276800000 then "2024-01-15T00:00:00.000Z"
               else "1970-01-01T00:00:00.000Z").

Definition ann : User.Row :=
  User.mkRow (Some "ann@example.com") (Some (hash_of "secret1")) (Some "Ann") 10.

Definition bob : User.Row :=
  User.mkRow (Some "bob@example.com") (Some (hash_of "hunter22")) (Some "Bob") 20.

Definition milk : Task.Row :=
  Task.mkRow 1 (Some "Buy milk") (Some "two litres") (Some "high")
    (Some 1705276800000) (Some "completed") 30 30.

Definition report : Task.Row :=
  Task.mkRow 2 (Some "Write report") None (Some "low") None (Some "pending") 40 40.

(** Ann and Bob, no task yet. *)
Definition db_users : Db := mkDb (<[2 := bob]> {[1 := ann]}) 3 ∅ 1.

(** Ann owns task 1, Bob owns task 2. *)
Definition db_tasks : Db :=
  mkDb (<[2 := bob]> {[1 := ann]}) 3 (<[2 := report]> {[1 := milk]}) 3.

Definition body_of (l : list (string * JsValue)) : gmap string JsValue := list_to_map l.

End Sample.

(** ** Numeric path parameters *)

Definition is_digit (c : ascii) : bool :=
  let n := Z.of_N (N_of_ascii c) in (48 <=? n) && (n <=? 57).

Fixpoint all_digits (s : string) : bool :=
  match s with
  | EmptyString => true
  | String c s' => is_digit c && all_digits s'
  end.

(** A numeric id in the sense of the interface table ("400 non-numeric
    id"): a non-empty string of decimal digits, the form in which a task id
    appears in a path. *)
Definition is_numeric (s : string) : bool :=
  negb (String.eqb s "") && all_digits s.

(** What may follow the digits of an id for [parseInt] to read exactly
    them: nothing, or a character that is neither a digit nor the [x] of a
    hexadecimal prefix. *)
Definition stops_digits (rest : string) : bool :=
  match rest with
  | EmptyString => true
  | String c _ => negb (is_digit c) && negb (Ascii.eqb c "x") && negb (Ascii.eqb c "X")
  end.

Definition invalid_task_id : Response := error_response 400 "Invalid task ID".

Definition task_not_found : Response := error_response 404 "Task not found".

(** ** Validation of a task body *)

(** The three checks of [create] and [update] on the optional fields, as
    the conditions under which the handler does not return 400. *)
Definition priority_accepted (v : JsValue) : bool :=
  negb (truthy v && negb (includes TaskController.validPriorities v)).

Definition status_accepted (v : JsValue) : bool :=
  negb (truthy v && negb (includes TaskController.validStatuses v)).

Definition dueDate_accepted (rt : Runtime) (v : JsValue) : bool :=
  match TaskController.invalid_date rt v with
  | Ok invalid => negb invalid
  | Throw _ => false
  end.

(** The server takes what [create] and [update] bind for a body that passes
    validation, with title [t] and trimmed description [d], and reads [due]
    for the due date. *)
Definition store_accepts (rt : Runtime) (req : Request) (t : string) (d : JsValue)
    (due : option Z) : Prop :=
  Pg.task_params rt
    (Some (trim t))
    (Pg.bind rt (js_or d JNull))
    (Pg.bind rt (js_or (field "priority" req) (JStr "medium")))
    (Pg.bind rt (js_or (field "dueDate" req) JNull))
    (Pg.bind rt (js_or (field "status" req) (JStr "pending")))
  = Ok due.

(** The row [update] writes over [old] for a body that passes validation
    and that the server takes, reading [due] for the due date. *)
Definition replaced_row (rt : Runtime) (now : Z) (req : Request) (t : string)
    (d : JsValue) (due : option Z) (old : Task.Row) : Task.Row :=
  Task.mkRow (Task.user_id old)
    (Some (trim t))
    (Pg.bind rt (js_or d JNull))
    (Pg.bind rt (js_or (field "priority" req) (JStr "medium")))
    due
    (Pg.bind rt (js_or (field "status" req) (JStr "pending")))
    (Task.created_at old) now.

(** The row [create] inserts for a body that passes validation and that the
    server takes, reading [due] for the due date. *)
Definition created_row (rt : Runtime) (now : Z) (req : Request) (t : string)
    (d : JsValue) (due : option Z) : Task.Row :=
  Task.mkRow (userId req)
    (Some (trim t))
    (Pg.bind rt (js_or d JNull))
    (Pg.bind rt (js_or (field "priority" req) (JStr "medium")))
    due
    (Pg.bind rt (js_or (field "status" req) (JStr "pending")))
    now now.

(** ** Trimmed strings *)

Definition starts_plain (s : string) : bool :=
  match s with
  | EmptyString => true
  | String c _ => negb (is_white c)
  end.

Fixpoint ends_plain (s : string) : bool :=
  match s with
  | EmptyString => true
  | String c s' =>
      match s' with
      | EmptyString => negb (is_white c)
      | String _ _ => ends_plain s'
      end
  end.

(** A string with no white space at either end. *)
Definition is_trimmed (s : string) : bool := starts_plain s && ends_plain s.

(** ** Identity of tasks across a change of store *)

(** Every task present before and after has the same owner and creation
    time. *)
Definition keeps_identity (db db' : Db) : Prop :=
  forall id r r',
    tasks db !! id = Some r -> tasks db' !! id = Some r' ->
    Task.user_id r' = Task.user_id r /\ Task.created_at r' = Task.created_at r.

(** The id sequence of [tasks] is ahead of every id in the table, as it is
    in a table only ever filled through the sequence. *)
Definition sequence_ahead (db : Db) : Prop :=
  forall id, is_Some (tasks db !! id) -> id < task_seq db.

(** ** What is stored for an optional field *)

(** The cell stored for a priority or status sent as [v]: the default when
    [v] is falsy (missing, null, false, 0 or the empty string), else [v]
    itself, which is then one of the valid strings. *)
Definition stored_choice (valid : list string) (dflt : string) (v : JsValue)
    (c : option string) : Prop :=
  (truthy v = false /\ c = Some dflt)
  \/ (exists x, v = JStr x /\ x <> "" /\ In x valid /\ c = Some x).

(** The cell stored for a due date sent as [v]: NULL when [v] is falsy, else
    the date the server reads from the text bound for [v], which then parses
    as a date in the handler. *)
Definition stored_date (rt : Runtime) (v : JsValue) (c : option Z) : Prop :=
  (truthy v = false /\ c = None)
  \/ (truthy v = true /\ date_is_nan rt v = Ok false
      /\ Pg.date_in rt (Pg.bind rt v) = Ok c).

Definition invalid_credentials : Response :=
  error_response 401 "Invalid email or password".

Definition email_conflict : Response :=
  error_response 409 "Email already exists".

(** ** Listings *)

(** [a] is not older than [b]: the order of [ORDER BY created_at DESC]. *)
Definition newer_first (a b : Z * Task.Row) : Prop :=
  Task.created_at b.2 <= Task.created_at a.2.

(** The number of rows of [tasks] owned by [uid]. *)
Definition owned_count (uid : Z) (db : Db) : nat :=
  length (Pg.select (fun _ r => Task.user_id r =? uid) (tasks db)).

(** ** Status codes of the routes *)

(** The code a route answers when it has done what was asked. *)
Definition success_code (route : Route) : Z :=
  match route with
  | PostSignup | PostTasks => 201
  | _ => 200
  end.

(** The codes the handler of a route sends: those of its [res.status]
    calls. *)
Definition route_codes (route : Route) : list Z :=
  match route with
  | PostSignup => [201; 400; 409; 500]
  | PostLogin => [200; 400; 401; 500]
  | GetMe => [200; 404; 500]
  | GetTasks => [200; 500]
  | PostTasks => [201; 400; 500]
  | GetTaskId => [200; 400; 404; 500]
  | PutTaskId => [200; 400; 404; 500]
  | DeleteTaskId => [200; 400; 404; 500]
  end.

(** Routes that only read. *)
Definition read_only (route : Route) : bool :=
  match route with
  | PostLogin | GetMe | GetTasks | GetTaskId => true
  | _ => false
  end.

(** Routes served by the task controller. *)
Definition task_route (route : Route) : bool :=
  match route with
  | GetTasks | PostTasks | GetTaskId | PutTaskId | DeleteTaskId => true
  | _ => false
  end.

(** The row [signup] inserts for a body that passes its checks. *)
Definition signed_up_row (rt : Runtime) (now : Z) (req : Request) (h : string) : User.Row :=
  User.mkRow (Pg.bind rt (field "email" req)) (Some h) (Pg.bind rt (field "name" req)) now.

(** ** Invariants of the stored rows *)

(** No two rows of [users] hold the same email. *)
Definition unique_emails (db : Db) : Prop :=
  forall k1 k2 r1 r2 e,
    users db !! k1 = Some r1 -> users db !! k2 = Some r2 ->
    User.email r1 = Some e -> User.email r2 = Some e -> k1 = k2.

(** What the task handlers store: a trimmed non-empty title, a description
    that is NULL or trimmed and non-empty, a priority and a status among the
    valid ones. *)
Definition well_formed_task (r : Task.Row) : Prop :=
  (exists t, Task.title r = Some t /\ t <> "" /\ is_trimmed t = true)
  /\ (Task.description r = None
      \/ exists d, Task.description r = Some d /\ d <> "" /\ is_trimmed d = true)
  /\ (exists p, Task.priority r = Some p /\ In p TaskController.validPriorities)
  /\ (exists s, Task.status r = Some s /\ In s TaskController.validStatuses).

Definition tasks_well_formed (db : Db) : Prop :=
  forall id r, tasks db !! id = Some r -> well_formed_task r.

(** A string of white space only (the empty string included). *)
Fixpoint all_white (s : string) : bool :=
  match s with
  | EmptyString => true
  | String c s' => is_white c && all_white s'
  end.

(** ** Looking into a JSON payload *)

(** Whether a property named [k] occurs anywhere in [v], at any depth. *)
Fixpoint mentions_key (k : string) (v : JsValue) {struct v} : bool :=
  match v with
  | JArr items => existsb (mentions_key k) items
  | JObj fields =>
      existsb (fun kv => String.eqb k kv.1 || mentions_key k kv.2) fields
  | _ => false
  end.

(** ** The language of the email pattern *)

(** [s] is [a @ b . c] with [a], [b], [c] non-empty and free of white space
    and of [@]: the strings matched by [^[^\s@]+@[^\s@]+\.[^\s@]+$]. *)
Definition matches_email_pattern (s : string) : Prop :=
  exists a b c,
    s = String.append a (String "@" (String.append b (String "." c)))
    /\ a <> "" /\ b <> "" /\ c <> ""
    /\ AuthController.all_plain a = true
    /\ AuthController.all_plain b = true
    /\ AuthController.all_plain c = true.

(** ** frontend/src/services/api.js *)

Module Api.

(** The character of a decimal digit. *)
Definition digit_char (d : Z) : ascii := ascii_of_N (Z.to_N (48 + d)).

(** The decimal numeral of [n], for [0 <= n < 10 ^ fuel]. *)
Fixpoint decimal (fuel : nat) (n : Z) : string :=
  match fuel with
  | O => EmptyString
  | S fuel' =>
      if n <? 10 then String (digit_char n) EmptyString
      else String.append (decimal fuel' (n / 10)) (String (digit_char (n mod 10)) EmptyString)
  end.

(** [`${taskId}`] in the path of [getTask], [updateTask] and [deleteTask]:
    ToString of a number.  The ids the page holds are those the server sent,
    integers [0 <= taskId < 2^53], for which it is the decimal numeral (of at
    most 16 digits). *)
Definition path_id (taskId : Z) : string := decimal 16 taskId.

End Api.

(** ** The interceptors of frontend/src/services/api.js *)

Module Client.

(** [localStorage] is a finite map from keys to strings; [getItem] of a
    missing key is null. *)

(** The request interceptor: [config.headers.Authorization] is set when
    [localStorage.getItem('token')] is truthy. *)
Definition on_request (storage : gmap string string) (headers : gmap string string)
  : gmap string string :=
  match storage !! "token" with
  | Some token =>
      if String.eqb token "" then headers
      else <["Authorization" := String.append "Bearer " token]> headers
  | None => headers
  end.

(** The error branch of the response interceptor, on
    [error.response?.status] ([None] when the error has no response): 401
    and 403 remove the token and the user (and send the browser to /login). *)
Definition on_response_error (storage : gmap string string) (status : option Z)
  : gmap string string :=
  match status with
  | Some c =>
      if (c =? 401) || (c =? 403) then delete "user" (delete "token" storage)
      else storage
  | None => storage
  end.

(** [JSON.stringify] of an object literal, as the body the server parses:
    a property whose value is [undefined] is left out. *)
Definition json_body (fields : list (string * JsValue)) : gmap string JsValue :=
  foldr (fun kv m => match kv.2 with
                     | JUndefined => m
                     | v => <[kv.1 := v]> m
                     end) ∅ fields.

(** [response.data]: the payload of a response after [JSON.stringify] on
    the server and [JSON.parse] in the client.  A [Date] arrives as its ISO
    text, a property whose value is [undefined] does not arrive, and
    [undefined] in an array arrives as null. *)
Fixpoint response_data (rt : Runtime) (v : JsValue) {struct v} : JsValue :=
  match v with
  | JDate ms => JStr (date_iso rt ms)
  | JUndefined => JNull
  | JArr items => JArr (map (response_data rt) items)
  | JObj fields =>
      JObj (flat_map (fun kv => match kv.2 with
                                | JUndefined => []
                                | _ => [(kv.1, response_data rt kv.2)]
                                end) fields)
  | _ => v
  end.

End Client.

(** ** The form of the tasks page *)

Module TasksPage.

(** The state behind the form: [title], [description], [priority],
    [status], [dueDate]. *)
Record Form : Type := mkForm {
  title : JsValue;
  description : JsValue;
  priority : JsValue;
  status : JsValue;
  dueDate : JsValue
}.

(** The [taskData] literal of [handleCreate] and [handleUpdate]. *)
Definition taskData (f : Form) : list (string * JsValue) :=
  [("title", title f);
   ("description", js_or (description f) JUndefined);
   ("priority", priority f);
   ("status", status f);
   ("dueDate", js_or (dueDate f) JUndefined)].

(** [s.split('T')[0]] *)
Fixpoint before_T (s : string) : string :=
  match s with
  | EmptyString => EmptyString
  | String c s' => if Ascii.eqb c "T" then EmptyString else String c (before_T s')
  end.

(** The form state [handleEdit] sets from a task of the list, as it
    arrived in a response. *)
Definition handleEdit (task : JsValue) : result Form :=
  let due := prop "dueDate" task in
  match (if truthy due
         then match due with
              | JStr s => Ok (JStr (before_T s))
              | _ => Throw (TypeError "split is not a function")
              end
         else Ok (JStr "")) with
  | Ok d =>
      Ok (mkForm (prop "title" task)
            (js_or (prop "description" task) (JStr ""))
            (prop "priority" task)
            (prop "status" task)
            d)
  | Throw e => Throw e
  end.

(** The request [handleCreate] sends for a form, for the user of the
    token. *)
Definition create_request (uid : Z) (f : Form) : Request :=
  mkRequest uid "" (Client.json_body (taskData f)).

(** The request [handleUpdate] sends for a form while editing the task
    with id [taskId]. *)
Definition update_request (uid taskId : Z) (f : Form) : Request :=
  mkRequest uid (Api.path_id taskId) (Client.json_body (taskData f)).

End TasksPage.

(** The date text the form holds for a stored due date: the part of its
    ISO text before the [T], empty for NULL. *)
Definition form_due_date (rt : Runtime) (c : option Z) : string :=
  match c with
  | Some ms => TasksPage.before_T (date_iso rt ms)
  | None => ""
  end.

(** * Properties *)

(** ** Queries over a table *)

Section Select.
Context {R : Type}.
Implicit Types (p : Z -> R -> bool) (t : gmap Z R).

Lemma select_In p t k r :
  In (k, r) (Pg.select p t) <-> t !! k = Some r /\ p k r = true.
Proof.
  unfold Pg.select. rewrite filter_In, <- list_elem_of_In, elem_of_map_to_list.
  reflexivity.
Qed.

Lemma select_nil p t :
  Pg.select p t = [] <-> forall k r, t !! k = Some r -> p k r = false.
Proof.
  split.
  - intros Hnil k r Hk. destruct (p k r) eqn:Hp; [|reflexivity].
    assert (In (k, r) (Pg.select p t)) as Hin by (apply select_In; auto).
    rewrite Hnil in Hin. destruct Hin.
  - intros Hall. destruct (Pg.select p t) as [|[k r] rest] eqn:Hsel; [reflexivity|].
    assert (In (k, r) (Pg.select p t)) as Hin by (rewrite Hsel; left; reflexivity).
    apply select_In in Hin as [Hk Hp]. rewrite (Hall k r Hk) in Hp. discriminate.
Qed.

Lemma select_head p t k r rest :
  Pg.select p t = (k, r) :: rest -> t !! k = Some r /\ p k r = true.
Proof.
  intros Hsel. apply select_In. rewrite Hsel. left. reflexivity.
Qed.
End Select.

(** ** Reading users *)

Lemma findUserById_shape (userId : Z) (db : Db) :
  UserModel.findUserById userId db = (db, Ok JNull) /\ users db !! userId = None
  \/ exists r, users db !! userId = Some r
       /\ UserModel.findUserById userId db = (db, Ok (Pg.user_public userId r)).
Proof.
  unfold UserModel.findUserById. destruct (users db !! userId) as [r|] eqn:Hr.
  - right. exists r. split; reflexivity.
  - left. split; reflexivity.
Qed.

Lemma findUserByEmail_shape (rt : Runtime) (email : JsValue) (db : Db) :
  UserModel.findUserByEmail rt email db = (db, Ok JNull)
    /\ (forall k r, users db !! k = Some r ->
          Pg.text_eq (User.email r) (Pg.bind rt email) = false)
  \/ exists k r, users db !! k = Some r
       /\ Pg.text_eq (User.email r) (Pg.bind rt email) = true
       /\ UserModel.findUserByEmail rt email db = (db, Ok (Pg.user_full k r)).
Proof.
  unfold UserModel.findUserByEmail.
  destruct (Pg.select _ (users db)) as [|[k r] rest] eqn:Hsel.
  - left. split; [reflexivity|]. exact (proj1 (select_nil _ _) Hsel).
  - right. exists k, r. destruct (select_head _ _ _ _ _ Hsel) as [Hk Hp]. auto.
Qed.

(** C1, as stated, fails: [findUserByEmail] hands back the stored hash.  On
    the store holding Ann and Bob, looking Ann up by her email returns a row
    whose [password_hash] property is present and equal to the stored hash. *)
Lemma findUserByEmail_returns_hash :
  UserModel.findUserByEmail Sample.runtime (JStr "ann@example.com") Sample.db_users
    = (Sample.db_users, Ok (Pg.user_full 1 Sample.ann))
  /\ has_prop "password_hash" (Pg.user_full 1 Sample.ann) = true
  /\ prop "password_hash" (Pg.user_full 1 Sample.ann) = JStr "$2a$10$secret1".
Proof. vm_compute. repeat split; reflexivity. Qed.

(** C1 (amended): [findUserById] never returns the password hash: for every
    store and id it returns null or a row without a [password_hash] property.
    [findUserByEmail] returns null or the full row of a stored user with that
    email, [password_hash] included and equal to the stored cell. *)
Theorem read_access_password_hash (rt : Runtime) (db : Db) (userId : Z) (email : JsValue) :
  (exists v, UserModel.findUserById userId db = (db, Ok v)
     /\ has_prop "password_hash" v = false)
  /\ (exists v, UserModel.findUserByEmail rt email db = (db, Ok v)
        /\ (v = JNull
            \/ exists k r, users db !! k = Some r
                 /\ Pg.text_eq (User.email r) (Pg.bind rt email) = true
                 /\ has_prop "password_hash" v = true
                 /\ prop "password_hash" v = Pg.cell (User.password_hash r))).
Proof.
  split.
  - destruct (findUserById_shape userId db) as [[H _]|(r & _ & H)]; rewrite H;
      eexists; split; reflexivity.
  - destruct (findUserByEmail_shape rt email db) as [[H _]|(k & r & Hk & Hp & H)];
      rewrite H; eexists; (split; [reflexivity|]).
    + left. reflexivity.
    + right. exists k, r. repeat split; auto.
Qed.

(** ** parseInt on path parameters *)

Example parseInt_examples :
  parseInt "5" = Some 5 /\ parseInt " -12abc" = Some (-12)
  /\ parseInt "0x1F" = Some 31 /\ parseInt "1e3" = Some 1
  /\ parseInt "abc" = None /\ parseInt "" = None /\ parseInt "0x" = None.
Proof. repeat split; reflexivity. Qed.

Lemma is_digit_value (c : ascii) :
  is_digit c = true -> exists d, digit_value 10 c = Some d /\ 0 <= d <= 9.
Proof.
  unfold is_digit, digit_value. cbv zeta. intros H.
  apply andb_true_iff in H as [H1 H2]. rewrite H1, H2. cbn [andb].
  apply Z.leb_le in H1, H2.
  exists (Z.of_N (N_of_ascii c) - 48). split; [|lia].
  destruct (Z.ltb_spec (Z.of_N (N_of_ascii c) - 48) 10); [reflexivity | lia].
Qed.

Lemma is_digit_not (c c' : ascii) :
  is_digit c = true -> is_digit c' = false -> Ascii.eqb c c' = false.
Proof.
  intros H H'. destruct (Ascii.eqb_spec c c') as [->|]; [congruence | reflexivity].
Qed.

Lemma read_digits_all (s : string) :
  all_digits s = true ->
  forall a, 0 <= a -> exists n, read_digits 10 (Some a) s = Some n /\ 0 <= n.
Proof.
  induction s as [|c s IH]; intros Hall a Ha; cbn [read_digits].
  - exists a. auto.
  - cbn [all_digits] in Hall. apply andb_true_iff in Hall as [Hc Hs].
    destruct (is_digit_value c Hc) as (d & -> & Hd).
    apply IH; [exact Hs | cbn; lia].
Qed.

Lemma number_value_exact (n : Z) : Z.abs n < 2 ^ 53 -> number_value n = n.
Proof.
  intros H. unfold number_value. cbv zeta.
  destruct (Z.ltb_spec (Z.abs n) (2 ^ 53)); [reflexivity | lia].
Qed.

Lemma number_value_nonneg (n : Z) : 0 <= n -> 0 <= number_value n.
Proof.
  intros H. unfold number_value. cbv zeta.
  destruct (Z.abs n <? 2 ^ 53); [exact H|].
  apply Z.mul_nonneg_nonneg; [lia|].
  assert (0 <= Z.abs n / 2 ^ (Z.log2 (Z.abs n) - 52)) as Hq
    by (apply Z_div_nonneg_nonneg; [lia | apply Z.pow_nonneg; lia]).
  apply Z.mul_nonneg_nonneg; [|apply Z.pow_nonneg; lia].
  destruct (_ || _); lia.
Qed.

Lemma not_digit_value (c : ascii) : is_digit c = false -> digit_value 10 c = None.
Proof.
  unfold is_digit, digit_value. cbv zeta. intros ->.
  set (n := Z.of_N (N_of_ascii c)).
  destruct ((97 <=? n) && (n <=? 122)) eqn:Hl.
  - apply andb_true_iff in Hl as [H1 H2]. apply Z.leb_le in H1, H2.
    destruct (Z.ltb_spec (n - 87) 10); [lia | reflexivity].
  - destruct ((65 <=? n) && (n <=? 90)) eqn:Hu; [|reflexivity].
    apply andb_true_iff in Hu as [H1 H2]. apply Z.leb_le in H1, H2.
    destruct (Z.ltb_spec (n - 55) 10); [lia | reflexivity].
Qed.

Lemma all_digits_app (a b : string) :
  all_digits (String.append a b) = all_digits a && all_digits b.
Proof.
  induction a as [|c a IH]; [reflexivity|]. simpl. rewrite IH. apply andb_assoc.
Qed.

Lemma read_digits_app (a b : string) (acc : option Z) :
  all_digits a = true ->
  read_digits 10 acc (String.append a b) = read_digits 10 (read_digits 10 acc a) b.
Proof.
  revert acc. induction a as [|c a IH]; intros acc Ha; [reflexivity|].
  simpl in Ha. apply andb_true_iff in Ha as [Hc Ha].
  destruct (is_digit_value c Hc) as (d & Hd & _).
  simpl. rewrite Hd. apply IH, Ha.
Qed.

Lemma digit_not_white (c : ascii) : is_digit c = true -> is_white c = false.
Proof.
  intros Hc. destruct (is_white c) eqn:E; [|reflexivity]. exfalso.
  unfold is_white in E. unfold is_digit in Hc. cbv zeta in Hc.
  apply andb_true_iff in Hc as [H1 H2]. apply Z.leb_le in H1, H2.
  destruct (N_of_ascii c) as [|q] eqn:Eq; [discriminate|].
  assert (48 <= Z.pos q <= 57) as Hq by (cbn in H1, H2; lia).
  do 8 (destruct q as [q|q|]; try discriminate; try (cbn in Hq; lia)).
Qed.

(** [parseInt] reads the digits an id starts with and ignores what follows
    them. *)
Lemma parseInt_prefix (ds rest : string) (n : Z) :
  is_numeric ds = true -> stops_digits rest = true ->
  read_digits 10 None ds = Some n ->
  parseInt (String.append ds rest) = Some (number_value n).
Proof.
  unfold is_numeric. intros H Hrest Hn. apply andb_true_iff in H as [Hne Hall].
  destruct ds as [|c s]; [discriminate|]. pose proof Hall as Hall'.
  cbn [all_digits] in Hall. apply andb_true_iff in Hall as [Hc Hs].
  change (String.append (String c s) rest) with (String c (String.append s rest)).
  unfold parseInt. cbn [trimStart]. rewrite (digit_not_white c Hc). unfold strip_sign.
  rewrite (is_digit_not c "-" Hc eq_refl), (is_digit_not c "+" Hc eq_refl).
  assert (strip_radix (String c (String.append s rest))
          = (10, String c (String.append s rest))) as ->.
  { unfold strip_radix. destruct (String.append s rest) as [|c1 s1] eqn:E; [reflexivity|].
    assert (Ascii.eqb c1 "x" || Ascii.eqb c1 "X" = false) as ->;
      [|rewrite andb_false_r; reflexivity].
    destruct s as [|c2 s2].
    - change (String.append "" rest) with rest in E. rewrite E in Hrest.
      cbn [stops_digits] in Hrest.
      apply andb_true_iff in Hrest as [Hrest HX]. apply andb_true_iff in Hrest as [_ Hx].
      apply negb_true_iff in Hx, HX. rewrite Hx, HX. reflexivity.
    - change (String.append (String c2 s2) rest)
        with (String c2 (String.append s2 rest)) in E.
      injection E as <- _. cbn [all_digits] in Hs.
      apply andb_true_iff in Hs as [Hc2 _].
      rewrite (is_digit_not c2 "x" Hc2 eq_refl), (is_digit_not c2 "X" Hc2 eq_refl).
      reflexivity. }
  change (String c (String.append s rest)) with (String.append (String c s) rest).
  rewrite (read_digits_app _ rest None Hall'), Hn.
  destruct rest as [|c1 rest1]; [reflexivity|]. cbn [stops_digits] in Hrest.
  apply andb_true_iff in Hrest as [Hrest _]. apply andb_true_iff in Hrest as [Hd _].
  apply negb_true_iff in Hd. cbn [read_digits]. rewrite (not_digit_value c1 Hd).
  reflexivity.
Qed.

Lemma append_empty (s : string) : String.append s "" = s.
Proof.
  induction s as [|c s IH]; [reflexivity|].
  change (String c (String.append s "") = String c s). rewrite IH. reflexivity.
Qed.

Lemma read_digits_numeric (s : string) :
  is_numeric s = true -> exists n, read_digits 10 None s = Some n /\ 0 <= n.
Proof.
  unfold is_numeric. intros H. apply andb_true_iff in H as [Hne Hall].
  destruct s as [|c s]; [discriminate|]. cbn [all_digits] in Hall.
  apply andb_true_iff in Hall as [Hc Hs].
  cbn [read_digits]. destruct (is_digit_value c Hc) as (d & -> & Hd).
  apply read_digits_all; [exact Hs | cbn; lia].
Qed.

Lemma parseInt_numeric_value (s : string) (n : Z) :
  is_numeric s = true -> read_digits 10 None s = Some n ->
  parseInt s = Some (number_value n).
Proof.
  intros Hnum Hn. pose proof (parseInt_prefix s "" n Hnum eq_refl Hn) as H.
  rewrite append_empty in H. exact H.
Qed.

Lemma parseInt_numeric (s : string) :
  is_numeric s = true -> exists n, parseInt s = Some n /\ 0 <= n.
Proof.
  intros Hnum. destruct (read_digits_numeric s Hnum) as (n & Hn & Hpos).
  exists (number_value n).
  split; [exact (parseInt_numeric_value s n Hnum Hn) | exact (number_value_nonneg n Hpos)].
Qed.

Lemma id_in_range_exact (n : Z) : Pg.id_in_range n = true -> number_value n = n.
Proof.
  unfold Pg.id_in_range. intros H. apply andb_true_iff in H as [H1 H2].
  apply Z.leb_le in H1. apply Z.ltb_lt in H2. apply number_value_exact. lia.
Qed.

Lemma parseInt_no_digit (c : ascii) (s : string) :
  is_white c = false -> c <> "+"%char -> c <> "-"%char ->
  digit_value 10 c = None -> parseInt (String c s) = None.
Proof.
  intros Hw Hplus Hminus Hd. unfold parseInt. cbn [trimStart]. rewrite Hw.
  unfold strip_sign.
  destruct (Ascii.eqb_spec c "-"); [contradiction|].
  destruct (Ascii.eqb_spec c "+"); [contradiction|].
  assert (strip_radix (String c s) = (10, String c s)) as ->.
  { unfold strip_radix. destruct s as [|c1 s1]; [reflexivity|].
    destruct (Ascii.eqb_spec c "0") as [->|]; [discriminate Hd | reflexivity]. }
  cbn [read_digits]. rewrite Hd. reflexivity.
Qed.

(** ** Handlers on the path parameter *)

Ltac unfold_monad :=
  unfold respond, bind, ret, lift, throw, try_catch in *.

Lemma getTask_parsed (req : Request) (db : Db) (taskId : Z) :
  parseInt (params_id req) = Some taskId ->
  TaskController.getTask req db =
    match Pg.owned_task taskId (userId req) db with
    | None => (db, task_not_found)
    | Some r =>
        (db, mkResponse 200
               (JObj [("task", TaskController.task_json (Pg.task_object taskId r))]))
    end.
Proof.
  intros Hid. unfold TaskController.getTask, TaskModel.getTaskById. unfold_monad.
  rewrite Hid. destruct (Pg.owned_task taskId (userId req) db); reflexivity.
Qed.

Lemma remove_parsed (req : Request) (db : Db) (taskId : Z) :
  parseInt (params_id req) = Some taskId ->
  TaskController.remove req db =
    match Pg.owned_task taskId (userId req) db with
    | None => (db, task_not_found)
    | Some _ =>
        (mkDb (users db) (user_seq db) (delete taskId (tasks db)) (task_seq db),
         mkResponse 200 (JObj [("message", JStr "Task deleted successfully")]))
    end.
Proof.
  intros Hid. unfold TaskController.remove, TaskModel.deleteTask. unfold_monad.
  rewrite Hid. destruct (Pg.owned_task taskId (userId req) db); reflexivity.
Qed.

(** Every response of [update] other than the invalid-id one. *)
Lemma update_parsed_not_invalid_id (rt : Runtime) (now : Z) (req : Request) (db : Db)
    (taskId : Z) :
  parseInt (params_id req) = Some taskId ->
  (TaskController.update rt now req db).2 <> invalid_task_id.
Proof.
  intros Hid. unfold TaskController.update, TaskModel.updateTask. unfold_monad.
  rewrite Hid.
  repeat match goal with
         | |- context [if ?b then _ else _] => destruct b
         | |- context [match call_trim ?v with _ => _ end] => destruct (call_trim v)
         | |- context [match TaskController.optional_trim ?v with _ => _ end] =>
             destruct (TaskController.optional_trim v)
         | |- context [match Pg.owned_task ?a ?b ?c with _ => _ end] =>
             destruct (Pg.owned_task a b c)
         | |- context [match TaskController.invalid_date ?r ?v with _ => _ end] =>
             destruct (TaskController.invalid_date r v)
         | |- context [match Pg.task_params ?r ?a ?b ?c ?d ?e with _ => _ end] =>
             destruct (Pg.task_params r a b c d e)
         end; cbn; discriminate.
Qed.

(** C6, as stated, fails: the id ["12abc"] is not numeric, yet [GET
    /api/tasks/12abc] does not take the 400 branch: it is parsed as 12 and
    looked up (404 on a store without task 12, and Bob's task 2 is returned
    to Bob for ["2nd"]). *)
Lemma non_numeric_id_is_looked_up :
  is_numeric "12abc" = false
  /\ parseInt "12abc" = Some 12
  /\ (TaskController.getTask (mkRequest 1 "12abc" ∅) Sample.db_tasks).2 = task_not_found
  /\ is_numeric "2nd" = false
  /\ code_of (TaskController.getTask (mkRequest 2 "2nd" ∅) Sample.db_tasks).2 = 200.
Proof. vm_compute. repeat split; reflexivity. Qed.

(** C6 (amended): on GET, PUT and DELETE /api/tasks/:id, an id for which
    [parseInt] yields NaN is answered 400 "Invalid task ID" whatever the store
    holds and without changing it; NaN is the result for the empty string and
    for every id whose first character is neither white space, a sign nor a
    decimal digit.  An id that only starts with an integer, such as 12abc, is
    parsed as that integer: when it is within the range of the id column, GET
    and DELETE look it up (200 for a task of the caller, 404 otherwise) and
    PUT does not answer the invalid-id error.  For every numeric id the
    invalid-id branch is not taken. *)
Theorem invalid_id_branch (rt : Runtime) (now : Z) :
  (forall req db, parseInt (params_id req) = None ->
     TaskController.getTask req db = (db, invalid_task_id)
     /\ TaskController.update rt now req db = (db, invalid_task_id)
     /\ TaskController.remove req db = (db, invalid_task_id))
  /\ parseInt "" = None
  /\ (forall c s, is_white c = false -> c <> "+"%char -> c <> "-"%char ->
        digit_value 10 c = None -> parseInt (String c s) = None)
  /\ (forall ds rest n uid b db,
        is_numeric ds = true -> stops_digits rest = true ->
        read_digits 10 None ds = Some n -> Pg.id_in_range n = true ->
        parseInt (String.append ds rest) = Some n
        /\ TaskController.getTask (mkRequest uid (String.append ds rest) b) db
           = match Pg.owned_task n uid db with
             | None => (db, task_not_found)
             | Some r =>
                 (db, mkResponse 200
                        (JObj [("task", TaskController.task_json (Pg.task_object n r))]))
             end
        /\ TaskController.remove (mkRequest uid (String.append ds rest) b) db
           = match Pg.owned_task n uid db with
             | None => (db, task_not_found)
             | Some _ =>
                 (with_tasks db (delete n (tasks db)) (task_seq db),
                  mkResponse 200 (JObj [("message", JStr "Task deleted successfully")]))
             end
        /\ (TaskController.update rt now (mkRequest uid (String.append ds rest) b) db).2
           <> invalid_task_id)
  /\ (forall req db, is_numeric (params_id req) = true ->
        (TaskController.getTask req db).2 <> invalid_task_id
        /\ (TaskController.update rt now req db).2 <> invalid_task_id
        /\ (TaskController.remove req db).2 <> invalid_task_id).
Proof.
  split; [|split; [reflexivity|split; [exact parseInt_no_digit|split]]].
  - intros req db Hnan.
    unfold TaskController.getTask, TaskController.update, TaskController.remove.
    unfold_monad. rewrite Hnan. repeat split; reflexivity.
  - intros ds rest n uid b db Hnum Hrest Hn Hrange.
    assert (parseInt (String.append ds rest) = Some n) as Hid
      by (rewrite (parseInt_prefix ds rest n Hnum Hrest Hn), (id_in_range_exact n Hrange);
          reflexivity).
    split; [exact Hid|].
    split; [exact (getTask_parsed (mkRequest uid _ b) db n Hid)|].
    split; [exact (remove_parsed (mkRequest uid _ b) db n Hid)|].
    exact (update_parsed_not_invalid_id rt now (mkRequest uid _ b) db n Hid).
  - intros req db Hnum. destruct (parseInt_numeric _ Hnum) as (taskId & Hid & _).
    rewrite (getTask_parsed req db taskId Hid), (remove_parsed req db taskId Hid).
    split; [|split].
    + destruct (Pg.owned_task taskId (userId req) db); cbn; discriminate.
    + exact (update_parsed_not_invalid_id rt now req db taskId Hid).
    + destruct (Pg.owned_task taskId (userId req) db); cbn; discriminate.
Qed.

(** ["abc"] and ["task-7"] are rejected; ["2nd"] is looked up as the id 2,
    which is Bob's task. *)
Lemma invalid_id_branch_witness :
  TaskController.getTask (mkRequest 1 "abc" ∅) Sample.db_tasks
    = (Sample.db_tasks, invalid_task_id)
  /\ parseInt "task-7" = None
  /\ parseInt "2nd" = Some 2
  /\ TaskController.getTask (mkRequest 2 "2nd" ∅) Sample.db_tasks
     = (Sample.db_tasks,
        mkResponse 200
          (JObj [("task", TaskController.task_json (Pg.task_object 2 Sample.report))]))
  /\ (TaskController.update Sample.runtime 50
        (mkRequest 1 "2" (Sample.body_of [("title", JStr "mine")])) Sample.db_tasks).2
     <> invalid_task_id.
Proof.
  destruct (invalid_id_branch Sample.runtime 50) as (Hnan & _ & Hchar & Hprefix & Hnum).
  split; [apply Hnan; reflexivity|]. split.
  - apply Hchar; [reflexivity | discriminate | discriminate | reflexivity].
  - destruct (Hprefix "2" "nd" 2 2 ∅ Sample.db_tasks eq_refl eq_refl eq_refl eq_refl)
      as (Hp & Hg & _).
    split; [exact Hp|]. split; [exact Hg|].
    apply Hnum. reflexivity.
Defined.

(** ** The task handlers on a body that passes validation *)

Lemma trim_nonempty (t : string) : trim t <> "" -> String.eqb t "" = false.
Proof.
  intros H. destruct t; [exfalso; apply H; reflexivity | reflexivity].
Qed.

Lemma eqb_false_of_ne (a b : string) : a <> b -> String.eqb a b = false.
Proof. intros H. destruct (String.eqb_spec a b); [contradiction | reflexivity]. Qed.

Lemma dueDate_accepted_inv (rt : Runtime) (v : JsValue) :
  dueDate_accepted rt v = true <-> TaskController.invalid_date rt v = Ok false.
Proof.
  unfold dueDate_accepted. destruct (TaskController.invalid_date rt v) as [[]|]; cbn;
    split; congruence.
Qed.

Section Accepted.
Variables (rt : Runtime) (now : Z) (req : Request) (db : Db).
Variables (t : string) (d : JsValue).
Hypothesis Htitle : field "title" req = JStr t.
Hypothesis Hblank : trim t <> "".
Hypothesis Hprio : priority_accepted (field "priority" req) = true.
Hypothesis Hstat : status_accepted (field "status" req) = true.
Hypothesis Hdate : dueDate_accepted rt (field "dueDate" req) = true.
Hypothesis Hdesc : TaskController.optional_trim (field "description" req) = Ok d.

(** [create] on a body that passes validation: the INSERT decides. *)
Lemma create_validated :
  TaskController.create rt now req db =
    match Pg.insert_task rt now (userId req)
            (Some (trim t))
            (Pg.bind rt (js_or d JNull))
            (Pg.bind rt (js_or (field "priority" req) (JStr "medium")))
            (Pg.bind rt (js_or (field "dueDate" req) JNull))
            (Pg.bind rt (js_or (field "status" req) (JStr "pending"))) db with
    | (db', Ok row) =>
        (db', mkResponse 201
                (JObj [("message", JStr "Task created successfully");
                       ("task", TaskController.task_json (Pg.task_object row.1 row.2))]))
    | (db', Throw _) => (db', error_response 500 "Server error creating task")
    end.
Proof.
  unfold TaskController.create, TaskModel.createTask.
  unfold_monad. rewrite Htitle. cbn [truthy call_trim negb].
  rewrite (trim_nonempty t Hblank). cbn [negb].
  rewrite (eqb_false_of_ne _ _ Hblank).
  unfold priority_accepted, status_accepted in *.
  apply negb_true_iff in Hprio, Hstat. rewrite Hprio, Hstat.
  rewrite (proj1 (dueDate_accepted_inv _ _) Hdate), Hdesc.
  cbn [TaskModel.title TaskModel.description TaskModel.priority
       TaskModel.dueDate TaskModel.status Pg.bind].
  destruct (Pg.insert_task _ _ _ _ _ _ _ _ _) as [db' [row|e]]; reflexivity.
Qed.

(** [update] on a body that passes validation: the UPDATE decides. *)
Lemma update_validated (taskId : Z) :
  parseInt (params_id req) = Some taskId ->
  TaskController.update rt now req db =
    match Pg.owned_task taskId (userId req) db with
    | None => (db, task_not_found)
    | Some old =>
        match Pg.task_params rt
                (Some (trim t))
                (Pg.bind rt (js_or d JNull))
                (Pg.bind rt (js_or (field "priority" req) (JStr "medium")))
                (Pg.bind rt (js_or (field "dueDate" req) JNull))
                (Pg.bind rt (js_or (field "status" req) (JStr "pending"))) with
        | Throw _ => (db, error_response 500 "Server error updating task")
        | Ok due =>
            let r := replaced_row rt now req t d due old in
            (with_tasks db (<[taskId := r]> (tasks db)) (task_seq db),
             mkResponse 200
               (JObj [("message", JStr "Task updated successfully");
                      ("task", TaskController.task_json (Pg.task_object taskId r))]))
        end
    end.
Proof.
  intros Hid.
  unfold TaskController.update, TaskModel.updateTask.
  unfold_monad. rewrite Hid, Htitle. cbn [truthy call_trim negb].
  rewrite (trim_nonempty t Hblank). cbn [negb].
  rewrite (eqb_false_of_ne _ _ Hblank).
  unfold priority_accepted, status_accepted in *.
  apply negb_true_iff in Hprio, Hstat. rewrite Hprio, Hstat.
  rewrite (proj1 (dueDate_accepted_inv _ _) Hdate), Hdesc.
  cbn [TaskModel.title TaskModel.description TaskModel.priority
       TaskModel.dueDate TaskModel.status Pg.bind].
  destruct (Pg.owned_task taskId (userId req) db); [|reflexivity].
  destruct (Pg.task_params _ _ _ _ _ _); reflexivity.
Qed.

Variable due : option Z.
Hypothesis Hstore : store_accepts rt req t d due.

Lemma create_accepted :
  TaskController.create rt now req db =
    match tasks db !! task_seq db, users db !! userId req with
    | None, Some _ =>
        let r := created_row rt now req t d due in
        (with_tasks db (<[task_seq db := r]> (tasks db)) (task_seq db + 1),
         mkResponse 201
           (JObj [("message", JStr "Task created successfully");
                  ("task", TaskController.task_json (Pg.task_object (task_seq db) r))]))
    | _, _ => (skip_task_id db, error_response 500 "Server error creating task")
    end.
Proof.
  rewrite create_validated. unfold Pg.insert_task.
  unfold store_accepts in Hstore. rewrite Hstore.
  destruct (tasks db !! task_seq db); [reflexivity|].
  destruct (users db !! userId req); reflexivity.
Qed.

Lemma update_accepted (taskId : Z) :
  parseInt (params_id req) = Some taskId ->
  TaskController.update rt now req db =
    match Pg.owned_task taskId (userId req) db with
    | None => (db, task_not_found)
    | Some old =>
        let r := replaced_row rt now req t d due old in
        (with_tasks db (<[taskId := r]> (tasks db)) (task_seq db),
         mkResponse 200
           (JObj [("message", JStr "Task updated successfully");
                  ("task", TaskController.task_json (Pg.task_object taskId r))]))
    end.
Proof.
  intros Hid. rewrite (update_validated taskId Hid).
  unfold store_accepts in Hstore. rewrite Hstore. reflexivity.
Qed.
End Accepted.

Lemma absent_field (k : string) (req : Request) :
  body req !! k = None -> field k req = JUndefined.
Proof. unfold field. intros ->. reflexivity. Qed.

Lemma owned_task_Some (taskId uid : Z) (db : Db) (r : Task.Row) :
  Pg.owned_task taskId uid db = Some r <->
  tasks db !! taskId = Some r /\ Task.user_id r = uid.
Proof.
  unfold Pg.owned_task. destruct (tasks db !! taskId) as [r0|].
  - destruct (Z.eqb_spec (Task.user_id r0) uid); split.
    + intros [= ->]. auto.
    + intros [[= ->] _]. reflexivity.
    + discriminate.
    + intros [[= ->] ?]. contradiction.
  - split; [discriminate | intros [? _]; discriminate].
Qed.

Lemma owned_task_None (taskId uid : Z) (db : Db) :
  Pg.owned_task taskId uid db = None <->
  tasks db !! taskId = None
  \/ exists r, tasks db !! taskId = Some r /\ Task.user_id r <> uid.
Proof.
  unfold Pg.owned_task. destruct (tasks db !! taskId) as [r0|].
  - destruct (Z.eqb_spec (Task.user_id r0) uid); split.
    + discriminate.
    + intros [|(r & [= <-] & Hne)]; [discriminate | contradiction].
    + intros _. right. eauto.
    + reflexivity.
  - split; auto.
Qed.

(** ** Update is a full replace *)




Example title_only_update_run :
  TaskController.update Sample.runtime 99
    (mkRequest 1 "1" (Sample.body_of [("title", JStr " Buy oat milk ")]))
    Sample.db_tasks
  = (with_tasks Sample.db_tasks
       (<[1 := Task.mkRow 1 (Some "Buy oat milk") None (Some "medium") None
                 (Some "pending") 30 99]> (tasks Sample.db_tasks)) 3,
     mkResponse 200
       (JObj [("message", JStr "Task updated successfully");
              ("task",
               JObj [("id", JNum 1); ("userId", JNum 1);
                     ("title", JStr "Buy oat milk"); ("description", JNull);
                     ("priority", JStr "medium"); ("dueDate", JNull);
                     ("status", JStr "pending"); ("createdAt", JDate 30);
                     ("updatedAt", JDate 99)])])).
Proof. vm_compute. reflexivity. Qed.

(** ** Ownership checks *)

(** C4: for a caller and a task id, take a store with no task under that id
    and a store where the id belongs to another user.  [getTaskById],
    [updateTask] and [deleteTask] answer both with the same not-found value
    (null, null, false) and change neither store; the handlers [getTask],
    [update] and [remove] send the same response in both runs, which for GET
    and DELETE is 404 "Task not found" and for PUT is never a success. *)
Theorem foreign_task_looks_absent (rt : Runtime) (now : Z) (req : Request)
    (taskData : TaskModel.TaskData) (taskId : Z) (db1 db2 : Db) (r : Task.Row) :
  parseInt (params_id req) = Some taskId ->
  tasks db1 !! taskId = None ->
  tasks db2 !! taskId = Some r ->
  Task.user_id r <> userId req ->
  (TaskModel.getTaskById taskId (userId req) db1 = (db1, Ok JNull)
   /\ TaskModel.getTaskById taskId (userId req) db2 = (db2, Ok JNull))
  /\ (TaskModel.updateTask rt now taskId (userId req) taskData db1 = (db1, Ok JNull)
      /\ TaskModel.updateTask rt now taskId (userId req) taskData db2 = (db2, Ok JNull))
  /\ (TaskModel.deleteTask taskId (userId req) db1 = (db1, Ok false)
      /\ TaskModel.deleteTask taskId (userId req) db2 = (db2, Ok false))
  /\ (TaskController.getTask req db1 = (db1, task_not_found)
      /\ TaskController.getTask req db2 = (db2, task_not_found))
  /\ (TaskController.remove req db1 = (db1, task_not_found)
      /\ TaskController.remove req db2 = (db2, task_not_found))
  /\ (TaskController.update rt now req db1).1 = db1
  /\ (TaskController.update rt now req db2).1 = db2
  /\ (TaskController.update rt now req db1).2 = (TaskController.update rt now req db2).2
  /\ code_of (TaskController.update rt now req db1).2 <> 200.
Proof.
  intros Hid H1 H2 Hne.
  assert (Pg.owned_task taskId (userId req) db1 = None) as O1
    by (apply owned_task_None; left; exact H1).
  assert (Pg.owned_task taskId (userId req) db2 = None) as O2
    by (apply owned_task_None; right; eauto).
  rewrite !(getTask_parsed _ _ _ Hid), !(remove_parsed _ _ _ Hid).
  unfold TaskModel.getTaskById, TaskModel.updateTask, TaskModel.deleteTask.
  rewrite O1, O2. do 5 (split; [split; reflexivity|]).
  unfold TaskController.update, TaskModel.updateTask. unfold_monad.
  rewrite Hid.
  repeat match goal with
         | |- context [Pg.owned_task taskId (userId req) db1] =>
             rewrite O1; cbn [truthy negb]
         | |- context [Pg.owned_task taskId (userId req) db2] =>
             rewrite O2; cbn [truthy negb]
         | |- context [if ?b then _ else _] => destruct b
         | |- context [match call_trim ?v with _ => _ end] => destruct (call_trim v)
         | |- context [match TaskController.optional_trim ?v with _ => _ end] =>
             destruct (TaskController.optional_trim v)
         | |- context [match TaskController.invalid_date ?r ?v with _ => _ end] =>
             destruct (TaskController.invalid_date r v)
         end; cbn; (repeat split; try reflexivity; discriminate).
Qed.

(** Ann asks for task 2: absent from a store with her task only, Bob's in
    the other. *)
Lemma foreign_task_looks_absent_witness :
  (TaskModel.getTaskById 2 1 (with_tasks Sample.db_users {[1 := Sample.milk]} 2)
     = (with_tasks Sample.db_users {[1 := Sample.milk]} 2, Ok JNull)
   /\ TaskModel.getTaskById 2 1 Sample.db_tasks = (Sample.db_tasks, Ok JNull))
  /\ (TaskController.getTask (mkRequest 1 "2" (Sample.body_of [("title", JStr "mine")]))
        (with_tasks Sample.db_users {[1 := Sample.milk]} 2)).2
     = (TaskController.getTask (mkRequest 1 "2" (Sample.body_of [("title", JStr "mine")]))
          Sample.db_tasks).2
  /\ (TaskController.update Sample.runtime 50
        (mkRequest 1 "2" (Sample.body_of [("title", JStr "mine")]))
        (with_tasks Sample.db_users {[1 := Sample.milk]} 2)).2
     = (TaskController.update Sample.runtime 50
          (mkRequest 1 "2" (Sample.body_of [("title", JStr "mine")])) Sample.db_tasks).2
  /\ (TaskController.remove (mkRequest 1 "2" (Sample.body_of [("title", JStr "mine")]))
        (with_tasks Sample.db_users {[1 := Sample.milk]} 2)).2
     = (TaskController.remove (mkRequest 1 "2" (Sample.body_of [("title", JStr "mine")]))
          Sample.db_tasks).2.
Proof.
  pose proof (foreign_task_looks_absent Sample.runtime 50
                (mkRequest 1 "2" (Sample.body_of [("title", JStr "mine")]))
                (TaskModel.mkTaskData (JStr "mine") JNull JNull JNull JNull) 2
                (with_tasks Sample.db_users {[1 := Sample.milk]} 2)
                Sample.db_tasks Sample.report
                eq_refl eq_refl eq_refl
                ltac:(vm_compute; discriminate))
    as (Hget & _ & _ & (Hg1 & Hg2) & (Hr1 & Hr2) & _ & _ & Hupd & _).
  split; [exact Hget|]. split; [rewrite Hg1, Hg2; reflexivity|].
  split; [exact Hupd|]. rewrite Hr1, Hr2. reflexivity.
Defined.

(** ** Deleting *)

(** C8: [deleteTask] reports whether a row was removed.  When the caller
    owns no task under the id (no task under an id of the id column's range,
    or another user's task), it returns false, [remove] answers 404 and the
    store is unchanged; when the caller owns the task, it returns true,
    [remove] answers 200, the task's row is gone, every other row is as
    before and the table has exactly one row less. *)
Theorem delete_removes_exactly_the_owned_row (req : Request) (db : Db) (taskId : Z) :
  parseInt (params_id req) = Some taskId ->
  ((tasks db !! taskId = None /\ Pg.id_in_range taskId = true
    \/ exists r, tasks db !! taskId = Some r /\ Task.user_id r <> userId req) ->
   TaskModel.deleteTask taskId (userId req) db = (db, Ok false)
   /\ TaskController.remove req db = (db, task_not_found))
  /\ (forall r, tasks db !! taskId = Some r -> Task.user_id r = userId req ->
      exists db',
        TaskModel.deleteTask taskId (userId req) db = (db', Ok true)
        /\ TaskController.remove req db =
             (db', mkResponse 200 (JObj [("message", JStr "Task deleted successfully")]))
        /\ users db' = users db
        /\ tasks db' !! taskId = None
        /\ (forall j, j <> taskId -> tasks db' !! j = tasks db !! j)
        /\ size (tasks db) = S (size (tasks db'))).
Proof.
  intros Hid. rewrite (remove_parsed _ _ _ Hid). unfold TaskModel.deleteTask. split.
  - intros Hnone.
    assert (Pg.owned_task taskId (userId req) db = None) as ->
      by (apply owned_task_None; destruct Hnone as [[Hnone _]|Hnone]; auto).
    split; reflexivity.
  - intros r Hr Hown.
    assert (Pg.owned_task taskId (userId req) db = Some r) as ->
      by (apply owned_task_Some; auto).
    eexists. split; [reflexivity|]. split; [reflexivity|].
    cbn [users tasks with_tasks].
    split; [reflexivity|]. split; [apply lookup_delete_eq|].
    split; [intros j Hj; apply lookup_delete_ne; congruence|].
    rewrite <- (insert_delete_id (tasks db) taskId r Hr) at 1.
    apply map_size_insert_None, lookup_delete_eq.
Qed.

(** Bob deletes his task 2; Ann's attempt on it is a 404, as is her
    attempt on the id 7 that holds no task. *)
Lemma delete_removes_exactly_the_owned_row_witness :
  TaskController.remove (mkRequest 1 "2" ∅) Sample.db_tasks
    = (Sample.db_tasks, task_not_found)
  /\ TaskController.remove (mkRequest 1 "7" ∅) Sample.db_tasks
     = (Sample.db_tasks, task_not_found)
  /\ exists db',
       TaskController.remove (mkRequest 2 "2" ∅) Sample.db_tasks =
         (db', mkResponse 200 (JObj [("message", JStr "Task deleted successfully")]))
       /\ tasks db' !! 2 = None
       /\ tasks db' !! 1 = Some Sample.milk
       /\ size (tasks Sample.db_tasks) = S (size (tasks db')).
Proof.
  split; [|split].
  - apply (delete_removes_exactly_the_owned_row (mkRequest 1 "2" ∅) Sample.db_tasks 2
             eq_refl).
    right. exists Sample.report. split; [reflexivity | vm_compute; discriminate].
  - apply (delete_removes_exactly_the_owned_row (mkRequest 1 "7" ∅) Sample.db_tasks 7
             eq_refl).
    left. split; reflexivity.
  - destruct (delete_removes_exactly_the_owned_row (mkRequest 2 "2" ∅) Sample.db_tasks 2
                eq_refl) as [_ H].
    destruct (H Sample.report eq_refl eq_refl) as (db' & _ & Hrem & _ & Hgone & Hrest & Hsize).
    exists db'. split; [exact Hrem|]. split; [exact Hgone|].
    split; [rewrite Hrest by discriminate; reflexivity | exact Hsize].
Defined.

(** ** What each handler does to the store *)

Ltac handler_step :=
  cbn [truthy negb fst snd Pg.task_object Pg.user_full Pg.user_public] in *;
  match goal with
  | |- context [match Pg.task_params ?r ?a ?b ?c ?d ?e with _ => _ end] =>
      destruct (Pg.task_params r a b c d e) eqn:?
  | |- context [match parseInt ?s with _ => _ end] => destruct (parseInt s) eqn:?
  | |- context [if ?b then _ else _] => destruct b eqn:?
  | |- context [match call_trim ?v with _ => _ end] => destruct (call_trim v) eqn:?
  | |- context [match TaskController.optional_trim ?v with _ => _ end] =>
      destruct (TaskController.optional_trim v) eqn:?
  | |- context [match Pg.owned_task ?a ?b ?c with _ => _ end] =>
      destruct (Pg.owned_task a b c) eqn:?
  | |- context [match TaskController.invalid_date ?r ?v with _ => _ end] =>
      destruct (TaskController.invalid_date r v) eqn:?
  | |- context [match @lookup _ _ _ _ ?k ?m with _ => _ end] =>
      destruct (m !! k) eqn:?
  end.

Lemma create_effect (rt : Runtime) (now : Z) (req : Request) (db : Db) :
  ((TaskController.create rt now req db).1 = db
   /\ In (code_of (TaskController.create rt now req db).2) [400; 500])
  \/ TaskController.create rt now req db
     = (skip_task_id db, error_response 500 "Server error creating task")
  \/ exists r,
       tasks db !! task_seq db = None
       /\ is_Some (users db !! userId req)
       /\ Task.user_id r = userId req
       /\ Task.created_at r = now
       /\ TaskController.create rt now req db =
            (with_tasks db (<[task_seq db := r]> (tasks db)) (task_seq db + 1),
             mkResponse 201
               (JObj [("message", JStr "Task created successfully");
                      ("task", TaskController.task_json (Pg.task_object (task_seq db) r))])).
Proof.
  unfold TaskController.create, TaskModel.createTask, Pg.insert_task.
  unfold_monad. cbv zeta.
  repeat handler_step;
    try (left; split; [reflexivity | cbn; tauto]);
    try (right; left; reflexivity).
  all: right; right; eexists; split; [reflexivity|]; split; [eauto|];
    split; [|split; [|reflexivity]]; reflexivity.
Qed.

Lemma update_effect (rt : Runtime) (now : Z) (req : Request) (db : Db) :
  ((TaskController.update rt now req db).1 = db
   /\ code_of (TaskController.update rt now req db).2 <> 200)
  \/ exists taskId old new,
       parseInt (params_id req) = Some taskId
       /\ tasks db !! taskId = Some old
       /\ Task.user_id old = userId req
       /\ Task.user_id new = Task.user_id old
       /\ Task.created_at new = Task.created_at old
       /\ Task.updated_at new = now
       /\ TaskController.update rt now req db =
            (with_tasks db (<[taskId := new]> (tasks db)) (task_seq db),
             mkResponse 200
               (JObj [("message", JStr "Task updated successfully");
                      ("task", TaskController.task_json (Pg.task_object taskId new))])).
Proof.
  unfold TaskController.update, TaskModel.updateTask.
  unfold_monad.
  repeat handler_step; try (left; split; [reflexivity | cbn; discriminate]).
  right.
  match goal with
  | H : Pg.owned_task _ _ _ = Some _ |- _ => apply owned_task_Some in H as [Hold Hown]
  end.
  do 3 eexists. split; [reflexivity|]. split; [exact Hold|]. split; [exact Hown|].
  split; [|split; [|split; [|reflexivity]]]; reflexivity.
Qed.

Lemma remove_effect (req : Request) (db : Db) :
  (TaskController.remove req db).1 = db
  \/ exists taskId,
       (TaskController.remove req db).1 =
         with_tasks db (delete taskId (tasks db)) (task_seq db).
Proof.
  unfold TaskController.remove, TaskModel.deleteTask. unfold_monad.
  repeat handler_step; try (left; reflexivity).
  right. eexists. reflexivity.
Qed.

Lemma getTask_effect (req : Request) (db : Db) :
  (TaskController.getTask req db).1 = db.
Proof.
  unfold TaskController.getTask, TaskModel.getTaskById. unfold_monad.
  repeat handler_step; reflexivity.
Qed.

Lemma getAllTasks_effect (req : Request) (db : Db) :
  (TaskController.getAllTasks req db).1 = db.
Proof. reflexivity. Qed.

Lemma getCurrentUser_effect (req : Request) (db : Db) :
  (UserController.getCurrentUser req db).1 = db.
Proof.
  unfold UserController.getCurrentUser, UserModel.findUserById. unfold_monad.
  repeat handler_step; reflexivity.
Qed.

Ltac auth_step :=
  cbn [truthy negb fst snd Pg.task_object Pg.user_full Pg.user_public] in *;
  match goal with
  | |- context [if ?b then _ else _] => destruct b eqn:?
  | |- context [match AuthController.regex_test ?rt ?v with _ => _ end] =>
      destruct (AuthController.regex_test rt v) eqn:?
  | |- context [match bcrypt_hash ?rt ?v with _ => _ end] =>
      destruct (bcrypt_hash rt v) eqn:?
  | |- context [match bcrypt_compare ?rt ?v ?h with _ => _ end] =>
      destruct (bcrypt_compare rt v h) eqn:?
  | |- context [match jwt_sign ?rt ?v with _ => _ end] =>
      destruct (jwt_sign rt v) eqn:?
  | |- context [match Pg.select ?p ?t with _ => _ end] =>
      destruct (Pg.select p t) as [|[? ?] ?] eqn:?
  | |- context [match @lookup _ _ _ _ ?k ?m with _ => _ end] =>
      destruct (m !! k) eqn:?
  end.

(** Branches on a test of a known error that the test does not take. *)
Ltac closed_false :=
  exfalso;
  match goal with
  | H : bool_decide (code _ = _) = _ |- _ => vm_compute in H; discriminate H
  | H : String.eqb (message _) _ = _ |- _ => vm_compute in H; discriminate H
  end.

Lemma signup_effect (rt : Runtime) (now : Z) (req : Request) (db : Db) :
  tasks (AuthController.signup rt now req db).1 = tasks db
  /\ task_seq (AuthController.signup rt now req db).1 = task_seq db.
Proof.
  unfold AuthController.signup, UserModel.createUser, Pg.insert_user.
  unfold_monad. cbv zeta.
  repeat auth_step; split; reflexivity.
Qed.

Lemma login_effect (rt : Runtime) (req : Request) (db : Db) :
  (AuthController.login rt req db).1 = db.
Proof.
  unfold AuthController.login, UserModel.findUserByEmail.
  unfold_monad.
  repeat auth_step; reflexivity.
Qed.

(** ** Identity and ownership of tasks *)

Lemma keeps_identity_same_tasks (db db' : Db) :
  tasks db' = tasks db -> keeps_identity db db'.
Proof.
  intros Heq id r r' Hr Hr'. rewrite Heq, Hr in Hr'. injection Hr' as <-. auto.
Qed.

Lemma create_keeps_identity (rt : Runtime) (now : Z) (req : Request) (db : Db) :
  keeps_identity db (TaskController.create rt now req db).1.
Proof.
  destruct (create_effect rt now req db)
    as [[-> _]|[-> |(r & Hfree & _ & _ & _ & ->)]].
  - apply keeps_identity_same_tasks. reflexivity.
  - apply keeps_identity_same_tasks. reflexivity.
  - intros id r0 r' Hr0 Hr'. cbn [fst with_tasks tasks] in Hr'.
    destruct (decide (id = task_seq db)) as [->|Hne]; [congruence|].
    rewrite lookup_insert_ne in Hr' by congruence.
    rewrite Hr0 in Hr'. injection Hr' as <-. auto.
Qed.

Lemma update_keeps_identity (rt : Runtime) (now : Z) (req : Request) (db : Db) :
  keeps_identity db (TaskController.update rt now req db).1.
Proof.
  destruct (update_effect rt now req db)
    as [[-> _]|(taskId & old & new & _ & Hold & _ & Hu & Hc & _ & ->)].
  - apply keeps_identity_same_tasks. reflexivity.
  - intros id r0 r' Hr0 Hr'. cbn [fst with_tasks tasks] in Hr'.
    destruct (decide (id = taskId)) as [->|Hne].
    + rewrite lookup_insert_eq in Hr'. injection Hr' as <-.
      rewrite Hold in Hr0. injection Hr0 as <-. auto.
    + rewrite lookup_insert_ne in Hr' by congruence.
      rewrite Hr0 in Hr'. injection Hr' as <-. auto.
Qed.

Lemma remove_keeps_identity (req : Request) (db : Db) :
  keeps_identity db (TaskController.remove req db).1.
Proof.
  destruct (remove_effect req db) as [->|[taskId ->]].
  - apply keeps_identity_same_tasks. reflexivity.
  - intros id r0 r' Hr0 Hr'. cbn [with_tasks tasks] in Hr'.
    apply lookup_delete_Some in Hr' as [_ Hr']. rewrite Hr0 in Hr'.
    injection Hr' as <-. auto.
Qed.

Lemma serve_keeps_identity (rt : Runtime) (now : Z) (route : Route) (req : Request)
    (db : Db) :
  keeps_identity db (serve rt now route req db).1.
Proof.
  destruct route; cbn [serve].
  - apply keeps_identity_same_tasks, signup_effect.
  - rewrite login_effect. apply keeps_identity_same_tasks. reflexivity.
  - rewrite getCurrentUser_effect. apply keeps_identity_same_tasks. reflexivity.
  - rewrite getAllTasks_effect. apply keeps_identity_same_tasks. reflexivity.
  - apply create_keeps_identity.
  - rewrite getTask_effect. apply keeps_identity_same_tasks. reflexivity.
  - apply update_keeps_identity.
  - apply remove_keeps_identity.
Qed.

(** C10: [create] gives every row it stores the caller's id from
    [req.user], whatever the body holds, and touches no other row; a
    successful [update] leaves the task under the same id with the same owner
    and creation time, as stored and as answered; and no request on any
    route changes the owner or the creation time of a task that exists before
    and after it. *)
Theorem task_identity_preserved (rt : Runtime) (now : Z) :
  (forall req db id r,
     tasks (TaskController.create rt now req db).1 !! id = Some r ->
     tasks db !! id = Some r
     \/ (id = task_seq db /\ Task.user_id r = userId req /\ Task.created_at r = now))
  /\ (forall req db,
        code_of (TaskController.create rt now req db).2 = 201 ->
        exists r,
          tasks (TaskController.create rt now req db).1 !! task_seq db = Some r
          /\ Task.user_id r = userId req
          /\ prop "userId" (prop "task" (json (TaskController.create rt now req db).2))
             = JNum (userId req))
  /\ (forall req db,
        code_of (TaskController.update rt now req db).2 = 200 ->
        exists taskId old new,
          parseInt (params_id req) = Some taskId
          /\ tasks db !! taskId = Some old
          /\ tasks (TaskController.update rt now req db).1 !! taskId = Some new
          /\ Task.user_id new = Task.user_id old
          /\ Task.created_at new = Task.created_at old
          /\ prop "id" (prop "task" (json (TaskController.update rt now req db).2))
             = JNum taskId
          /\ prop "userId" (prop "task" (json (TaskController.update rt now req db).2))
             = JNum (Task.user_id old)
          /\ prop "createdAt" (prop "task" (json (TaskController.update rt now req db).2))
             = JDate (Task.created_at old))
  /\ (forall route req db, keeps_identity db (serve rt now route req db).1).
Proof.
  split; [|split; [|split]].
  - intros req db id r.
    destruct (create_effect rt now req db)
      as [[-> _]|[-> |(r0 & Hfree & _ & Hu & Hc & ->)]];
      [intros Hr; left; exact Hr | intros Hr; left; exact Hr |].
    cbn [fst with_tasks tasks]. intros Hr.
    destruct (decide (id = task_seq db)) as [->|Hne].
    + rewrite lookup_insert_eq in Hr. injection Hr as <-. right. auto.
    + rewrite lookup_insert_ne in Hr by congruence. left. exact Hr.
  - intros req db.
    destruct (create_effect rt now req db)
      as [[_ Hne]|[-> |(r0 & _ & _ & Hu & _ & ->)]];
      [intros H; rewrite H in Hne; cbn in Hne; exfalso; intuition discriminate
      |discriminate |].
    intros _. exists r0. cbn [fst snd with_tasks tasks json].
    split; [apply lookup_insert_eq|]. split; [exact Hu|].
    cbn. rewrite Hu. reflexivity.
  - intros req db.
    destruct (update_effect rt now req db)
      as [[_ Hne]|(taskId & old & new & Hid & Hold & _ & Hu & Hc & _ & ->)];
      [intros H; contradiction|].
    intros _. exists taskId, old, new. cbn [fst snd with_tasks tasks json].
    split; [exact Hid|]. split; [exact Hold|]. split; [apply lookup_insert_eq|].
    split; [exact Hu|]. split; [exact Hc|].
    cbn. rewrite Hu, Hc. repeat split; reflexivity.
  - intros route req db. apply serve_keeps_identity.
Qed.

(** Ann's new task is stored under her id, and Bob deleting his task
    leaves the identity of the others alone. *)
Lemma task_identity_preserved_witness :
  (exists r,
     tasks (TaskController.create Sample.runtime 50
              (mkRequest 1 "" (Sample.body_of [("title", JStr "Plan trip");
                                               ("userId", JNum 2)]))
              Sample.db_users).1 !! 1 = Some r
     /\ Task.user_id r = 1
     /\ prop "userId"
          (prop "task"
             (json (TaskController.create Sample.runtime 50
                      (mkRequest 1 "" (Sample.body_of [("title", JStr "Plan trip");
                                                       ("userId", JNum 2)]))
                      Sample.db_users).2)) = JNum 1)
  /\ keeps_identity Sample.db_tasks
       (serve Sample.runtime 50 DeleteTaskId (mkRequest 2 "2" ∅) Sample.db_tasks).1.
Proof.
  destruct (task_identity_preserved Sample.runtime 50) as (_ & Hcreate & _ & Hkeep).
  split.
  - apply (Hcreate (mkRequest 1 "" (Sample.body_of [("title", JStr "Plan trip");
                                                     ("userId", JNum 2)]))
             Sample.db_users).
    vm_compute. reflexivity.
  - apply Hkeep.
Defined.

(** Ann creates a task with a body that names Bob as owner; the stored row
    is hers. *)
Example create_ignores_body_owner :
  exists db' resp,
    TaskController.create Sample.runtime 50
      (mkRequest 1 ""
         (Sample.body_of [("title", JStr "Plan trip"); ("userId", JNum 2);
                          ("user_id", JNum 2)]))
      Sample.db_users = (db', resp)
    /\ code_of resp = 201
    /\ Task.user_id <$> tasks db' !! 1 = Some 1.
Proof. eexists _, _. split; [reflexivity|]. vm_compute. split; reflexivity. Qed.

(** *** Over a run of requests *)

Lemma serve_sequence (rt : Runtime) (now : Z) (route : Route) (req : Request) (db : Db) :
  sequence_ahead db ->
  sequence_ahead (serve rt now route req db).1
  /\ task_seq db <= task_seq (serve rt now route req db).1
  /\ (forall id, tasks db !! id = None -> id < task_seq db ->
        tasks (serve rt now route req db).1 !! id = None).
Proof.
  intros Hwf.
  assert (forall db', tasks db' = tasks db -> task_seq db <= task_seq db' ->
            sequence_ahead db' /\ task_seq db <= task_seq db'
            /\ (forall id, tasks db !! id = None -> id < task_seq db ->
                  tasks db' !! id = None)) as Hsame.
  { intros db' Ht Hs. unfold sequence_ahead. rewrite Ht.
    split; [intros id Hid; specialize (Hwf id Hid); lia|]. split; [lia|auto]. }
  destruct route; cbn [serve].
  - apply Hsame; [apply signup_effect|].
    rewrite (proj2 (signup_effect rt now req db)). lia.
  - rewrite login_effect. apply Hsame; [reflexivity | lia].
  - rewrite getCurrentUser_effect. apply Hsame; [reflexivity | lia].
  - rewrite getAllTasks_effect. apply Hsame; [reflexivity | lia].
  - destruct (create_effect rt now req db)
      as [[-> _]|[-> |(r & Hfree & _ & _ & _ & ->)]];
      [apply Hsame; [reflexivity | lia]
      |apply Hsame; [reflexivity | cbn; lia] |].
    cbn [fst with_tasks tasks task_seq]. split; [|split; [lia|]].
    + intros id [x Hx]. cbn [with_tasks tasks task_seq] in *.
      destruct (decide (id = task_seq db)) as [->|Hne]; [lia|].
      rewrite lookup_insert_ne in Hx by congruence.
      specialize (Hwf id (ex_intro _ x Hx)). lia.
    + intros id Hnone Hlt. rewrite lookup_insert_ne by lia. exact Hnone.
  - rewrite getTask_effect. apply Hsame; [reflexivity | lia].
  - destruct (update_effect rt now req db)
      as [[-> _]|(taskId & old & new & _ & Hold & _ & _ & _ & _ & ->)];
      [apply Hsame; [reflexivity | lia]|].
    cbn [fst with_tasks tasks task_seq]. split; [|split; [lia|]].
    + intros id [x Hx]. cbn [with_tasks tasks task_seq] in *.
      destruct (decide (id = taskId)) as [->|Hne]; [apply Hwf; eauto|].
      rewrite lookup_insert_ne in Hx by congruence. apply Hwf. eauto.
    + intros id Hnone Hlt. rewrite lookup_insert_ne by congruence. exact Hnone.
  - destruct (remove_effect req db) as [->|[taskId ->]];
      [apply Hsame; [reflexivity | lia]|].
    cbn [with_tasks tasks task_seq]. split; [|split; [lia|]].
    + intros id [x Hx]. cbn [with_tasks tasks task_seq] in *.
      apply lookup_delete_Some in Hx as [_ Hx]. apply Hwf. eauto.
    + intros id Hnone Hlt. rewrite lookup_delete_None. auto.
Qed.

(** X30: from a store whose sequence is ahead of its ids, no run of
    requests hands a task to another user or changes its creation time: ids
    are never reused. *)
Theorem serve_all_keeps_identity (rt : Runtime) (reqs : list (Z * Route * Request)) :
  forall db, sequence_ahead db -> keeps_identity db (serve_all rt reqs db).
Proof.
  induction reqs as [|[[now route] req] rest IH]; intros db Hwf; cbn [serve_all].
  - apply keeps_identity_same_tasks. reflexivity.
  - destruct (serve_sequence rt now route req db Hwf) as (Hwf' & Hle & Hgone).
    intros id r r' Hr Hr'.
    destruct (tasks (serve rt now route req db).1 !! id) as [r1|] eqn:H1.
    + destruct (serve_keeps_identity rt now route req db id r r1 Hr H1) as [Hu Hc].
      destruct (IH _ Hwf' id r1 r' H1 Hr') as [Hu' Hc']. split; congruence.
    + exfalso.
      assert (forall db1, sequence_ahead db1 -> tasks db1 !! id = None ->
                id < task_seq db1 -> tasks (serve_all rt rest db1) !! id = None)
        as Hstays.
      { clear. induction rest as [|[[n ro] rq] rest IHr]; intros db1 Hw Hn Hl;
          cbn [serve_all]; [exact Hn|].
        destruct (serve_sequence rt n ro rq db1 Hw) as (Hw' & Hle' & Hg').
        apply IHr; [exact Hw' | apply Hg'; assumption | lia]. }
      assert (id < task_seq db) as Hlt by (apply Hwf; eauto).
      rewrite (Hstays _ Hwf' H1) in Hr' by lia. discriminate.
Qed.

(** Bob fails to take over Ann's task, then deletes his own. *)
Lemma serve_all_keeps_identity_witness :
  keeps_identity Sample.db_tasks
    (serve_all Sample.runtime
       [(50, PutTaskId, mkRequest 2 "1" (Sample.body_of [("title", JStr "mine now")]));
        (51, DeleteTaskId, mkRequest 2 "2" ∅)]
       Sample.db_tasks).
Proof.
  apply serve_all_keeps_identity.
  intros id [r Hr]. cbn [Sample.db_tasks tasks task_seq] in *.
  apply lookup_insert_Some in Hr as [[<- _]|[_ Hr]]; [lia|].
  apply lookup_singleton_Some in Hr as [<- _]. lia.
Defined.

(** ** Round trip through create and get *)

Lemma trimStart_plain (s : string) : starts_plain s = true -> trimStart s = s.
Proof.
  destruct s as [|c s]; [reflexivity|]. cbn [starts_plain trimStart].
  intros H. apply negb_true_iff in H. rewrite H. reflexivity.
Qed.

Lemma trimEnd_plain (s : string) : ends_plain s = true -> trimEnd s = s.
Proof.
  induction s as [|c s IH]; [reflexivity|]. cbn [ends_plain trimEnd].
  destruct s as [|c' s'].
  - intros H. apply negb_true_iff in H. cbn [trimEnd]. rewrite H. reflexivity.
  - intros H. rewrite (IH H). cbn [String.eqb]. rewrite andb_false_r. reflexivity.
Qed.

Lemma is_trimmed_trim (s : string) : is_trimmed s = true -> trim s = s.
Proof.
  unfold is_trimmed, trim. intros H. apply andb_true_iff in H as [Hs He].
  rewrite (trimStart_plain s Hs). apply trimEnd_plain, He.
Qed.

Lemma includes_In (l : list string) (s : string) :
  In s l -> includes l (JStr s) = true.
Proof.
  intros H. cbn [includes]. apply existsb_exists. exists s.
  split; [exact H | apply String.eqb_refl].
Qed.

Lemma truthy_nonempty (s : string) : s <> "" -> truthy (JStr s) = true.
Proof. intros H. cbn [truthy]. rewrite (eqb_false_of_ne _ _ H). reflexivity. Qed.

Lemma js_or_truthy (a b : JsValue) : truthy a = true -> js_or a b = a.
Proof. unfold js_or. intros ->. reflexivity. Qed.

Lemma valid_priority_nonempty (p : string) :
  In p TaskController.validPriorities -> p <> "".
Proof. intros [<-|[<-|[<-|[]]]]; discriminate. Qed.

Lemma valid_status_nonempty (s : string) :
  In s TaskController.validStatuses -> s <> "".
Proof. intros [<-|[<-|[<-|[]]]]; discriminate. Qed.

(** C9, as stated, fails for the due date: it does not come back verbatim.
    Ann creates "Pay rent" with every field set and the due date
    ["2024-01-15"] and fetches it: the answer holds the [Date] of the stored
    date (in a JSON body the text 2024-01-15T00:00:00.000Z), not the string
    that was sent. *)
Lemma due_date_comes_back_as_a_date :
  exists db' created fetched,
    field "dueDate"
      (mkRequest 1 ""
         (Sample.body_of [("title", JStr "Pay rent"); ("description", JStr "before noon");
                          ("priority", JStr "high"); ("status", JStr "in_progress");
                          ("dueDate", JStr "2024-01-15")]))
    = JStr "2024-01-15"
    /\ TaskController.create Sample.runtime 50
         (mkRequest 1 ""
            (Sample.body_of [("title", JStr "Pay rent"); ("description", JStr "before noon");
                             ("priority", JStr "high"); ("status", JStr "in_progress");
                             ("dueDate", JStr "2024-01-15")]))
         Sample.db_users
       = (db', mkResponse 201
                 (JObj [("message", JStr "Task created successfully"); ("task", created)]))
    /\ prop "id" created = JNum 1
    /\ TaskController.getTask (mkRequest 1 "1" ∅) db'
       = (db', mkResponse 200 (JObj [("task", fetched)]))
    /\ prop "dueDate" fetched = JDate 1705276800000
    /\ prop "dueDate" fetched <> JStr "2024-01-15"
    /\ date_iso Sample.runtime 1705276800000 = "2024-01-15T00:00:00.000Z".
Proof.
  eexists _, _, _. split; [reflexivity|]. split; [vm_compute; reflexivity|].
  split; [reflexivity|]. split; [vm_compute; reflexivity|].
  split; [reflexivity|]. split; [discriminate | reflexivity].
Qed.

(** C9 (amended): a registered caller creates a task with every field set
    (a non-blank trimmed title, a non-empty trimmed description, a valid
    priority, a valid status, a due date string that parses), on a store whose
    next id is free and whose server takes the four texts and reads a date
    from the due date.  The request is answered 201 with the new id, and
    fetching that id as the same caller answers 200 with the title,
    description, priority and status that were sent, and with the [Date] of
    the date the server read, never the string that was sent. *)
Theorem create_then_get_round_trip (rt : Runtime) (now : Z) (req : Request) (db : Db)
    (t d p s dd : string) (ms : Z) (u : User.Row) :
  field "title" req = JStr t -> is_trimmed t = true -> t <> "" ->
  field "description" req = JStr d -> is_trimmed d = true -> d <> "" ->
  field "priority" req = JStr p -> In p TaskController.validPriorities ->
  field "status" req = JStr s -> In s TaskController.validStatuses ->
  field "dueDate" req = JStr dd -> dd <> "" -> date_is_nan rt (JStr dd) = Ok false ->
  Pg.accepts rt [("title", Some t); ("description", Some d); ("priority", Some p);
                 ("status", Some s)] = true ->
  pg_date rt dd = Some ms ->
  users db !! userId req = Some u ->
  tasks db !! task_seq db = None ->
  exists db' created,
    TaskController.create rt now req db =
      (db', mkResponse 201
              (JObj [("message", JStr "Task created successfully"); ("task", created)]))
    /\ prop "id" created = JNum (task_seq db)
    /\ forall req',
         userId req' = userId req ->
         parseInt (params_id req') = Some (task_seq db) ->
         exists fetched,
           TaskController.getTask req' db' =
             (db', mkResponse 200 (JObj [("task", fetched)]))
           /\ prop "id" fetched = prop "id" created
           /\ prop "title" fetched = JStr t
           /\ prop "description" fetched = JStr d
           /\ prop "priority" fetched = JStr p
           /\ prop "status" fetched = JStr s
           /\ prop "dueDate" fetched = JDate ms
           /\ prop "dueDate" fetched <> JStr dd.
Proof.
  intros Ht Htrim Hne Hd Hdtrim Hdne Hp Hpin Hs Hsin Hdd Hddne Hdate Hacc Hpg Hu Hfree.
  pose proof (is_trimmed_trim t Htrim) as Et.
  pose proof (is_trimmed_trim d Hdtrim) as Ed.
  assert (trim t <> "") as Hblank by (rewrite Et; exact Hne).
  assert (priority_accepted (field "priority" req) = true) as Ap.
  { unfold priority_accepted. rewrite Hp, (includes_In _ _ Hpin).
    cbn [negb]. rewrite andb_false_r. reflexivity. }
  assert (status_accepted (field "status" req) = true) as As.
  { unfold status_accepted. rewrite Hs, (includes_In _ _ Hsin).
    cbn [negb]. rewrite andb_false_r. reflexivity. }
  assert (dueDate_accepted rt (field "dueDate" req) = true) as Ad.
  { apply dueDate_accepted_inv. unfold TaskController.invalid_date.
    rewrite Hdd, (truthy_nonempty dd Hddne). exact Hdate. }
  assert (TaskController.optional_trim (field "description" req) = Ok (JStr d)) as Od.
  { rewrite Hd. cbn [TaskController.optional_trim call_trim]. rewrite Ed. reflexivity. }
  assert (store_accepts rt req t (JStr d) (Some ms)) as Hstore.
  { unfold store_accepts, Pg.task_params. rewrite Hp, Hs, Hdd, Et.
    rewrite !js_or_truthy
      by (apply truthy_nonempty;
          first [assumption | apply valid_priority_nonempty; assumption
                | apply valid_status_nonempty; assumption]).
    cbn [Pg.bind]. rewrite Hacc. cbn [Pg.date_in]. rewrite Hpg. reflexivity. }
  rewrite (create_accepted rt now req db t (JStr d) Ht Hblank Ap As Ad Od _ Hstore),
    Hfree, Hu.
  cbv zeta. eexists _, _. split; [reflexivity|]. split; [reflexivity|].
  intros req' Huid Hid. rewrite (getTask_parsed req' _ _ Hid).
  unfold Pg.owned_task. cbn [with_tasks tasks]. rewrite lookup_insert_eq.
  unfold created_row at 1. cbn [Task.user_id]. rewrite Huid, Z.eqb_refl.
  eexists. split; [reflexivity|]. unfold created_row.
  rewrite Hp, Hs, Et.
  rewrite !js_or_truthy
    by (apply truthy_nonempty;
        first [assumption | apply valid_priority_nonempty; assumption
              | apply valid_status_nonempty; assumption]).
  repeat split; try reflexivity. cbn. discriminate.
Qed.

(** Ann creates "Pay rent" with every field set and reads it back under
    the id she was given. *)
Lemma create_then_get_round_trip_witness :
  exists db' created,
    TaskController.create Sample.runtime 50
      (mkRequest 1 ""
         (Sample.body_of [("title", JStr "Pay rent"); ("description", JStr "before noon");
                          ("priority", JStr "high"); ("status", JStr "in_progress");
                          ("dueDate", JStr "2024-01-15")]))
      Sample.db_users =
      (db', mkResponse 201
              (JObj [("message", JStr "Task created successfully"); ("task", created)]))
    /\ prop "id" created = JNum 1
    /\ exists fetched,
         TaskController.getTask (mkRequest 1 "1" ∅) db' =
           (db', mkResponse 200 (JObj [("task", fetched)]))
         /\ prop "title" fetched = JStr "Pay rent"
         /\ prop "description" fetched = JStr "before noon"
         /\ prop "priority" fetched = JStr "high"
         /\ prop "status" fetched = JStr "in_progress"
         /\ prop "dueDate" fetched = JDate 1705276800000.
Proof.
  destruct (create_then_get_round_trip Sample.runtime 50
              (mkRequest 1 ""
                 (Sample.body_of [("title", JStr "Pay rent");
                                  ("description", JStr "before noon");
                                  ("priority", JStr "high");
                                  ("status", JStr "in_progress");
                                  ("dueDate", JStr "2024-01-15")]))
              Sample.db_users "Pay rent" "before noon" "high" "in_progress"
              "2024-01-15" 1705276800000 Sample.ann
              eq_refl eq_refl ltac:(discriminate)
              eq_refl eq_refl ltac:(discriminate)
              eq_refl ltac:(cbn; tauto)
              eq_refl ltac:(cbn; tauto)
              eq_refl ltac:(discriminate) eq_refl
              eq_refl eq_refl
              eq_refl eq_refl)
    as (db' & created & Hc & Hid & Hget).
  exists db', created. split; [exact Hc|]. split; [exact Hid|].
  destruct (Hget (mkRequest 1 "1" ∅) eq_refl eq_refl)
    as (fetched & Hg & _ & H1 & H2 & H3 & H4 & H5 & _).
  exists fetched. repeat split; assumption.
Defined.

(** ** Validation of the optional fields *)

Lemma includes_inv (l : list string) (v : JsValue) :
  includes l v = true -> exists x, v = JStr x /\ In x l.
Proof.
  destruct v; cbn [includes]; try discriminate.
  intros H. apply existsb_exists in H as (x & Hin & Heq).
  apply String.eqb_eq in Heq. subst x. eauto.
Qed.

Lemma call_trim_inv (v : JsValue) (a : string) :
  call_trim v = Ok a -> exists t, v = JStr t /\ a = trim t.
Proof. destruct v; cbn [call_trim]; try discriminate. intros [= <-]. eauto. Qed.

Lemma create_rejects (rt : Runtime) (now : Z) (req : Request) (db : Db) :
  (truthy (field "title" req) = false \/ exists t, field "title" req = JStr t) ->
  priority_accepted (field "priority" req) = false
  \/ status_accepted (field "status" req) = false
  \/ TaskController.invalid_date rt (field "dueDate" req) = Ok true ->
  exists msg, TaskController.create rt now req db = (db, error_response 400 msg).
Proof.
  intros Htitle Hbad. unfold TaskController.create. unfold_monad.
  unfold priority_accepted, status_accepted in Hbad.
  destruct Htitle as [Hf|[t Ht]].
  - rewrite Hf. cbn [negb]. eexists. reflexivity.
  - rewrite Ht. cbn [call_trim].
    destruct (negb (truthy (JStr t))); [eexists; reflexivity|].
    destruct (String.eqb (trim t) ""); [eexists; reflexivity|].
    destruct (truthy (field "priority" req) && _); [eexists; reflexivity|].
    destruct (truthy (field "status" req) && _); [eexists; reflexivity|].
    destruct Hbad as [Hbad|[Hbad|Hbad]]; try discriminate Hbad.
    rewrite Hbad. eexists. reflexivity.
Qed.

Lemma update_rejects (rt : Runtime) (now : Z) (req : Request) (db : Db) :
  (truthy (field "title" req) = false \/ exists t, field "title" req = JStr t) ->
  priority_accepted (field "priority" req) = false
  \/ status_accepted (field "status" req) = false
  \/ TaskController.invalid_date rt (field "dueDate" req) = Ok true ->
  exists msg, TaskController.update rt now req db = (db, error_response 400 msg).
Proof.
  intros Htitle Hbad. unfold TaskController.update. unfold_monad.
  unfold priority_accepted, status_accepted in Hbad.
  destruct (parseInt (params_id req)); [|eexists; reflexivity].
  destruct Htitle as [Hf|[t Ht]].
  - rewrite Hf. cbn [negb]. eexists. reflexivity.
  - rewrite Ht. cbn [call_trim].
    destruct (negb (truthy (JStr t))); [eexists; reflexivity|].
    destruct (String.eqb (trim t) ""); [eexists; reflexivity|].
    destruct (truthy (field "priority" req) && _); [eexists; reflexivity|].
    destruct (truthy (field "status" req) && _); [eexists; reflexivity|].
    destruct Hbad as [Hbad|[Hbad|Hbad]]; try discriminate Hbad.
    rewrite Hbad. eexists. reflexivity.
Qed.

(** A request answered 201 passed every check of [create], and the server
    took its cells. *)
Lemma create_201_inv (rt : Runtime) (now : Z) (req : Request) (db : Db) :
  code_of (TaskController.create rt now req db).2 = 201 ->
  exists t d due,
    field "title" req = JStr t /\ trim t <> ""
    /\ priority_accepted (field "priority" req) = true
    /\ status_accepted (field "status" req) = true
    /\ dueDate_accepted rt (field "dueDate" req) = true
    /\ TaskController.optional_trim (field "description" req) = Ok d
    /\ store_accepts rt req t d due.
Proof.
  unfold TaskController.create, TaskModel.createTask, Pg.insert_task.
  unfold_monad. cbv zeta.
  repeat handler_step; cbn [snd code_of error_response]; try discriminate.
  intros _.
  match goal with
  | H : call_trim _ = Ok ?a, H' : String.eqb ?a "" = false |- _ =>
      apply call_trim_inv in H as (t & Ht & ->); apply String.eqb_neq in H';
      exists t
  end.
  do 2 eexists. unfold priority_accepted, status_accepted.
  repeat match goal with H : _ && _ = false |- _ => rewrite H; clear H end.
  rewrite dueDate_accepted_inv.
  repeat split; eauto.
Qed.

(** A request answered 200 passed every check of [update], and the server
    took its cells. *)
Lemma update_200_inv (rt : Runtime) (now : Z) (req : Request) (db : Db) :
  code_of (TaskController.update rt now req db).2 = 200 ->
  exists t d due,
    field "title" req = JStr t /\ trim t <> ""
    /\ priority_accepted (field "priority" req) = true
    /\ status_accepted (field "status" req) = true
    /\ dueDate_accepted rt (field "dueDate" req) = true
    /\ TaskController.optional_trim (field "description" req) = Ok d
    /\ store_accepts rt req t d due.
Proof.
  unfold TaskController.update, TaskModel.updateTask.
  unfold_monad.
  repeat handler_step; cbn [snd code_of error_response]; try discriminate.
  intros _.
  match goal with
  | H : call_trim _ = Ok ?a, H' : String.eqb ?a "" = false |- _ =>
      apply call_trim_inv in H as (t & Ht & ->); apply String.eqb_neq in H';
      exists t
  end.
  do 2 eexists. unfold priority_accepted, status_accepted.
  repeat match goal with H : _ && _ = false |- _ => rewrite H; clear H end.
  rewrite dueDate_accepted_inv.
  repeat split; eauto.
Qed.

Lemma stored_choice_accepted (rt : Runtime) (valid : list string) (dflt : string)
    (v : JsValue) :
  negb (truthy v && negb (includes valid v)) = true ->
  stored_choice valid dflt v (Pg.bind rt (js_or v (JStr dflt))).
Proof.
  intros H. apply negb_true_iff in H. unfold stored_choice, js_or.
  destruct (truthy v) eqn:Hv.
  - right. cbn [andb] in H. apply negb_false_iff in H.
    destruct (includes_inv _ _ H) as (x & -> & Hin). exists x.
    repeat split; auto. intros ->. discriminate Hv.
  - left. auto.
Qed.

(** The date the server reads when it takes the cells. *)
Lemma store_accepts_date (rt : Runtime) (req : Request) (t : string) (d : JsValue)
    (due : option Z) :
  store_accepts rt req t d due ->
  Pg.date_in rt (Pg.bind rt (js_or (field "dueDate" req) JNull)) = Ok due.
Proof.
  unfold store_accepts, Pg.task_params.
  destruct (Pg.accepts _ _); [auto | discriminate].
Qed.

Lemma stored_date_accepted (rt : Runtime) (v : JsValue) (due : option Z) :
  dueDate_accepted rt v = true ->
  Pg.date_in rt (Pg.bind rt (js_or v JNull)) = Ok due ->
  stored_date rt v due.
Proof.
  rewrite dueDate_accepted_inv. unfold TaskController.invalid_date, stored_date, js_or.
  destruct (truthy v) eqn:Hv; intros H Hin.
  - right. auto.
  - left. split; [reflexivity|]. cbn in Hin. congruence.
Qed.

(** C2, as stated, fails: a priority, status or due date that is present
    but falsy is neither rejected nor kept.  Ann posts a task with priority
    [""], status [null] and due date [""]: the answer is 201 and the stored
    task has priority medium, status pending and no due date.  The same body
    sent as an update of her task 1 is answered 200 with the same
    defaults. *)
Lemma present_falsy_fields_get_defaults :
  Sample.body_of [("title", JStr "Buy milk"); ("priority", JStr "");
                  ("status", JNull); ("dueDate", JStr "")] !! "priority"
    = Some (JStr "")
  /\ includes TaskController.validPriorities (JStr "") = false
  /\ date_is_nan Sample.runtime (JStr "") = Ok true
  /\ (TaskController.create Sample.runtime 50
        (mkRequest 1 ""
           (Sample.body_of [("title", JStr "Buy milk"); ("priority", JStr "");
                            ("status", JNull); ("dueDate", JStr "")]))
        Sample.db_users).2
     = mkResponse 201
         (JObj [("message", JStr "Task created successfully");
                ("task",
                 JObj [("id", JNum 1); ("userId", JNum 1); ("title", JStr "Buy milk");
                       ("description", JNull); ("priority", JStr "medium");
                       ("dueDate", JNull); ("status", JStr "pending");
                       ("createdAt", JDate 50); ("updatedAt", JDate 50)])])
  /\ (TaskController.update Sample.runtime 60
        (mkRequest 1 "1"
           (Sample.body_of [("title", JStr "Buy milk"); ("priority", JStr "");
                            ("status", JNull); ("dueDate", JStr "")]))
        Sample.db_tasks).2
     = mkResponse 200
         (JObj [("message", JStr "Task updated successfully");
                ("task",
                 JObj [("id", JNum 1); ("userId", JNum 1); ("title", JStr "Buy milk");
                       ("description", JNull); ("priority", JStr "medium");
                       ("dueDate", JNull); ("status", JStr "pending");
                       ("createdAt", JDate 30); ("updatedAt", JDate 60)])]).
Proof. vm_compute. repeat split; reflexivity. Qed.

(** C2 (amended): for a create or update request whose title is a string
    or falsy, a truthy priority outside low/medium/high, a truthy status
    outside pending/in_progress/completed, or a truthy due date that does not
    parse is answered 400 and nothing is stored.  A priority, status or due
    date that is falsy (missing, null, false, 0, empty string) passes
    validation like a valid one: with a non-blank title, a description that
    can be trimmed and cells the server takes, create by a registered user on
    a free id is answered 201 and update of a task of the caller 200.  In
    every request so answered the stored priority and status are the default
    exactly when the field sent was falsy and otherwise the valid string
    sent, and the stored due date is NULL when the field was falsy and
    otherwise the date the server read from the parseable value sent. *)
Theorem validation_policy (rt : Runtime) (now : Z) (req : Request) (db : Db) :
  (truthy (field "title" req) = false \/ exists t, field "title" req = JStr t) ->
  ((truthy (field "priority" req) = true
      /\ includes TaskController.validPriorities (field "priority" req) = false)
   \/ (truthy (field "status" req) = true
         /\ includes TaskController.validStatuses (field "status" req) = false)
   \/ (truthy (field "dueDate" req) = true
         /\ date_is_nan rt (field "dueDate" req) = Ok true) ->
   (exists msg, TaskController.create rt now req db = (db, error_response 400 msg))
   /\ (exists msg, TaskController.update rt now req db = (db, error_response 400 msg)))
  /\ (forall t d due,
        field "title" req = JStr t -> trim t <> "" ->
        (truthy (field "priority" req) = false
         \/ includes TaskController.validPriorities (field "priority" req) = true) ->
        (truthy (field "status" req) = false
         \/ includes TaskController.validStatuses (field "status" req) = true) ->
        (truthy (field "dueDate" req) = false
         \/ date_is_nan rt (field "dueDate" req) = Ok false) ->
        TaskController.optional_trim (field "description" req) = Ok d ->
        store_accepts rt req t d due ->
        (is_Some (users db !! userId req) -> tasks db !! task_seq db = None ->
         code_of (TaskController.create rt now req db).2 = 201)
        /\ (forall taskId old,
              parseInt (params_id req) = Some taskId ->
              tasks db !! taskId = Some old -> Task.user_id old = userId req ->
              code_of (TaskController.update rt now req db).2 = 200))
  /\ (code_of (TaskController.create rt now req db).2 = 201 ->
      exists r,
        tasks (TaskController.create rt now req db).1 !! task_seq db = Some r
        /\ stored_choice TaskController.validPriorities "medium"
             (field "priority" req) (Task.priority r)
        /\ stored_choice TaskController.validStatuses "pending"
             (field "status" req) (Task.status r)
        /\ stored_date rt (field "dueDate" req) (Task.due_date r))
  /\ (code_of (TaskController.update rt now req db).2 = 200 ->
      exists taskId r,
        parseInt (params_id req) = Some taskId
        /\ tasks (TaskController.update rt now req db).1 !! taskId = Some r
        /\ stored_choice TaskController.validPriorities "medium"
             (field "priority" req) (Task.priority r)
        /\ stored_choice TaskController.validStatuses "pending"
             (field "status" req) (Task.status r)
        /\ stored_date rt (field "dueDate" req) (Task.due_date r)).
Proof.
  intros Htitle. split; [|split; [|split]].
  - intros Hbad.
    assert (priority_accepted (field "priority" req) = false
            \/ status_accepted (field "status" req) = false
            \/ TaskController.invalid_date rt (field "dueDate" req) = Ok true) as Hrej.
    { unfold priority_accepted, status_accepted, TaskController.invalid_date.
      destruct Hbad as [[-> ->]|[[-> ->]|[-> ->]]]; auto. }
    split; [apply create_rejects | apply update_rejects]; assumption.
  - intros t d due Ht Hb Hp Hs Hd Od Hstore.
    assert (priority_accepted (field "priority" req) = true) as Ap.
    { unfold priority_accepted. destruct Hp as [-> | ->]; [reflexivity|].
      cbn [negb]. rewrite andb_false_r. reflexivity. }
    assert (status_accepted (field "status" req) = true) as As.
    { unfold status_accepted. destruct Hs as [-> | ->]; [reflexivity|].
      cbn [negb]. rewrite andb_false_r. reflexivity. }
    assert (dueDate_accepted rt (field "dueDate" req) = true) as Ad.
    { apply dueDate_accepted_inv. unfold TaskController.invalid_date.
      destruct Hd as [-> | Hd]; [reflexivity|].
      destruct (truthy (field "dueDate" req)); [exact Hd | reflexivity]. }
    split.
    + intros [u Hu] Hfree.
      rewrite (create_accepted rt now req db t d Ht Hb Ap As Ad Od due Hstore), Hfree, Hu.
      reflexivity.
    + intros taskId old Hid Hold Hown.
      rewrite (update_accepted rt now req db t d Ht Hb Ap As Ad Od due Hstore taskId Hid).
      rewrite (proj2 (owned_task_Some taskId (userId req) db old) (conj Hold Hown)).
      reflexivity.
  - intros H201.
    destruct (create_201_inv rt now req db H201)
      as (t & d & due & Ht & Hb & Ap & As & Ad & Od & Hstore).
    rewrite (create_accepted rt now req db t d Ht Hb Ap As Ad Od due Hstore) in H201 |- *.
    destruct (tasks db !! task_seq db); [discriminate H201|].
    destruct (users db !! userId req); [|discriminate H201].
    cbv zeta. cbn [fst with_tasks tasks]. eexists. split; [apply lookup_insert_eq|].
    unfold created_row. cbn [Task.priority Task.status Task.due_date].
    split; [apply stored_choice_accepted, Ap|].
    split; [apply stored_choice_accepted, As|].
    exact (stored_date_accepted rt _ due Ad (store_accepts_date _ _ _ _ _ Hstore)).
  - intros H200.
    destruct (update_200_inv rt now req db H200)
      as (t & d & due & Ht & Hb & Ap & As & Ad & Od & Hstore).
    destruct (parseInt (params_id req)) as [taskId|] eqn:Hid.
    2:{ exfalso. revert H200. unfold TaskController.update. unfold_monad.
        rewrite Hid. discriminate. }
    rewrite (update_accepted rt now req db t d Ht Hb Ap As Ad Od due Hstore taskId Hid)
      in H200 |- *.
    destruct (Pg.owned_task taskId (userId req) db); [|discriminate H200].
    cbv zeta. cbn [fst with_tasks tasks]. exists taskId. eexists.
    split; [reflexivity|]. split; [apply lookup_insert_eq|].
    unfold replaced_row. cbn [Task.priority Task.status Task.due_date].
    split; [apply stored_choice_accepted, Ap|].
    split; [apply stored_choice_accepted, As|].
    exact (stored_date_accepted rt _ due Ad (store_accepts_date _ _ _ _ _ Hstore)).
Qed.

(** Ann posts a task with priority "urgent": 400 from create and from
    update, and the store is as before.  With the priority [""], the status
    [null] and the due date [""] the same task is accepted. *)
Lemma validation_policy_witness :
  ((exists msg,
      TaskController.create Sample.runtime 50
        (mkRequest 1 "1"
           (Sample.body_of [("title", JStr "Buy milk"); ("priority", JStr "urgent")]))
        Sample.db_tasks = (Sample.db_tasks, error_response 400 msg))
   /\ (exists msg,
         TaskController.update Sample.runtime 50
           (mkRequest 1 "1"
              (Sample.body_of [("title", JStr "Buy milk"); ("priority", JStr "urgent")]))
           Sample.db_tasks = (Sample.db_tasks, error_response 400 msg)))
  /\ code_of (TaskController.create Sample.runtime 50
                (mkRequest 1 "1"
                   (Sample.body_of [("title", JStr "Buy milk"); ("priority", JStr "");
                                    ("status", JNull); ("dueDate", JStr "")]))
                Sample.db_tasks).2 = 201
  /\ code_of (TaskController.update Sample.runtime 50
                (mkRequest 1 "1"
                   (Sample.body_of [("title", JStr "Buy milk"); ("priority", JStr "");
                                    ("status", JNull); ("dueDate", JStr "")]))
                Sample.db_tasks).2 = 200.
Proof.
  split.
  - apply (validation_policy Sample.runtime 50
             (mkRequest 1 "1"
                (Sample.body_of [("title", JStr "Buy milk"); ("priority", JStr "urgent")]))
             Sample.db_tasks).
    + right. exists "Buy milk". reflexivity.
    + left. split; reflexivity.
  - destruct (validation_policy Sample.runtime 50
                (mkRequest 1 "1"
                   (Sample.body_of [("title", JStr "Buy milk"); ("priority", JStr "");
                                    ("status", JNull); ("dueDate", JStr "")]))
                Sample.db_tasks
                (or_intror (ex_intro _ "Buy milk" eq_refl))) as (_ & Hpass & _).
    destruct (Hpass "Buy milk" JUndefined None eq_refl ltac:(vm_compute; discriminate)
                (or_introl eq_refl) (or_introl eq_refl) (or_introl eq_refl)
                eq_refl eq_refl) as [Hc Hu].
    split.
    + apply Hc; [exists Sample.ann|]; reflexivity.
    + apply (Hu 1 Sample.milk); reflexivity.
Defined.

(** ** Login failures *)

(** When [bcrypt.compare] answers false, a login with the email of a stored
    user is answered like a login with an email no stored user has: 401
    "Invalid email or password", the store unchanged. *)
Lemma login_rejected_alike (rt : Runtime) (req1 req2 : Request) (db1 db2 : Db)
    (k : Z) (r : User.Row) :
  truthy (field "email" req1) = true ->
  truthy (field "password" req1) = true ->
  (forall k1 r1, users db1 !! k1 = Some r1 ->
     Pg.text_eq (User.email r1) (Pg.bind rt (field "email" req1)) = false) ->
  truthy (field "email" req2) = true ->
  truthy (field "password" req2) = true ->
  users db2 !! k = Some r ->
  Pg.text_eq (User.email r) (Pg.bind rt (field "email" req2)) = true ->
  (forall k2 r2, users db2 !! k2 = Some r2 ->
     Pg.text_eq (User.email r2) (Pg.bind rt (field "email" req2)) = true ->
     bcrypt_compare rt (field "password" req2) (Pg.cell (User.password_hash r2))
       = Ok false) ->
  AuthController.login rt req1 db1 = (db1, invalid_credentials)
  /\ AuthController.login rt req2 db2 = (db2, invalid_credentials)
  /\ (AuthController.login rt req1 db1).2 = (AuthController.login rt req2 db2).2.
Proof.
  intros He1 Hp1 Hnone He2 Hp2 Hk Hmatch Hwrong.
  assert (AuthController.login rt req1 db1 = (db1, invalid_credentials)) as L1.
  { unfold AuthController.login. unfold_monad. rewrite He1, Hp1. cbn [negb orb].
    destruct (findUserByEmail_shape rt (field "email" req1) db1)
      as [[-> _]|(k1 & r1 & Hk1 & Hm1 & _)]; [reflexivity|].
    rewrite (Hnone k1 r1 Hk1) in Hm1. discriminate. }
  assert (AuthController.login rt req2 db2 = (db2, invalid_credentials)) as L2.
  { unfold AuthController.login. unfold_monad. rewrite He2, Hp2. cbn [negb orb].
    destruct (findUserByEmail_shape rt (field "email" req2) db2)
      as [[_ Hall]|(k2 & r2 & Hk2 & Hm2 & ->)].
    - rewrite (Hall k r Hk) in Hmatch. discriminate.
    - cbn [Pg.user_full truthy negb prop assoc String.eqb Ascii.eqb Bool.eqb default].
      cbn. rewrite (Hwrong k2 r2 Hk2 Hm2). reflexivity. }
  rewrite L1, L2. auto.
Qed.

(** When [bcrypt.compare] throws, as it does for a password that is not a
    string, the two logins are told apart: the email of a stored user is
    answered 500, an email no stored user has 401. *)
Lemma login_compare_throws (rt : Runtime) (req : Request) (db : Db) (k : Z)
    (r : User.Row) :
  truthy (field "email" req) = true ->
  truthy (field "password" req) = true ->
  users db !! k = Some r ->
  Pg.text_eq (User.email r) (Pg.bind rt (field "email" req)) = true ->
  (forall k2 r2, users db !! k2 = Some r2 ->
     Pg.text_eq (User.email r2) (Pg.bind rt (field "email" req)) = true ->
     exists e, bcrypt_compare rt (field "password" req) (Pg.cell (User.password_hash r2))
               = Throw e) ->
  AuthController.login rt req db = (db, error_response 500 "Server error during login")
  /\ forall req' db',
       truthy (field "email" req') = true ->
       field "password" req' = field "password" req ->
       (forall k1 r1, users db' !! k1 = Some r1 ->
          Pg.text_eq (User.email r1) (Pg.bind rt (field "email" req')) = false) ->
       AuthController.login rt req' db' = (db', invalid_credentials).
Proof.
  intros He Hp Hk Hmatch Hthrow. split.
  - unfold AuthController.login. unfold_monad. rewrite He, Hp. cbn [negb orb].
    destruct (findUserByEmail_shape rt (field "email" req) db)
      as [[_ Hall]|(k2 & r2 & Hk2 & Hm2 & ->)].
    + rewrite (Hall k r Hk) in Hmatch. discriminate.
    + cbn [Pg.user_full truthy negb prop assoc String.eqb Ascii.eqb Bool.eqb default].
      cbn. destruct (Hthrow k2 r2 Hk2 Hm2) as [e ->]. reflexivity.
  - intros req' db' He' Hp' Hnone.
    unfold AuthController.login. unfold_monad. rewrite He', Hp', Hp. cbn [negb orb].
    destruct (findUserByEmail_shape rt (field "email" req') db')
      as [[-> _]|(k1 & r1 & Hk1 & Hm1 & _)]; [reflexivity|].
    rewrite (Hnone k1 r1 Hk1) in Hm1. discriminate.
Qed.

(** C5 fails on the code.  On the store holding Ann and Bob, a login with
    the password [12345678] sent as a JSON number is answered 500 "Server
    error during login" for Ann's email ([bcrypt.compare] throws on a
    password that is not a string) and 401 "Invalid email or password" for
    an email nobody has: the two failures differ in status and body, so the
    answer tells whether the email is registered. *)
Theorem login_reveals_registered_email :
  AuthController.login Sample.runtime
    (mkRequest 0 ""
       (Sample.body_of [("email", JStr "ann@example.com"); ("password", JNum 12345678)]))
    Sample.db_users
  = (Sample.db_users, error_response 500 "Server error during login")
  /\ AuthController.login Sample.runtime
       (mkRequest 0 ""
          (Sample.body_of [("email", JStr "eve@example.com"); ("password", JNum 12345678)]))
       Sample.db_users
     = (Sample.db_users, invalid_credentials)
  /\ (AuthController.login Sample.runtime
        (mkRequest 0 ""
           (Sample.body_of [("email", JStr "ann@example.com");
                            ("password", JNum 12345678)]))
        Sample.db_users).2
     <> (AuthController.login Sample.runtime
           (mkRequest 0 ""
              (Sample.body_of [("email", JStr "eve@example.com");
                               ("password", JNum 12345678)]))
           Sample.db_users).2.
Proof.
  assert (forall k2 r2, users Sample.db_users !! k2 = Some r2 ->
            Pg.text_eq (User.email r2) (Some "ann@example.com") = true ->
            exists e, bcrypt_compare Sample.runtime (JNum 12345678)
                        (Pg.cell (User.password_hash r2)) = Throw e) as Hthrow.
  { intros k2 r2 Hk2 _. cbn [Sample.db_users users] in Hk2.
    apply lookup_insert_Some in Hk2 as [[_ <-]|[_ Hk2]]; [eexists; reflexivity|].
    apply lookup_singleton_Some in Hk2 as [_ <-]. eexists. reflexivity. }
  destruct (login_compare_throws Sample.runtime
              (mkRequest 0 ""
                 (Sample.body_of [("email", JStr "ann@example.com");
                                  ("password", JNum 12345678)]))
              Sample.db_users 1 Sample.ann eq_refl eq_refl eq_refl eq_refl Hthrow)
    as [Hann Hother].
  assert (AuthController.login Sample.runtime
            (mkRequest 0 ""
               (Sample.body_of [("email", JStr "eve@example.com");
                                ("password", JNum 12345678)]))
            Sample.db_users = (Sample.db_users, invalid_credentials)) as Heve.
  { apply Hother; [reflexivity | reflexivity |].
    intros k1 r1 Hk1. cbn [Sample.db_users users] in Hk1.
    apply lookup_insert_Some in Hk1 as [[_ <-]|[_ Hk1]]; [reflexivity|].
    apply lookup_singleton_Some in Hk1 as [_ <-]. reflexivity. }
  split; [exact Hann|]. split; [exact Heve|].
  rewrite Hann, Heve. discriminate.
Qed.

Example login_succeeds :
  code_of (AuthController.login Sample.runtime
             (mkRequest 0 ""
                (Sample.body_of [("email", JStr "ann@example.com");
                                 ("password", JStr "secret1")]))
             Sample.db_users).2 = 200.
Proof. vm_compute. reflexivity. Qed.

(** ** Signing up with a registered email *)

(** With the email taken, the INSERT stores no row: the server either does
    not take a parameter (having drawn an id when it refuses the row and not
    a parameter of the statement), or takes them, draws an id and fails on
    the unique constraint. *)
Lemma insert_user_taken (rt : Runtime) (now : Z) (e h n : option string) (db : Db)
    (k : Z) (r : User.Row) :
  users db !! k = Some r ->
  Pg.text_eq (User.email r) e = true ->
  Pg.insert_user rt now e h n db =
    if Pg.accepts rt [("email", e); ("password_hash", h); ("name", n)]
    then (skip_user_id db, Throw Pg.unique_violation)
    else (if Pg.user_id_drawn rt e h n then skip_user_id db else db,
          Throw Pg.data_exception).
Proof.
  intros Hk Hm. unfold Pg.insert_user. cbv zeta.
  destruct (Pg.accepts _ _); [|reflexivity]. cbn [negb].
  destruct (users db !! user_seq db); [reflexivity|].
  destruct (Pg.select _ (users db)) as [|x rest] eqn:Hsel; [|reflexivity].
  pose proof (proj1 (select_nil _ _) Hsel k r Hk) as Hno. cbv beta in Hno.
  rewrite Hm in Hno. discriminate.
Qed.

(** [createUser] hashes the password and runs the INSERT, nothing else: its
    outcome is the outcome of the INSERT, a failure with code 23505 renamed
    "Email already exists". *)
Lemma createUser_is_insert (rt : Runtime) (now : Z) (email password name : JsValue)
    (h : string) (db : Db) :
  bcrypt_hash rt password = Ok h ->
  UserModel.createUser rt now email password name db =
    match Pg.insert_user rt now (Pg.bind rt email) (Some h) (Pg.bind rt name) db with
    | (db', Ok row) => (db', Ok (Pg.user_public row.1 row.2))
    | (db', Throw error) =>
        (db', Throw (if bool_decide (code error = Some "23505")
                     then mkError None "Email already exists"
                     else error))
    end.
Proof.
  intros Hh. unfold UserModel.createUser. unfold_monad. rewrite Hh.
  destruct (Pg.insert_user _ _ _ _ _ _) as [db' [row|error]]; [reflexivity|].
  destruct (bool_decide _); reflexivity.
Qed.

(** C7, as stated, fails: a second signup with a registered email is not
    always answered 409.  With Ann registered, a signup with her email and
    the password ["abc"] is answered 400 by the checks of [signup], which run
    before the store is asked; and one with the password [1234567] sent as a
    JSON number passes those checks and is answered 500, [bcrypt.hash]
    throwing on a password that is not a string.  Neither stores a row. *)
Lemma duplicate_email_not_always_conflict :
  AuthController.signup Sample.runtime 50
    (mkRequest 0 ""
       (Sample.body_of [("email", JStr "ann@example.com"); ("password", JStr "abc");
                        ("name", JStr "Ann B")]))
    Sample.db_users
  = (Sample.db_users, error_response 400 "Password must be at least 6 characters")
  /\ AuthController.signup Sample.runtime 50
       (mkRequest 0 ""
          (Sample.body_of [("email", JStr "ann@example.com"); ("password", JNum 1234567);
                           ("name", JStr "Ann B")]))
       Sample.db_users
     = (Sample.db_users, error_response 500 "Server error during signup")
  /\ error_response 400 "Password must be at least 6 characters" <> email_conflict
  /\ error_response 500 "Server error during signup" <> email_conflict.
Proof. vm_compute. repeat split; try reflexivity; discriminate. Qed.

(** C7 (amended): when a stored user already has the email of a signup
    request, no user row is created or changed, whatever the request.
    [createUser] makes no query before the INSERT: on every store its outcome
    is that of the INSERT, a failure with code 23505 renamed "Email already
    exists".  With the email taken, the INSERT whose parameters the server
    takes fails on the unique constraint, having drawn an id from the
    sequence.  A request that passes the checks of [signup] with a string
    password that [bcrypt.hash] hashes is answered 409 "Email already
    exists".  A request that fails a check of [signup] (a field missing or
    falsy, an email that does not match the pattern, a password shorter than
    6) is answered 400 and leaves the store as it is. *)
Theorem duplicate_email_conflict (rt : Runtime) (now : Z) (req : Request) (db : Db)
    (k : Z) (r : User.Row) :
  users db !! k = Some r ->
  Pg.text_eq (User.email r) (Pg.bind rt (field "email" req)) = true ->
  (users (AuthController.signup rt now req db).1 = users db
   /\ code_of (AuthController.signup rt now req db).2 <> 201)
  /\ (forall h db0,
        bcrypt_hash rt (field "password" req) = Ok h ->
        UserModel.createUser rt now (field "email" req) (field "password" req)
          (field "name" req) db0 =
          match Pg.insert_user rt now (Pg.bind rt (field "email" req)) (Some h)
                  (Pg.bind rt (field "name" req)) db0 with
          | (db', Ok row) => (db', Ok (Pg.user_public row.1 row.2))
          | (db', Throw error) =>
              (db', Throw (if bool_decide (code error = Some "23505")
                           then mkError None "Email already exists"
                           else error))
          end)
  /\ (forall h,
        Pg.accepts rt [("email", Pg.bind rt (field "email" req));
                       ("password_hash", Some h);
                       ("name", Pg.bind rt (field "name" req))] = true ->
        Pg.insert_user rt now (Pg.bind rt (field "email" req)) (Some h)
          (Pg.bind rt (field "name" req)) db
        = (skip_user_id db, Throw Pg.unique_violation)
        /\ code Pg.unique_violation = Some "23505")
  /\ (forall p h,
        truthy (field "email" req) = true ->
        truthy (field "name" req) = true ->
        AuthController.regex_test rt (field "email" req) = Ok true ->
        field "password" req = JStr p ->
        (6 <= String.length p)%nat ->
        bcrypt_hash rt (JStr p) = Ok h ->
        Pg.accepts rt [("email", Pg.bind rt (field "email" req));
                       ("password_hash", Some h);
                       ("name", Pg.bind rt (field "name" req))] = true ->
        AuthController.signup rt now req db = (skip_user_id db, email_conflict))
  /\ (truthy (field "email" req) = false \/ truthy (field "password" req) = false
      \/ truthy (field "name" req) = false
      \/ AuthController.regex_test rt (field "email" req) = Ok false
      \/ (AuthController.regex_test rt (field "email" req) = Ok true
          /\ AuthController.shorter_than rt (field "password" req) 6 = true) ->
      exists msg, AuthController.signup rt now req db = (db, error_response 400 msg)).
Proof.
  intros Hk Hm.
  pose proof (fun h n => insert_user_taken rt now _ h n db k r Hk Hm) as Hins.
  split; [|split; [|split; [|split]]].
  - unfold AuthController.signup, UserModel.createUser. unfold_monad.
    repeat (rewrite ?Hins; auth_step); split; (reflexivity || (cbn; discriminate)).
  - intros h db0 Hh. apply createUser_is_insert, Hh.
  - intros h Hacc. rewrite Hins, Hacc. split; reflexivity.
  - intros p h He Hn Hre Hp Hlen Hh Hacc.
    unfold AuthController.signup. unfold_monad.
    rewrite He, Hn, Hre, Hp. cbn [truthy negb orb AuthController.shorter_than].
    assert (String.eqb p "" = false) as ->
      by (destruct p; [cbn in Hlen; lia | reflexivity]).
    cbn [negb orb].
    assert ((Z.of_nat (String.length p) <? 6) = false) as -> by lia.
    rewrite (createUser_is_insert rt now _ _ _ h db Hh), Hins, Hacc.
    reflexivity.
  - intros Hbad. unfold AuthController.signup. unfold_monad.
    destruct (negb (truthy (field "email" req)) || negb (truthy (field "password" req))
              || negb (truthy (field "name" req))) eqn:Hreq;
      [eexists; reflexivity|].
    apply orb_false_iff in Hreq as [Hreq Tn]. apply orb_false_iff in Hreq as [Te Tp].
    apply negb_false_iff in Te, Tp, Tn.
    destruct Hbad as [Hbad|[Hbad|[Hbad|[Hbad|[Hre Hlen]]]]];
      try congruence.
    + rewrite Hbad. eexists. reflexivity.
    + rewrite Hre, Hlen. eexists. reflexivity.
Qed.

(** A second signup with Ann's address, and one with a password too
    short. *)
Lemma duplicate_email_conflict_witness :
  AuthController.signup Sample.runtime 50
    (mkRequest 0 ""
       (Sample.body_of [("email", JStr "ann@example.com"); ("password", JStr "another1");
                        ("name", JStr "Ann B")]))
    Sample.db_users = (skip_user_id Sample.db_users, email_conflict)
  /\ exists msg,
       AuthController.signup Sample.runtime 50
         (mkRequest 0 ""
            (Sample.body_of [("email", JStr "ann@example.com"); ("password", JStr "abc");
                             ("name", JStr "Ann B")]))
         Sample.db_users = (Sample.db_users, error_response 400 msg).
Proof.
  split.
  - destruct (duplicate_email_conflict Sample.runtime 50
                (mkRequest 0 ""
                   (Sample.body_of [("email", JStr "ann@example.com");
                                    ("password", JStr "another1"); ("name", JStr "Ann B")]))
                Sample.db_users 1 Sample.ann eq_refl eq_refl) as (_ & _ & _ & H409 & _).
    apply (H409 "another1" (Sample.hash_of "another1")); try reflexivity.
    cbn. lia.
  - destruct (duplicate_email_conflict Sample.runtime 50
                (mkRequest 0 ""
                   (Sample.body_of [("email", JStr "ann@example.com");
                                    ("password", JStr "abc"); ("name", JStr "Ann B")]))
                Sample.db_users 1 Sample.ann eq_refl eq_refl) as (_ & _ & _ & _ & H400).
    apply H400. right. right. right. right. split; reflexivity.
Defined.

Example signup_fresh_email :
  exists db',
    AuthController.signup Sample.runtime 50
      (mkRequest 0 ""
         (Sample.body_of [("email", JStr "eve@example.com"); ("password", JStr "letmein");
                          ("name", JStr "Eve")]))
      Sample.db_users
    = (db', mkResponse 201
              (JObj [("message", JStr "User created successfully");
                     ("user", JObj [("id", JNum 3); ("email", JStr "eve@example.com");
                                    ("name", JStr "Eve")])]))
    /\ users db' !! 3 = Some (User.mkRow (Some "eve@example.com")
                                (Some "$2a$10$letmein") (Some "Eve") 50).
Proof. eexists. split; [vm_compute; reflexivity | reflexivity]. Qed.

Example emailRegex_examples :
  AuthController.emailRegex_test "ann@example.com" = true
  /\ AuthController.emailRegex_test "a@b.c" = true
  /\ AuthController.emailRegex_test "a@b." = false
  /\ AuthController.emailRegex_test "a@.c" = false
  /\ AuthController.emailRegex_test "a b@c.d" = false
  /\ AuthController.emailRegex_test "a@b@c.d" = false
  /\ AuthController.emailRegex_test "@b.c" = false
  /\ AuthController.emailRegex_test "ab.c" = false.
Proof. repeat split; reflexivity. Qed.

(** * Further properties of the handlers *)

(** ** Listing tasks *)

Lemma insert_desc_perm (x : Z * Task.Row) (l : list (Z * Task.Row)) :
  Permutation (TaskModel.insert_desc x l) (x :: l).
Proof.
  induction l as [|y l IH]; cbn [TaskModel.insert_desc]; [reflexivity|].
  destruct (Task.created_at y.2 <=? Task.created_at x.2); [reflexivity|].
  rewrite IH. apply perm_swap.
Qed.

Lemma order_by_created_desc_perm (l : list (Z * Task.Row)) :
  Permutation (TaskModel.order_by_created_desc l) l.
Proof.
  unfold TaskModel.order_by_created_desc.
  induction l as [|x l IH]; cbn [foldr]; [reflexivity|].
  rewrite insert_desc_perm, IH. reflexivity.
Qed.

Lemma insert_desc_sorted (x : Z * Task.Row) (l : list (Z * Task.Row)) :
  StronglySorted newer_first l -> StronglySorted newer_first (TaskModel.insert_desc x l).
Proof.
  induction l as [|y l IH]; intros Hs; cbn [TaskModel.insert_desc].
  - repeat constructor.
  - apply StronglySorted_inv in Hs as [Hl Hy].
    destruct (Z.leb_spec (Task.created_at y.2) (Task.created_at x.2)) as [Hle|Hgt].
    + constructor; [constructor; assumption|].
      constructor; [exact Hle|].
      eapply Forall_impl; [exact Hy|]. unfold newer_first. intros z Hz. cbn beta in Hz. lia.
    + constructor; [apply IH, Hl|].
      rewrite insert_desc_perm. constructor; [unfold newer_first; lia | exact Hy].
Qed.

Lemma order_by_created_desc_sorted (l : list (Z * Task.Row)) :
  StronglySorted newer_first (TaskModel.order_by_created_desc l).
Proof.
  unfold TaskModel.order_by_created_desc.
  induction l as [|x l IH]; cbn [foldr]; [constructor | apply insert_desc_sorted, IH].
Qed.

Lemma select_NoDup {R : Type} (p : Z -> R -> bool) (t : gmap Z R) :
  List.NoDup (Pg.select p t).
Proof.
  unfold Pg.select. apply List.NoDup_filter, NoDup_ListNoDup, NoDup_map_to_list.
Qed.

(** The rows behind a listing. *)
Lemma getTasksByUserId_rows (uid : Z) (db : Db) :
  exists rows,
    TaskModel.getTasksByUserId uid db
      = (db, Ok (map (fun kr => Pg.task_object kr.1 kr.2) rows))
    /\ List.NoDup rows
    /\ (forall id r, In (id, r) rows <-> tasks db !! id = Some r /\ Task.user_id r = uid)
    /\ StronglySorted newer_first rows
    /\ length rows = owned_count uid db.
Proof.
  eexists. split; [reflexivity|].
  pose proof (order_by_created_desc_perm
                (Pg.select (fun _ r => Task.user_id r =? uid) (tasks db))) as Hperm.
  split; [|split; [|split]].
  - eapply Permutation_NoDup; [symmetry; exact Hperm | apply select_NoDup].
  - intros id r. split.
    + intros Hin. eapply Permutation_in in Hin; [|exact Hperm].
      apply select_In in Hin as [Hr Hu]. split; [exact Hr | lia].
    + intros [Hr Hu]. eapply Permutation_in; [symmetry; exact Hperm|].
      apply select_In. split; [exact Hr | cbn beta; lia].
  - apply order_by_created_desc_sorted.
  - unfold owned_count. apply Permutation_length, Hperm.
Qed.

(** X1: [getTasksByUserId] returns the objects of exactly the rows owned by
    the user, each once, newest first, and leaves the store alone. *)
Theorem getTasksByUserId_owned_sorted (uid : Z) (db : Db) :
  exists rows,
    TaskModel.getTasksByUserId uid db
      = (db, Ok (map (fun kr => Pg.task_object kr.1 kr.2) rows))
    /\ List.NoDup rows
    /\ (forall id r, In (id, r) rows <-> tasks db !! id = Some r /\ Task.user_id r = uid)
    /\ StronglySorted newer_first rows
    /\ length rows = owned_count uid db.
Proof. exact (getTasksByUserId_rows uid db). Qed.

(** X2: GET /api/tasks always answers 200 with [count] equal to the number
    of tasks the caller owns and as many entries under [tasks]; for a caller
    who owns none the body is [{count: 0, tasks: []}]. *)
Theorem getAllTasks_count (req : Request) (db : Db) :
  (exists items,
     TaskController.getAllTasks req db
       = (db, mkResponse 200 (JObj [("count", JNum (Z.of_nat (owned_count (userId req) db)));
                                    ("tasks", JArr items)]))
     /\ length items = owned_count (userId req) db)
  /\ ((forall id r, tasks db !! id = Some r -> Task.user_id r <> userId req) ->
      TaskController.getAllTasks req db
        = (db, mkResponse 200 (JObj [("count", JNum 0); ("tasks", JArr [])]))).
Proof.
  destruct (getTasksByUserId_rows (userId req) db)
    as (rows & Hget & _ & Hmem & _ & Hlen).
  unfold TaskController.getAllTasks. unfold_monad. rewrite Hget. split.
  - eexists. split.
    + rewrite !length_map, Hlen. reflexivity.
    + rewrite !length_map. exact Hlen.
  - intros Hnone. destruct rows as [|[id r] rest]; [reflexivity|].
    exfalso. destruct (proj1 (Hmem id r) (or_introl eq_refl)) as [Hr Hu].
    exact (Hnone id r Hr Hu).
Qed.

Example getAllTasks_ann :
  (TaskController.getAllTasks (mkRequest 1 "" ∅) Sample.db_tasks).2
  = mkResponse 200
      (JObj [("count", JNum 1);
             ("tasks",
              JArr [JObj [("id", JNum 1); ("userId", JNum 1); ("title", JStr "Buy milk");
                          ("description", JStr "two litres"); ("priority", JStr "high");
                          ("dueDate", JDate 1705276800000);
                          ("status", JStr "completed");
                          ("createdAt", JDate 30); ("updatedAt", JDate 30)]])]).
Proof. vm_compute. reflexivity. Qed.

(** ** What signup does to the store *)

Lemma signup_cases (rt : Runtime) (now : Z) (req : Request) (db : Db) :
  ((AuthController.signup rt now req db).1 = db
   /\ In (code_of (AuthController.signup rt now req db).2) [400; 409; 500])
  \/ (exists c msg,
        In c [409; 500]
        /\ AuthController.signup rt now req db = (skip_user_id db, error_response c msg))
  \/ exists h,
       bcrypt_hash rt (field "password" req) = Ok h
       /\ truthy (field "email" req) = true
       /\ truthy (field "password" req) = true
       /\ truthy (field "name" req) = true
       /\ AuthController.regex_test rt (field "email" req) = Ok true
       /\ AuthController.shorter_than rt (field "password" req) 6 = false
       /\ Pg.accepts rt [("email", Pg.bind rt (field "email" req));
                         ("password_hash", Some h);
                         ("name", Pg.bind rt (field "name" req))] = true
       /\ users db !! user_seq db = None
       /\ (forall k r, users db !! k = Some r ->
             Pg.text_eq (User.email r) (Pg.bind rt (field "email" req)) = false)
       /\ AuthController.signup rt now req db =
            (with_users db (<[user_seq db := signed_up_row rt now req h]> (users db))
               (user_seq db + 1),
             mkResponse 201
               (JObj [("message", JStr "User created successfully");
                      ("user",
                       JObj [("id", JNum (user_seq db));
                             ("email", Pg.cell (Pg.bind rt (field "email" req)));
                             ("name", Pg.cell (Pg.bind rt (field "name" req)))])])).
Proof.
  unfold AuthController.signup, UserModel.createUser, Pg.insert_user.
  unfold_monad. cbv zeta.
  repeat auth_step;
    try closed_false;
    try (left; split; [reflexivity|]; cbn; tauto);
    try (right; left; do 2 eexists; split; [|reflexivity]; cbn; tauto).
  right. right. eexists. split; [reflexivity|].
  repeat match goal with
         | H : _ || _ = false |- _ => apply orb_false_iff in H as [? ?]
         | H : negb _ = false |- _ => apply negb_false_iff in H
         end.
  subst.
  assert (forall k r, users db !! k = Some r ->
            Pg.text_eq (User.email r) (Pg.bind rt (field "email" req)) = false) as Hfree.
  { match goal with
    | H : match Pg.select ?p ?t with _ => _ end = false |- _ =>
        destruct (Pg.select p t) eqn:Hsel;
        [exact (proj1 (select_nil _ _) Hsel) | discriminate H]
    end. }
  repeat (split; [assumption || reflexivity|]). reflexivity.
Qed.

(** ** Status codes and atomicity *)

Lemma create_codes (rt : Runtime) (now : Z) (req : Request) (db : Db) :
  In (code_of (TaskController.create rt now req db).2) [201; 400; 500].
Proof.
  unfold TaskController.create, TaskModel.createTask, Pg.insert_task.
  unfold_monad. cbv zeta. repeat handler_step; cbn; tauto.
Qed.

Lemma update_codes (rt : Runtime) (now : Z) (req : Request) (db : Db) :
  In (code_of (TaskController.update rt now req db).2) [200; 400; 404; 500].
Proof.
  unfold TaskController.update, TaskModel.updateTask.
  unfold_monad. repeat handler_step; cbn; tauto.
Qed.

Lemma getTask_codes (req : Request) (db : Db) :
  In (code_of (TaskController.getTask req db).2) [200; 400; 404].
Proof.
  unfold TaskController.getTask, TaskModel.getTaskById.
  unfold_monad. repeat handler_step; cbn; tauto.
Qed.

Lemma remove_codes (req : Request) (db : Db) :
  In (code_of (TaskController.remove req db).2) [200; 400; 404]
  /\ (code_of (TaskController.remove req db).2 <> 200 ->
      (TaskController.remove req db).1 = db).
Proof.
  unfold TaskController.remove, TaskModel.deleteTask.
  unfold_monad. repeat handler_step; cbn; (split; [tauto|]);
    first [reflexivity | intros H; exfalso; apply H; reflexivity].
Qed.

Lemma login_codes (rt : Runtime) (req : Request) (db : Db) :
  In (code_of (AuthController.login rt req db).2) [200; 400; 401; 500].
Proof.
  unfold AuthController.login, UserModel.findUserByEmail.
  unfold_monad. repeat auth_step; cbn; tauto.
Qed.

Lemma getCurrentUser_codes (req : Request) (db : Db) :
  In (code_of (UserController.getCurrentUser req db).2) [200; 404].
Proof.
  unfold UserController.getCurrentUser, UserModel.findUserById.
  unfold_monad. repeat handler_step; cbn; tauto.
Qed.

(** X3: no route answers a code outside those of its handler: signup
    201/400/409/500, login 200/400/401/500, the profile 200/404/500, the
    listing 200/500, create 201/400/500, and get, update and delete
    200/400/404/500. *)
Theorem serve_codes (rt : Runtime) (now : Z) (route : Route) (req : Request) (db : Db) :
  In (code_of (serve rt now route req db).2) (route_codes route).
Proof.
  destruct route; cbn [serve route_codes].
  - destruct (signup_cases rt now req db)
      as [(_ & H)|[(c & msg & H & ->)|(h & _ & _ & _ & _ & _ & _ & _ & _ & _ & ->)]].
    + cbn in H |- *. tauto.
    + cbn in H |- *. tauto.
    + cbn. tauto.
  - pose proof (login_codes rt req db) as H. exact H.
  - pose proof (getCurrentUser_codes req db) as H. cbn in H |- *. tauto.
  - cbn. tauto.
  - exact (create_codes rt now req db).
  - pose proof (getTask_codes req db) as H. cbn in H |- *. tauto.
  - exact (update_codes rt now req db).
  - pose proof (proj1 (remove_codes req db)) as H. cbn in H |- *. tauto.
Qed.

(** X4: a request that is not answered with the success code of its route
    (201 for signup and create, 200 for update and delete) adds, changes and
    removes no row of either table, and no sequence moves back (an INSERT
    refused on a key has drawn an id).  An answer 400, 401 or 404, and every
    answer of login, the profile, the listing and get, leaves the store
    exactly as it was. *)
Theorem serve_failure_atomic (rt : Runtime) (now : Z) (route : Route) (req : Request)
    (db : Db) :
  (code_of (serve rt now route req db).2 <> success_code route ->
   users (serve rt now route req db).1 = users db
   /\ tasks (serve rt now route req db).1 = tasks db
   /\ user_seq db <= user_seq (serve rt now route req db).1
   /\ task_seq db <= task_seq (serve rt now route req db).1)
  /\ (read_only route = true \/ In (code_of (serve rt now route req db).2) [400; 401; 404] ->
      (serve rt now route req db).1 = db).
Proof.
  assert (forall db', db' = db ->
            users db' = users db /\ tasks db' = tasks db
            /\ user_seq db <= user_seq db' /\ task_seq db <= task_seq db') as Hsame
    by (intros db' ->; repeat split; lia).
  destruct route; cbn [serve success_code read_only]; split.
  - destruct (signup_cases rt now req db)
      as [(H & _)|[(c & msg & _ & ->)|(h & _ & _ & _ & _ & _ & _ & _ & _ & _ & ->)]];
      [auto | intros _; cbn; repeat split; lia | intros H; exfalso; apply H; reflexivity].
  - destruct (signup_cases rt now req db)
      as [(H & _)|[(c & msg & Hc & ->)|(h & _ & _ & _ & _ & _ & _ & _ & _ & _ & ->)]];
      [auto | |]; cbn in *; intros [H|H]; try discriminate H; exfalso; lia.
  - intros _. apply Hsame, login_effect.
  - intros _. apply login_effect.
  - intros _. apply Hsame, getCurrentUser_effect.
  - intros _. apply getCurrentUser_effect.
  - intros _. apply Hsame, getAllTasks_effect.
  - intros _. apply getAllTasks_effect.
  - destruct (create_effect rt now req db) as [[H _]|[-> |(r & _ & _ & _ & _ & ->)]];
      [auto | intros _; cbn; repeat split; lia | intros H; exfalso; apply H; reflexivity].
  - destruct (create_effect rt now req db) as [[H _]|[-> |(r & _ & _ & _ & _ & ->)]];
      [auto | |]; cbn; intros [H|H]; try discriminate H; exfalso;
      intuition discriminate.
  - intros _. apply Hsame, getTask_effect.
  - intros _. apply getTask_effect.
  - destruct (update_effect rt now req db)
      as [[H _]|(taskId & old & new & _ & _ & _ & _ & _ & _ & ->)];
      [auto | intros H; exfalso; apply H; reflexivity].
  - destruct (update_effect rt now req db)
      as [[H _]|(taskId & old & new & _ & _ & _ & _ & _ & _ & ->)];
      [auto |]; cbn; intros [H|H]; try discriminate H; exfalso;
      intuition discriminate.
  - intros H. apply Hsame, remove_codes, H.
  - intros [H|H]; [discriminate H|]. apply remove_codes. intros E.
    rewrite E in H. cbn in H. intuition discriminate.
Qed.

(** The table a route leaves alone. *)
Lemma serve_frame_tables (rt : Runtime) (now : Z) (route : Route) (req : Request) (db : Db) :
  (task_route route = true ->
   users (serve rt now route req db).1 = users db
   /\ user_seq (serve rt now route req db).1 = user_seq db)
  /\ (task_route route = false ->
      tasks (serve rt now route req db).1 = tasks db
      /\ task_seq (serve rt now route req db).1 = task_seq db).
Proof.
  destruct route; cbn [serve task_route]; (split; [try discriminate | try discriminate]);
    intros _.
  - apply signup_effect.
  - rewrite login_effect. auto.
  - rewrite getCurrentUser_effect. auto.
  - rewrite getAllTasks_effect. auto.
  - destruct (create_effect rt now req db) as [[-> _]|[-> |(r & _ & _ & _ & _ & ->)]];
      auto.
  - rewrite getTask_effect. auto.
  - destruct (update_effect rt now req db)
      as [[-> _]|(taskId & old & new & _ & _ & _ & _ & _ & _ & ->)]; auto.
  - destruct (remove_effect req db) as [->|[taskId ->]]; auto.
Qed.

(** X5: the task routes never touch the users table or its sequence, and
    signup, login and the profile never touch the tasks table or its
    sequence. *)
Theorem serve_frame (rt : Runtime) (now : Z) (route : Route) (req : Request) (db : Db) :
  (task_route route = true ->
   users (serve rt now route req db).1 = users db
   /\ user_seq (serve rt now route req db).1 = user_seq db)
  /\ (task_route route = false ->
      tasks (serve rt now route req db).1 = tasks db
      /\ task_seq (serve rt now route req db).1 = task_seq db).
Proof. exact (serve_frame_tables rt now route req db). Qed.

(** ** The users table only grows *)

Lemma serve_users (rt : Runtime) (now : Z) (route : Route) (req : Request) (db : Db) :
  (serve rt now route req db).1 = db
  \/ users (serve rt now route req db).1 = users db
  \/ exists h,
       users db !! user_seq db = None
       /\ (forall k r, users db !! k = Some r ->
             Pg.text_eq (User.email r) (Pg.bind rt (field "email" req)) = false)
       /\ users (serve rt now route req db).1
          = <[user_seq db := signed_up_row rt now req h]> (users db).
Proof.
  destruct (task_route route) eqn:Ht.
  - right. left. apply (proj1 (serve_frame_tables rt now route req db) Ht).
  - destruct route; try discriminate Ht; cbn [serve].
    + destruct (signup_cases rt now req db)
        as [(H & _)|[(c & msg & _ & ->)|(h & _ & _ & _ & _ & _ & _ & _ & Hseq & Hfree & ->)]];
        [auto | right; left; reflexivity |].
      right. right. exists h. auto.
    + left. apply login_effect.
    + left. apply getCurrentUser_effect.
Qed.

Lemma serve_keeps_users (rt : Runtime) (now : Z) (route : Route) (req : Request)
    (db : Db) (k : Z) (r : User.Row) :
  users db !! k = Some r -> users (serve rt now route req db).1 !! k = Some r.
Proof.
  intros Hk.
  destruct (serve_users rt now route req db) as [->|[->|(h & Hseq & _ & ->)]]; auto.
  rewrite lookup_insert_ne; [exact Hk | congruence].
Qed.

(** X6: a user row, once stored, is there unchanged after any run of
    requests: no route updates or deletes a user. *)
Theorem users_never_change (rt : Runtime) (reqs : list (Z * Route * Request)) (db : Db)
    (k : Z) (r : User.Row) :
  users db !! k = Some r -> users (serve_all rt reqs db) !! k = Some r.
Proof.
  revert db. induction reqs as [|[[now route] req] rest IH]; intros db Hk;
    cbn [serve_all]; [exact Hk|].
  apply IH, serve_keeps_users, Hk.
Qed.

(** Ann signs up, then tries again with another password and logs in: her
    row is the one of the first signup. *)
Lemma users_never_change_witness :
  users (serve_all Sample.runtime
           [(11, PostSignup,
             mkRequest 0 ""
               (Sample.body_of [("email", JStr "ann@example.com");
                                ("password", JStr "another1"); ("name", JStr "A")]));
            (12, PostLogin,
             mkRequest 0 ""
               (Sample.body_of [("email", JStr "ann@example.com");
                                ("password", JStr "secret1")]))]
           Sample.db_users) !! 1 = Some Sample.ann.
Proof. apply users_never_change. reflexivity. Defined.

Lemma serve_unique_emails (rt : Runtime) (now : Z) (route : Route) (req : Request)
    (db : Db) :
  unique_emails db -> unique_emails (serve rt now route req db).1.
Proof.
  intros Hu.
  destruct (serve_users rt now route req db) as [->|[Heq|(h & Hseq & Hfree & Heq)]];
    [exact Hu | |]; unfold unique_emails; rewrite Heq; [exact Hu|].
  intros k1 k2 r1 r2 e H1 H2 E1 E2.
  apply lookup_insert_Some in H1 as [[<- <-]|[Hn1 H1]];
    apply lookup_insert_Some in H2 as [[<- <-]|[Hn2 H2]].
  - reflexivity.
  - exfalso. cbn [signed_up_row User.email] in E1.
    pose proof (Hfree k2 r2 H2) as Hne. rewrite E1, E2 in Hne. cbn in Hne.
    rewrite String.eqb_refl in Hne. discriminate.
  - exfalso. cbn [signed_up_row User.email] in E2.
    pose proof (Hfree k1 r1 H1) as Hne. rewrite E1, E2 in Hne. cbn in Hne.
    rewrite String.eqb_refl in Hne. discriminate.
  - exact (Hu k1 k2 r1 r2 e H1 H2 E1 E2).
Qed.

(** X7: if no two stored users share an email, no run of requests makes
    two of them share one: signup never creates a second account for a
    registered email. *)
Theorem unique_emails_preserved (rt : Runtime) (reqs : list (Z * Route * Request))
    (db : Db) :
  unique_emails db -> unique_emails (serve_all rt reqs db).
Proof.
  revert db. induction reqs as [|[[now route] req] rest IH]; intros db Hu;
    cbn [serve_all]; [exact Hu|].
  apply IH, serve_unique_emails, Hu.
Qed.

Lemma unique_emails_empty : unique_emails empty_db.
Proof. intros k1 k2 r1 r2 e H1. cbn in H1. rewrite lookup_empty in H1. discriminate. Qed.

(** Two signups with one address on the empty store. *)
Lemma unique_emails_preserved_witness :
  unique_emails
    (serve_all Sample.runtime
       [(11, PostSignup,
         mkRequest 0 ""
           (Sample.body_of [("email", JStr "ann@example.com");
                            ("password", JStr "secret1"); ("name", JStr "Ann")]));
        (12, PostSignup,
         mkRequest 0 ""
           (Sample.body_of [("email", JStr "ann@example.com");
                            ("password", JStr "another1"); ("name", JStr "A")]))]
       empty_db).
Proof. apply unique_emails_preserved, unique_emails_empty. Defined.

(** ** Trimming *)

Lemma trimStart_starts_plain (s : string) : starts_plain (trimStart s) = true.
Proof.
  induction s as [|c s IH]; [reflexivity|]. cbn [trimStart].
  destruct (is_white c) eqn:Hc; [exact IH|]. cbn [starts_plain]. rewrite Hc. reflexivity.
Qed.

Lemma trimEnd_ends_plain (s : string) : ends_plain (trimEnd s) = true.
Proof.
  induction s as [|c s IH]; [reflexivity|]. cbn [trimEnd].
  destruct (is_white c) eqn:Hc; destruct (trimEnd s) as [|c' r] eqn:Hr;
    cbn [andb String.eqb ends_plain]; try reflexivity.
  - exact IH.
  - rewrite Hc. reflexivity.
  - exact IH.
Qed.

Lemma trimEnd_starts_plain (s : string) :
  starts_plain s = true -> starts_plain (trimEnd s) = true.
Proof.
  destruct s as [|c s]; [reflexivity|]. cbn [starts_plain trimEnd]. intros Hc.
  apply negb_true_iff in Hc. rewrite Hc. cbn [andb starts_plain]. rewrite Hc. reflexivity.
Qed.

Lemma trim_is_trimmed (s : string) : is_trimmed (trim s) = true.
Proof.
  unfold is_trimmed, trim. apply andb_true_iff. split.
  - apply trimEnd_starts_plain, trimStart_starts_plain.
  - apply trimEnd_ends_plain.
Qed.

Lemma trimEnd_empty (s : string) : trimEnd s = "" <-> all_white s = true.
Proof.
  induction s as [|c s IH]; [split; reflexivity|]. cbn [trimEnd all_white].
  destruct (is_white c) eqn:Hc; cbn [andb].
  - destruct (String.eqb_spec (trimEnd s) "") as [He|Hne].
    + split; [intros _; apply IH, He | reflexivity].
    + split; [discriminate|]. intros Hw. exfalso. apply Hne, IH, Hw.
  - split; discriminate.
Qed.

Lemma trimStart_all_white (s : string) : all_white (trimStart s) = all_white s.
Proof.
  induction s as [|c s IH]; [reflexivity|]. cbn [trimStart].
  destruct (is_white c) eqn:Hc; [|reflexivity]. cbn [all_white]. rewrite Hc. exact IH.
Qed.

(** [trim] yields the empty string exactly on strings of white space. *)
Lemma trim_empty (s : string) : trim s = "" <-> all_white s = true.
Proof. unfold trim. rewrite trimEnd_empty, trimStart_all_white. reflexivity. Qed.

(** [trim] is idempotent. *)
Lemma trim_trim (s : string) : trim (trim s) = trim s.
Proof. apply is_trimmed_trim, trim_is_trimmed. Qed.

(** ** Stored tasks are well formed *)

Lemma optional_trim_inv (v d : JsValue) :
  TaskController.optional_trim v = Ok d ->
  d = JUndefined \/ exists x, v = JStr x /\ d = JStr (trim x).
Proof.
  destruct v; cbn [TaskController.optional_trim call_trim]; try discriminate;
    intros [= <-]; eauto.
Qed.

Lemma accepted_cells_well_formed (rt : Runtime) (req : Request) (t : string)
    (d : JsValue) (uid : Z) (dd : option Z) (ca ua : Z) :
  trim t <> "" ->
  priority_accepted (field "priority" req) = true ->
  status_accepted (field "status" req) = true ->
  TaskController.optional_trim (field "description" req) = Ok d ->
  well_formed_task
    (Task.mkRow uid (Some (trim t)) (Pg.bind rt (js_or d JNull))
       (Pg.bind rt (js_or (field "priority" req) (JStr "medium"))) dd
       (Pg.bind rt (js_or (field "status" req) (JStr "pending"))) ca ua).
Proof.
  intros Hb Ap As Od. unfold well_formed_task.
  cbn [Task.title Task.description Task.priority Task.status].
  split; [|split; [|split]].
  - exists (trim t). split; [reflexivity|]. split; [exact Hb | apply trim_is_trimmed].
  - destruct (optional_trim_inv _ _ Od) as [->|(x & _ & ->)]; [left; reflexivity|].
    unfold js_or. cbn [truthy].
    destruct (String.eqb_spec (trim x) "") as [He|Hne]; cbn [negb Pg.bind];
      [left; reflexivity|].
    right. exists (trim x). split; [reflexivity|]. split; [exact Hne | apply trim_is_trimmed].
  - destruct (stored_choice_accepted rt TaskController.validPriorities "medium" _ Ap)
      as [[_ ->]|(x & _ & _ & Hin & ->)].
    + exists "medium". split; [reflexivity | cbn; tauto].
    + exists x. auto.
  - destruct (stored_choice_accepted rt TaskController.validStatuses "pending" _ As)
      as [[_ ->]|(x & _ & _ & Hin & ->)].
    + exists "pending". split; [reflexivity | cbn; tauto].
    + exists x. auto.
Qed.

Lemma create_shape (rt : Runtime) (now : Z) (req : Request) (db : Db) :
  tasks (TaskController.create rt now req db).1 = tasks db
  \/ exists t d due,
       field "title" req = JStr t /\ trim t <> ""
       /\ priority_accepted (field "priority" req) = true
       /\ status_accepted (field "status" req) = true
       /\ dueDate_accepted rt (field "dueDate" req) = true
       /\ TaskController.optional_trim (field "description" req) = Ok d
       /\ store_accepts rt req t d due
       /\ tasks db !! task_seq db = None
       /\ TaskController.create rt now req db =
            (with_tasks db (<[task_seq db := created_row rt now req t d due]> (tasks db))
               (task_seq db + 1),
             mkResponse 201
               (JObj [("message", JStr "Task created successfully");
                      ("task",
                       TaskController.task_json
                         (Pg.task_object (task_seq db)
                            (created_row rt now req t d due)))])).
Proof.
  destruct (create_effect rt now req db)
    as [[H _]|[H |(r & Hfree & [u Hu] & _ & _ & Heq)]];
    [left; rewrite H; reflexivity | left; rewrite H; reflexivity |].
  right.
  assert (code_of (TaskController.create rt now req db).2 = 201) as H201
    by (rewrite Heq; reflexivity).
  destruct (create_201_inv rt now req db H201)
    as (t & d & due & Ht & Hb & Ap & As & Ad & Od & Hstore).
  exists t, d, due. repeat (split; [assumption|]).
  rewrite (create_accepted rt now req db t d Ht Hb Ap As Ad Od due Hstore), Hfree, Hu.
  reflexivity.
Qed.

Lemma update_shape (rt : Runtime) (now : Z) (req : Request) (db : Db) :
  (TaskController.update rt now req db).1 = db
  \/ exists taskId old t d due,
       parseInt (params_id req) = Some taskId
       /\ tasks db !! taskId = Some old /\ Task.user_id old = userId req
       /\ field "title" req = JStr t /\ trim t <> ""
       /\ priority_accepted (field "priority" req) = true
       /\ status_accepted (field "status" req) = true
       /\ dueDate_accepted rt (field "dueDate" req) = true
       /\ TaskController.optional_trim (field "description" req) = Ok d
       /\ store_accepts rt req t d due
       /\ TaskController.update rt now req db =
            (with_tasks db (<[taskId := replaced_row rt now req t d due old]> (tasks db))
               (task_seq db),
             mkResponse 200
               (JObj [("message", JStr "Task updated successfully");
                      ("task",
                       TaskController.task_json
                         (Pg.task_object taskId (replaced_row rt now req t d due old)))])).
Proof.
  destruct (update_effect rt now req db)
    as [[H _]|(taskId & old & new & Hid & Hold & Hown & _ & _ & _ & Heq)];
    [left; exact H|].
  right.
  assert (code_of (TaskController.update rt now req db).2 = 200) as H200
    by (rewrite Heq; reflexivity).
  destruct (update_200_inv rt now req db H200)
    as (t & d & due & Ht & Hb & Ap & As & Ad & Od & Hstore).
  exists taskId, old, t, d, due. repeat (split; [assumption|]).
  rewrite (update_accepted rt now req db t d Ht Hb Ap As Ad Od due Hstore taskId Hid).
  assert (Pg.owned_task taskId (userId req) db = Some old) as ->
    by (apply owned_task_Some; auto).
  reflexivity.
Qed.

Lemma serve_well_formed (rt : Runtime) (now : Z) (route : Route) (req : Request)
    (db : Db) :
  tasks_well_formed db -> tasks_well_formed (serve rt now route req db).1.
Proof.
  intros Hwf.
  assert (forall db', tasks db' = tasks db -> tasks_well_formed db') as Hsame
    by (intros db' Heq; unfold tasks_well_formed; rewrite Heq; exact Hwf).
  destruct (task_route route) eqn:Ht;
    [|apply Hsame, (proj2 (serve_frame_tables rt now route req db) Ht)].
  destruct route; try discriminate Ht; cbn [serve].
  - rewrite getAllTasks_effect. exact Hwf.
  - destruct (create_shape rt now req db)
      as [Heq|(t & d & due & _ & Hb & Ap & As & _ & Od & _ & _ & ->)];
      [apply Hsame, Heq|].
    intros id r. cbn [fst with_tasks tasks]. intros Hr.
    apply lookup_insert_Some in Hr as [[_ <-]|[_ Hr]]; [|exact (Hwf id r Hr)].
    apply accepted_cells_well_formed; assumption.
  - rewrite getTask_effect. exact Hwf.
  - destruct (update_shape rt now req db)
      as [->|(taskId & old & t & d & due & _ & _ & _ & _ & Hb & Ap & As & _ & Od & _ & ->)];
      [exact Hwf|].
    intros id r. cbn [fst with_tasks tasks]. intros Hr.
    apply lookup_insert_Some in Hr as [[_ <-]|[_ Hr]]; [|exact (Hwf id r Hr)].
    apply accepted_cells_well_formed; assumption.
  - destruct (remove_effect req db) as [->|[taskId ->]]; [exact Hwf|].
    intros id r. cbn [with_tasks tasks]. intros Hr.
    apply lookup_delete_Some in Hr as [_ Hr]. exact (Hwf id r Hr).
Qed.

(** X8: the handlers keep the tasks table well formed: if every stored
    task has a trimmed non-empty title, a description that is NULL or trimmed
    and non-empty, and a priority and status among the valid ones, so does
    every stored task after any run of requests; from the empty store this
    holds of every task ever stored. *)
Theorem tasks_stay_well_formed (rt : Runtime) (reqs : list (Z * Route * Request))
    (db : Db) :
  tasks_well_formed db -> tasks_well_formed (serve_all rt reqs db).
Proof.
  revert db. induction reqs as [|[[now route] req] rest IH]; intros db Hwf;
    cbn [serve_all]; [exact Hwf|].
  apply IH, serve_well_formed, Hwf.
Qed.

Lemma tasks_well_formed_empty : tasks_well_formed empty_db.
Proof. intros id r H. cbn in H. rewrite lookup_empty in H. discriminate. Qed.

(** Ann signs up, creates a task with a padded title and a blank
    description, then updates it with an empty priority. *)
Lemma tasks_stay_well_formed_witness :
  tasks_well_formed
    (serve_all Sample.runtime
       [(11, PostSignup,
         mkRequest 0 ""
           (Sample.body_of [("email", JStr "ann@example.com");
                            ("password", JStr "secret1"); ("name", JStr "Ann")]));
        (12, PostTasks,
         mkRequest 1 ""
           (Sample.body_of [("title", JStr "  Buy milk "); ("description", JStr "  ")]));
        (13, PutTaskId,
         mkRequest 1 "1"
           (Sample.body_of [("title", JStr "Buy oat milk"); ("priority", JStr "")]))]
       empty_db).
Proof. apply tasks_stay_well_formed, tasks_well_formed_empty. Defined.

Example tasks_after_run :
  tasks (serve_all Sample.runtime
           [(11, PostSignup,
             mkRequest 0 ""
               (Sample.body_of [("email", JStr "ann@example.com");
                                ("password", JStr "secret1"); ("name", JStr "Ann")]));
            (12, PostTasks,
             mkRequest 1 ""
               (Sample.body_of [("title", JStr "  Buy milk ");
                                ("description", JStr "  ")]));
            (13, PutTaskId,
             mkRequest 1 "1"
               (Sample.body_of [("title", JStr "Buy oat milk"); ("priority", JStr "")]))]
           empty_db) !! 1
  = Some (Task.mkRow 1 (Some "Buy oat milk") None (Some "medium") None (Some "pending")
            12 13).
Proof. vm_compute. reflexivity. Qed.

(** ** Reading back what was written *)

(** X9: the task object a successful create or update answers with is
    the one a following GET of that id by the same caller returns. *)
Theorem write_then_read (rt : Runtime) (now : Z) (req : Request) (db : Db) :
  (code_of (TaskController.create rt now req db).2 = 201 ->
   forall req',
     userId req' = userId req ->
     parseInt (params_id req') = Some (task_seq db) ->
     TaskController.getTask req' (TaskController.create rt now req db).1
     = ((TaskController.create rt now req db).1,
        mkResponse 200
          (JObj [("task", prop "task" (json (TaskController.create rt now req db).2))])))
  /\ (code_of (TaskController.update rt now req db).2 = 200 ->
      forall req',
        userId req' = userId req ->
        parseInt (params_id req') = parseInt (params_id req) ->
        TaskController.getTask req' (TaskController.update rt now req db).1
        = ((TaskController.update rt now req db).1,
           mkResponse 200
             (JObj [("task", prop "task" (json (TaskController.update rt now req db).2))]))).
Proof.
  split.
  - destruct (create_effect rt now req db)
      as [[_ Hne]|[-> |(r & _ & _ & Hu & _ & ->)]];
      [intros H; rewrite H in Hne; cbn in Hne; exfalso; intuition discriminate
      |discriminate |].
    intros _ req' Huid Hid. cbn [fst snd json]. rewrite (getTask_parsed req' _ _ Hid).
    assert (Pg.owned_task (task_seq db) (userId req')
              (with_tasks db (<[task_seq db := r]> (tasks db)) (task_seq db + 1)) = Some r)
      as -> by (apply owned_task_Some; cbn [with_tasks tasks];
                rewrite lookup_insert_eq; split; congruence).
    reflexivity.
  - destruct (update_effect rt now req db)
      as [[_ Hne]|(taskId & old & new & Hid & _ & Hown & Hu & _ & _ & ->)];
      [intros H; contradiction|].
    intros _ req' Huid Hid'. rewrite Hid in Hid'. cbn [fst snd json].
    rewrite (getTask_parsed req' _ _ Hid').
    assert (Pg.owned_task taskId (userId req')
              (with_tasks db (<[taskId := new]> (tasks db)) (task_seq db)) = Some new)
      as -> by (apply owned_task_Some; cbn [with_tasks tasks];
                rewrite lookup_insert_eq; split; congruence).
    reflexivity.
Qed.

(** Ann creates a task and reads it back under the id she was given. *)
Lemma write_then_read_witness :
  TaskController.getTask (mkRequest 1 "1" ∅)
    (TaskController.create Sample.runtime 50
       (mkRequest 1 "" (Sample.body_of [("title", JStr " Buy milk ")])) Sample.db_users).1
  = ((TaskController.create Sample.runtime 50
        (mkRequest 1 "" (Sample.body_of [("title", JStr " Buy milk ")])) Sample.db_users).1,
     mkResponse 200
       (JObj [("task",
               prop "task"
                 (json (TaskController.create Sample.runtime 50
                          (mkRequest 1 "" (Sample.body_of [("title", JStr " Buy milk ")]))
                          Sample.db_users).2))])).
Proof.
  apply (proj1 (write_then_read Sample.runtime 50
                  (mkRequest 1 "" (Sample.body_of [("title", JStr " Buy milk ")]))
                  Sample.db_users));
    reflexivity.
Defined.

Lemma remove_200_inv (req : Request) (db : Db) :
  code_of (TaskController.remove req db).2 = 200 ->
  exists taskId r,
    parseInt (params_id req) = Some taskId
    /\ tasks db !! taskId = Some r /\ Task.user_id r = userId req
    /\ (TaskController.remove req db).1
       = with_tasks db (delete taskId (tasks db)) (task_seq db).
Proof.
  destruct (parseInt (params_id req)) as [taskId|] eqn:Hid.
  - rewrite (remove_parsed req db taskId Hid).
    destruct (Pg.owned_task taskId (userId req) db) as [r|] eqn:Ho; [|discriminate].
    intros _. apply owned_task_Some in Ho as [Hr Hu]. exists taskId, r. auto.
  - unfold TaskController.remove. unfold_monad. rewrite Hid. discriminate.
Qed.

(** X10: after a successful DELETE, the same caller's GET, PUT and DELETE
    of that id find nothing: GET and DELETE answer 404 "Task not found", PUT
    is never answered 200, and none of them changes the store; the listing no
    longer holds a row under that id. *)
Theorem deleted_task_is_gone (rt : Runtime) (now : Z) (req req' : Request) (db : Db) :
  code_of (TaskController.remove req db).2 = 200 ->
  userId req' = userId req ->
  parseInt (params_id req') = parseInt (params_id req) ->
  TaskController.getTask req' (TaskController.remove req db).1
    = ((TaskController.remove req db).1, task_not_found)
  /\ TaskController.remove req' (TaskController.remove req db).1
     = ((TaskController.remove req db).1, task_not_found)
  /\ (TaskController.update rt now req' (TaskController.remove req db).1).1
     = (TaskController.remove req db).1
  /\ code_of (TaskController.update rt now req' (TaskController.remove req db).1).2 <> 200
  /\ (forall id r, parseInt (params_id req) = Some id ->
        ~ In (id, r)
            (Pg.select (fun _ r => Task.user_id r =? userId req)
               (tasks (TaskController.remove req db).1))).
Proof.
  intros H200 Huid Hid'.
  destruct (remove_200_inv req db H200) as (taskId & r & Hid & Hr & Hu & ->).
  rewrite Hid in Hid'.
  assert (Pg.owned_task taskId (userId req')
            (with_tasks db (delete taskId (tasks db)) (task_seq db)) = None) as Hnone
    by (apply owned_task_None; left; cbn [with_tasks tasks]; apply lookup_delete_eq).
  rewrite (getTask_parsed req' _ _ Hid'), (remove_parsed req' _ _ Hid'), Hnone.
  split; [reflexivity|]. split; [reflexivity|].
  destruct (update_effect rt now req'
              (with_tasks db (delete taskId (tasks db)) (task_seq db)))
    as [[Hsame Hne]|(t2 & old & new & Hid2 & Hold & _)].
  - split; [exact Hsame|]. split; [exact Hne|].
    intros id r0 Hpid Hin. rewrite Hid in Hpid. injection Hpid as <-.
    apply select_In in Hin as [Hin _].
    cbn [with_tasks tasks] in Hin. rewrite lookup_delete_eq in Hin. discriminate.
  - exfalso. rewrite Hid' in Hid2. injection Hid2 as <-.
    cbn [with_tasks tasks] in Hold. rewrite lookup_delete_eq in Hold. discriminate.
Qed.

(** Bob deletes his task 2 and asks for it again. *)
Lemma deleted_task_is_gone_witness :
  TaskController.getTask (mkRequest 2 " 2" ∅)
    (TaskController.remove (mkRequest 2 "2" ∅) Sample.db_tasks).1
  = ((TaskController.remove (mkRequest 2 "2" ∅) Sample.db_tasks).1, task_not_found)
  /\ TaskController.remove (mkRequest 2 " 2" ∅)
       (TaskController.remove (mkRequest 2 "2" ∅) Sample.db_tasks).1
     = ((TaskController.remove (mkRequest 2 "2" ∅) Sample.db_tasks).1, task_not_found).
Proof.
  destruct (deleted_task_is_gone Sample.runtime 50 (mkRequest 2 "2" ∅)
              (mkRequest 2 " 2" ∅) Sample.db_tasks eq_refl eq_refl eq_refl)
    as (Hget & Hrem & _).
  split; assumption.
Defined.

(** ** Titles *)

(** X11: a create or update whose title is missing, falsy or a string of
    white space only is answered 400 "Title is required" and stores nothing
    (for update, once the id has parsed). *)
Theorem blank_title_rejected (rt : Runtime) (now : Z) (req : Request) (db : Db) :
  (truthy (field "title" req) = false
   \/ exists t, field "title" req = JStr t /\ all_white t = true) ->
  TaskController.create rt now req db = (db, error_response 400 "Title is required")
  /\ (parseInt (params_id req) <> None ->
      TaskController.update rt now req db = (db, error_response 400 "Title is required")).
Proof.
  intros Htitle.
  assert (forall A (k : string -> M A) (x : M A),
            (if negb (truthy (field "title" req)) then x
             else bind (lift (call_trim (field "title" req)))
                    (fun trimmed => if String.eqb trimmed "" then x else k trimmed)) db
            = x db) as Hskip.
  { intros A k x. destruct Htitle as [Hf|(t & Ht & Hw)].
    - rewrite Hf. reflexivity.
    - rewrite Ht. cbn [call_trim]. unfold bind, lift.
      destruct (negb (truthy (JStr t))); [reflexivity|].
      rewrite (proj2 (trim_empty t) Hw). reflexivity. }
  split.
  - unfold TaskController.create, respond. rewrite Hskip. reflexivity.
  - intros Hid. destruct (parseInt (params_id req)) as [taskId|] eqn:E; [|contradiction].
    unfold TaskController.update, respond. rewrite E, Hskip. reflexivity.
Qed.

(** A title of spaces and a tab. *)
Lemma blank_title_rejected_witness :
  TaskController.create Sample.runtime 50
    (mkRequest 1 "1" (Sample.body_of [("title", JStr "   	"); ("priority", JStr "high")]))
    Sample.db_tasks
  = (Sample.db_tasks, error_response 400 "Title is required")
  /\ TaskController.update Sample.runtime 50
       (mkRequest 1 "1" (Sample.body_of [("title", JStr "   	"); ("priority", JStr "high")]))
       Sample.db_tasks
     = (Sample.db_tasks, error_response 400 "Title is required").
Proof.
  destruct (blank_title_rejected Sample.runtime 50
              (mkRequest 1 "1"
                 (Sample.body_of [("title", JStr "   	"); ("priority", JStr "high")]))
              Sample.db_tasks) as [Hc Hu].
  - right. eexists. split; reflexivity.
  - split; [exact Hc | apply Hu; discriminate].
Defined.

(** X12: a truthy title that is not a string (a number, [true], an array,
    an object) makes [title.trim()] throw: create and update answer 500 with
    their server-error message, whatever the other fields, and store
    nothing. *)
Theorem non_string_title_is_server_error (rt : Runtime) (now : Z) (req : Request)
    (db : Db) :
  truthy (field "title" req) = true ->
  (forall t, field "title" req <> JStr t) ->
  TaskController.create rt now req db
    = (db, error_response 500 "Server error creating task")
  /\ (parseInt (params_id req) <> None ->
      TaskController.update rt now req db
        = (db, error_response 500 "Server error updating task")).
Proof.
  intros Ht Hns.
  assert (exists e, call_trim (field "title" req) = Throw e) as [e He].
  { destruct (field "title" req); cbn [call_trim]; eauto. exfalso. eapply Hns. reflexivity. }
  split.
  - unfold TaskController.create. unfold_monad. rewrite Ht, He. reflexivity.
  - intros Hid. destruct (parseInt (params_id req)) as [taskId|] eqn:E; [|contradiction].
    unfold TaskController.update. unfold_monad. rewrite E, Ht, He. reflexivity.
Qed.

Lemma non_string_title_is_server_error_witness :
  TaskController.create Sample.runtime 50
    (mkRequest 1 "1" (Sample.body_of [("title", JNum 5); ("priority", JStr "urgent")]))
    Sample.db_tasks
  = (Sample.db_tasks, error_response 500 "Server error creating task").
Proof.
  apply (non_string_title_is_server_error Sample.runtime 50
           (mkRequest 1 "1"
              (Sample.body_of [("title", JNum 5); ("priority", JStr "urgent")]))
           Sample.db_tasks).
  - reflexivity.
  - intros t. vm_compute. discriminate.
Defined.

(** X13: a description that is present, not null and not a string makes
    [description?.trim()] throw once the other fields have passed validation:
    create and update answer 500 and store nothing. *)
Theorem non_string_description_is_server_error (rt : Runtime) (now : Z) (req : Request)
    (db : Db) (t : string) :
  field "title" req = JStr t -> trim t <> "" ->
  priority_accepted (field "priority" req) = true ->
  status_accepted (field "status" req) = true ->
  dueDate_accepted rt (field "dueDate" req) = true ->
  field "description" req <> JUndefined ->
  field "description" req <> JNull ->
  (forall d, field "description" req <> JStr d) ->
  TaskController.create rt now req db
    = (db, error_response 500 "Server error creating task")
  /\ (parseInt (params_id req) <> None ->
      TaskController.update rt now req db
        = (db, error_response 500 "Server error updating task")).
Proof.
  intros Ht Hb Ap As Ad Hu Hn Hs.
  assert (exists e, TaskController.optional_trim (field "description" req) = Throw e)
    as [e He].
  { destruct (field "description" req); cbn [TaskController.optional_trim call_trim];
      eauto; try contradiction. exfalso. eapply Hs. reflexivity. }
  unfold priority_accepted, status_accepted in *.
  apply negb_true_iff in Ap, As. apply dueDate_accepted_inv in Ad.
  split.
  - unfold TaskController.create. unfold_monad. rewrite Ht. cbn [truthy call_trim].
    rewrite (trim_nonempty t Hb). cbn [negb]. rewrite (eqb_false_of_ne _ _ Hb).
    rewrite Ap, As, Ad, He. reflexivity.
  - intros Hid. destruct (parseInt (params_id req)) as [taskId|] eqn:E; [|contradiction].
    unfold TaskController.update. unfold_monad. rewrite E, Ht. cbn [truthy call_trim].
    rewrite (trim_nonempty t Hb). cbn [negb]. rewrite (eqb_false_of_ne _ _ Hb).
    rewrite Ap, As, Ad, He. reflexivity.
Qed.

Lemma non_string_description_is_server_error_witness :
  TaskController.update Sample.runtime 50
    (mkRequest 1 "1" (Sample.body_of [("title", JStr "Buy milk"); ("description", JNum 0)]))
    Sample.db_tasks
  = (Sample.db_tasks, error_response 500 "Server error updating task").
Proof.
  apply (non_string_description_is_server_error Sample.runtime 50
           (mkRequest 1 "1"
              (Sample.body_of [("title", JStr "Buy milk"); ("description", JNum 0)]))
           Sample.db_tasks "Buy milk");
    try reflexivity; vm_compute; discriminate.
Defined.

(** ** Creating with a title only *)

(** X14: a registered caller who posts only a non-blank title, on a store
    whose next id is free and whose server takes the trimmed title and the
    defaults, is answered 201 with the new id, the caller as owner, the
    trimmed title, priority medium, status pending, no description, no due
    date, and both timestamps at the time of the request; the row is stored
    under that id and the sequence moves on. *)
Theorem create_title_only (rt : Runtime) (now : Z) (req : Request) (db : Db)
    (t : string) (u : User.Row) :
  body req !! "title" = Some (JStr t) ->
  trim t <> "" ->
  body req !! "description" = None ->
  body req !! "priority" = None ->
  body req !! "status" = None ->
  body req !! "dueDate" = None ->
  Pg.accepts rt [("title", Some (trim t)); ("description", None);
                 ("priority", Some "medium"); ("status", Some "pending")] = true ->
  users db !! userId req = Some u ->
  tasks db !! task_seq db = None ->
  TaskController.create rt now req db
  = (with_tasks db
       (<[task_seq db := Task.mkRow (userId req) (Some (trim t)) None (Some "medium")
                           None (Some "pending") now now]> (tasks db))
       (task_seq db + 1),
     mkResponse 201
       (JObj [("message", JStr "Task created successfully");
              ("task",
               JObj [("id", JNum (task_seq db)); ("userId", JNum (userId req));
                     ("title", JStr (trim t)); ("description", JNull);
                     ("priority", JStr "medium"); ("dueDate", JNull);
                     ("status", JStr "pending"); ("createdAt", JDate now);
                     ("updatedAt", JDate now)])])).
Proof.
  intros Ht Hb Hd Hp Hs Hdd Hacc Hu Hfree.
  assert (field "title" req = JStr t) as Ft by (unfold field; rewrite Ht; reflexivity).
  pose proof (absent_field _ _ Hd) as Fd. pose proof (absent_field _ _ Hp) as Fp.
  pose proof (absent_field _ _ Hs) as Fs. pose proof (absent_field _ _ Hdd) as Fdd.
  rewrite (create_accepted rt now req db t JUndefined Ft Hb) with (due := None);
    [| unfold priority_accepted; rewrite Fp; reflexivity
     | unfold status_accepted; rewrite Fs; reflexivity
     | unfold dueDate_accepted, TaskController.invalid_date; rewrite Fdd; reflexivity
     | rewrite Fd; reflexivity
     | unfold store_accepts, Pg.task_params; rewrite Fp, Fs, Fdd; cbn [js_or truthy Pg.bind];
       rewrite Hacc; reflexivity].
  rewrite Hfree, Hu. unfold created_row. rewrite Fp, Fs. reflexivity.
Qed.

(** Ann posts [{"title": "Buy milk"}]. *)
Lemma create_title_only_witness :
  TaskController.create Sample.runtime 50
    (mkRequest 1 "" (Sample.body_of [("title", JStr "Buy milk")])) Sample.db_users
  = (with_tasks Sample.db_users
       (<[1 := Task.mkRow 1 (Some "Buy milk") None (Some "medium") None
                 (Some "pending") 50 50]> ∅) 2,
     mkResponse 201
       (JObj [("message", JStr "Task created successfully");
              ("task",
               JObj [("id", JNum 1); ("userId", JNum 1); ("title", JStr "Buy milk");
                     ("description", JNull); ("priority", JStr "medium");
                     ("dueDate", JNull); ("status", JStr "pending");
                     ("createdAt", JDate 50); ("updatedAt", JDate 50)])])).
Proof.
  apply (create_title_only Sample.runtime 50
           (mkRequest 1 "" (Sample.body_of [("title", JStr "Buy milk")]))
           Sample.db_users "Buy milk" Sample.ann);
    try reflexivity.
  vm_compute. discriminate.
Defined.

(** ** Login and signup *)

(** The response of [login] to the right password. *)
Lemma login_accepted (rt : Runtime) (req : Request) (db : Db)
    (k : Z) (r : User.Row) (token : string) :
  truthy (field "email" req) = true ->
  truthy (field "password" req) = true ->
  users db !! k = Some r ->
  Pg.text_eq (User.email r) (Pg.bind rt (field "email" req)) = true ->
  (forall k' r', users db !! k' = Some r' ->
     Pg.text_eq (User.email r') (Pg.bind rt (field "email" req)) = true -> k' = k) ->
  bcrypt_compare rt (field "password" req) (Pg.cell (User.password_hash r)) = Ok true ->
  jwt_sign rt (JObj [("userId", JNum k); ("email", Pg.cell (User.email r))]) = Ok token ->
  AuthController.login rt req db
  = (db, mkResponse 200
           (JObj [("message", JStr "Login successful");
                  ("token", JStr token);
                  ("user", JObj [("id", JNum k); ("email", Pg.cell (User.email r));
                                 ("name", Pg.cell (User.name r))])])).
Proof.
  intros He Hp Hk Hm Huniq Hcmp Hsign.
  unfold AuthController.login. unfold_monad. rewrite He, Hp. cbn [negb orb].
  destruct (findUserByEmail_shape rt (field "email" req) db)
    as [[_ Hall]|(k' & r' & Hk' & Hm' & ->)].
  - rewrite (Hall k r Hk) in Hm. discriminate.
  - pose proof (Huniq k' r' Hk' Hm') as ->. rewrite Hk in Hk'. injection Hk' as <-.
    cbn. rewrite Hcmp. cbn. rewrite Hsign. reflexivity.
Qed.

(** X15: a login with the email of exactly one stored user and a password
    that [bcrypt.compare] accepts against the stored hash is answered 200
    with the token signed for [{userId, email}] of that user and the user's
    id, email and name; the store is unchanged. *)
Theorem login_succeeds_for_stored_user (rt : Runtime) (req : Request) (db : Db)
    (k : Z) (r : User.Row) (token : string) :
  truthy (field "email" req) = true ->
  truthy (field "password" req) = true ->
  users db !! k = Some r ->
  Pg.text_eq (User.email r) (Pg.bind rt (field "email" req)) = true ->
  (forall k' r', users db !! k' = Some r' ->
     Pg.text_eq (User.email r') (Pg.bind rt (field "email" req)) = true -> k' = k) ->
  bcrypt_compare rt (field "password" req) (Pg.cell (User.password_hash r)) = Ok true ->
  jwt_sign rt (JObj [("userId", JNum k); ("email", Pg.cell (User.email r))]) = Ok token ->
  AuthController.login rt req db
  = (db, mkResponse 200
           (JObj [("message", JStr "Login successful");
                  ("token", JStr token);
                  ("user", JObj [("id", JNum k); ("email", Pg.cell (User.email r));
                                 ("name", Pg.cell (User.name r))])])).
Proof. exact (login_accepted rt req db k r token). Qed.

Lemma login_succeeds_for_stored_user_witness :
  AuthController.login Sample.runtime
    (mkRequest 0 ""
       (Sample.body_of [("email", JStr "bob@example.com"); ("password", JStr "hunter22")]))
    Sample.db_users
  = (Sample.db_users,
     mkResponse 200
       (JObj [("message", JStr "Login successful");
              ("token", JStr "header.payload.signature");
              ("user", JObj [("id", JNum 2); ("email", JStr "bob@example.com");
                             ("name", JStr "Bob")])])).
Proof.
  apply (login_succeeds_for_stored_user Sample.runtime
           (mkRequest 0 ""
              (Sample.body_of [("email", JStr "bob@example.com");
                               ("password", JStr "hunter22")]))
           Sample.db_users 2 Sample.bob "header.payload.signature");
    try reflexivity.
  intros k' r' Hk'. cbn [Sample.db_users users] in Hk'.
  apply lookup_insert_Some in Hk' as [[<- _]|[_ Hk']]; [reflexivity|].
  apply lookup_singleton_Some in Hk' as [_ <-]. discriminate.
Defined.

(** X16: a signup whose three fields are present, whose email matches the
    pattern, whose password has at least 6 characters and hashes to [h], on a
    store where no user has that email, the next id is free and the server
    takes the email, the hash and the name, is answered 201 with the new id,
    email and name only; the stored row holds [h] as its password hash, and
    the sequence moves on. *)
Theorem signup_creates_account (rt : Runtime) (now : Z) (req : Request) (db : Db)
    (h : string) :
  truthy (field "email" req) = true ->
  truthy (field "password" req) = true ->
  truthy (field "name" req) = true ->
  AuthController.regex_test rt (field "email" req) = Ok true ->
  AuthController.shorter_than rt (field "password" req) 6 = false ->
  bcrypt_hash rt (field "password" req) = Ok h ->
  Pg.accepts rt [("email", Pg.bind rt (field "email" req)); ("password_hash", Some h);
                 ("name", Pg.bind rt (field "name" req))] = true ->
  users db !! user_seq db = None ->
  (forall k r, users db !! k = Some r ->
     Pg.text_eq (User.email r) (Pg.bind rt (field "email" req)) = false) ->
  AuthController.signup rt now req db
  = (with_users db (<[user_seq db := signed_up_row rt now req h]> (users db))
       (user_seq db + 1),
     mkResponse 201
       (JObj [("message", JStr "User created successfully");
              ("user",
               JObj [("id", JNum (user_seq db));
                     ("email", Pg.cell (Pg.bind rt (field "email" req)));
                     ("name", Pg.cell (Pg.bind rt (field "name" req)))])]))
  /\ User.password_hash (signed_up_row rt now req h) = Some h.
Proof.
  intros He Hp Hn Hre Hlen Hh Hacc Hseq Hfree. split; [|reflexivity].
  unfold AuthController.signup, UserModel.createUser, Pg.insert_user.
  unfold_monad. cbv zeta. rewrite He, Hp, Hn, Hre. cbn [negb orb].
  rewrite Hlen, Hh, Hacc. cbn [negb]. rewrite Hseq.
  rewrite (proj2 (select_nil _ (users db)) Hfree). reflexivity.
Qed.

Lemma signup_creates_account_witness :
  AuthController.signup Sample.runtime 50
    (mkRequest 0 ""
       (Sample.body_of [("email", JStr "eve@example.com"); ("password", JStr "letmein");
                        ("name", JStr "Eve")]))
    Sample.db_users
  = (with_users Sample.db_users
       (<[3 := User.mkRow (Some "eve@example.com") (Some "$2a$10$letmein") (Some "Eve") 50]>
          (users Sample.db_users)) 4,
     mkResponse 201
       (JObj [("message", JStr "User created successfully");
              ("user", JObj [("id", JNum 3); ("email", JStr "eve@example.com");
                             ("name", JStr "Eve")])])).
Proof.
  apply (signup_creates_account Sample.runtime 50
           (mkRequest 0 ""
              (Sample.body_of [("email", JStr "eve@example.com");
                               ("password", JStr "letmein"); ("name", JStr "Eve")]))
           Sample.db_users "$2a$10$letmein"); try reflexivity.
  intros k r Hk. cbn [Sample.db_users users] in Hk.
  apply lookup_insert_Some in Hk as [[_ <-]|[_ Hk]]; [reflexivity|].
  apply lookup_singleton_Some in Hk as [_ <-]. reflexivity.
Defined.

(** X17: after a signup answered 201 with a string email, a login with the
    same email and password is answered 200, provided [bcrypt.compare]
    accepts the password against the hash [bcrypt.hash] produced for it and
    [jwt.sign] returns a token. *)
Theorem signup_then_login (rt : Runtime) (now : Z) (req req' : Request) (db : Db)
    (e : string) :
  code_of (AuthController.signup rt now req db).2 = 201 ->
  field "email" req = JStr e ->
  field "email" req' = field "email" req ->
  field "password" req' = field "password" req ->
  (forall h, bcrypt_hash rt (field "password" req) = Ok h ->
     bcrypt_compare rt (field "password" req) (JStr h) = Ok true) ->
  (forall payload, exists token, jwt_sign rt payload = Ok token) ->
  exists token,
    AuthController.login rt req' (AuthController.signup rt now req db).1
    = ((AuthController.signup rt now req db).1,
       mkResponse 200
         (JObj [("message", JStr "Login successful");
                ("token", JStr token);
                ("user", JObj [("id", JNum (user_seq db)); ("email", JStr e);
                               ("name", Pg.cell (Pg.bind rt (field "name" req)))])])).
Proof.
  intros H201 Hemail He' Hp' Hcmp Hsign.
  destruct (signup_cases rt now req db)
    as [(_ & Hne)|[(c & msg & Hc & Heq)
                  |(h & Hh & Te & Tp & _ & _ & _ & _ & Hseq & Hfree & Heq)]];
    [rewrite H201 in Hne; cbn in Hne; exfalso; intuition discriminate
    |rewrite Heq in H201; cbn in H201, Hc; exfalso; lia |].
  rewrite Heq. cbn [fst].
  destruct (Hsign (JObj [("userId", JNum (user_seq db));
                         ("email", Pg.cell (User.email (signed_up_row rt now req h)))]))
    as [token Htok].
  exists token.
  rewrite (login_accepted rt req' _ (user_seq db)
             (signed_up_row rt now req h) token).
  - cbn [signed_up_row User.email User.name]. rewrite Hemail. reflexivity.
  - rewrite He'. exact Te.
  - rewrite Hp'. exact Tp.
  - cbn [with_users users]. apply lookup_insert_eq.
  - rewrite He'. cbn [signed_up_row User.email]. rewrite Hemail. cbn.
    apply String.eqb_refl.
  - intros k' r' Hk' Hm'. cbn [with_users users] in Hk'.
    apply lookup_insert_Some in Hk' as [[<- _]|[_ Hk']]; [reflexivity|].
    rewrite He' in Hm'. rewrite (Hfree k' r' Hk') in Hm'. discriminate.
  - rewrite Hp'. cbn [signed_up_row User.password_hash Pg.cell]. apply Hcmp, Hh.
  - exact Htok.
Qed.

(** Eve signs up and logs in. *)
Lemma signup_then_login_witness :
  exists token,
    AuthController.login Sample.runtime
      (mkRequest 0 ""
         (Sample.body_of [("email", JStr "eve@example.com"); ("password", JStr "letmein")]))
      (AuthController.signup Sample.runtime 50
         (mkRequest 0 ""
            (Sample.body_of [("email", JStr "eve@example.com");
                             ("password", JStr "letmein"); ("name", JStr "Eve")]))
         Sample.db_users).1
    = ((AuthController.signup Sample.runtime 50
          (mkRequest 0 ""
             (Sample.body_of [("email", JStr "eve@example.com");
                              ("password", JStr "letmein"); ("name", JStr "Eve")]))
          Sample.db_users).1,
       mkResponse 200
         (JObj [("message", JStr "Login successful");
                ("token", JStr token);
                ("user", JObj [("id", JNum 3); ("email", JStr "eve@example.com");
                               ("name", JStr "Eve")])])).
Proof.
  apply (signup_then_login Sample.runtime 50
           (mkRequest 0 ""
              (Sample.body_of [("email", JStr "eve@example.com");
                               ("password", JStr "letmein"); ("name", JStr "Eve")]))
           (mkRequest 0 ""
              (Sample.body_of [("email", JStr "eve@example.com");
                               ("password", JStr "letmein")]))
           Sample.db_users "eve@example.com"); try reflexivity.
  - intros h [= <-]. reflexivity.
  - intros payload. eexists. reflexivity.
Defined.

(** X18: signup answers 400 and stores nothing when a field is missing or
    falsy ("Email, password, and name are required"), when the email is a
    string that does not match the pattern ("Invalid email format"), and
    when the email matches and the password is a string of fewer than 6
    characters ("Password must be at least 6 characters"). *)
Theorem signup_rejects_invalid (rt : Runtime) (now : Z) (req : Request) (db : Db) :
  (truthy (field "email" req) = false \/ truthy (field "password" req) = false
   \/ truthy (field "name" req) = false ->
   AuthController.signup rt now req db
     = (db, error_response 400 "Email, password, and name are required"))
  /\ (forall e,
        field "email" req = JStr e -> e <> "" ->
        truthy (field "password" req) = true -> truthy (field "name" req) = true ->
        AuthController.emailRegex_test e = false ->
        AuthController.signup rt now req db
          = (db, error_response 400 "Invalid email format"))
  /\ (forall e p,
        field "email" req = JStr e -> field "password" req = JStr p -> p <> "" ->
        truthy (field "name" req) = true ->
        AuthController.emailRegex_test e = true ->
        (String.length p < 6)%nat ->
        AuthController.signup rt now req db
          = (db, error_response 400 "Password must be at least 6 characters")).
Proof.
  split; [|split].
  - intros H. unfold AuthController.signup. unfold_monad.
    assert (negb (truthy (field "email" req)) || negb (truthy (field "password" req))
              || negb (truthy (field "name" req)) = true) as ->
      by (destruct H as [ -> | [ -> | -> ] ]; cbn [negb orb]; rewrite ?orb_true_r;
          reflexivity).
    reflexivity.
  - intros e He Hne Tp Tn Hre. unfold AuthController.signup. unfold_monad.
    rewrite He, Tp, Tn, (truthy_nonempty e Hne). cbn [negb orb AuthController.regex_test].
    rewrite Hre. reflexivity.
  - intros e p He Hp Hne Tn Hre Hlen. unfold AuthController.signup. unfold_monad.
    assert (e <> "") as Hene by (intros ->; discriminate Hre).
    rewrite He, Hp, Tn, (truthy_nonempty e Hene), (truthy_nonempty p Hne).
    cbn [negb orb AuthController.regex_test AuthController.shorter_than].
    rewrite Hre. cbn [negb].
    destruct (Z.ltb_spec (Z.of_nat (String.length p)) 6); [reflexivity | lia].
Qed.

(** An email without a dot after the [@]. *)
Lemma signup_rejects_invalid_witness :
  AuthController.signup Sample.runtime 50
    (mkRequest 0 ""
       (Sample.body_of [("email", JStr "cy@example"); ("password", JStr "secret1");
                        ("name", JStr "Cy")]))
    Sample.db_users
  = (Sample.db_users, error_response 400 "Invalid email format").
Proof.
  apply (proj1 (proj2 (signup_rejects_invalid Sample.runtime 50
                         (mkRequest 0 ""
                            (Sample.body_of [("email", JStr "cy@example");
                                             ("password", JStr "secret1");
                                             ("name", JStr "Cy")]))
                         Sample.db_users)) "cy@example");
    try reflexivity.
  discriminate.
Defined.

(** ** The email pattern *)

Lemma all_plain_app (a b : string) :
  AuthController.all_plain (String.append a b)
  = AuthController.all_plain a && AuthController.all_plain b.
Proof.
  induction a as [|c a IH]; [reflexivity|]. simpl. rewrite IH. apply andb_assoc.
Qed.

Lemma split_at_app (a rest : string) :
  AuthController.all_plain a = true ->
  AuthController.split_at (String.append a (String "@" rest)) = Some (a, rest).
Proof.
  induction a as [|c a IH]; intros Hp; [reflexivity|].
  simpl in *. apply andb_true_iff in Hp as [Hc Ha]. unfold AuthController.plain in Hc.
  apply andb_true_iff in Hc as [_ Hc]. apply negb_true_iff in Hc. rewrite Hc, (IH Ha).
  reflexivity.
Qed.

Lemma split_at_inv (s a b : string) :
  AuthController.split_at s = Some (a, b) -> s = String.append a (String "@" b).
Proof.
  revert a. induction s as [|c s IH]; intros a; cbn [AuthController.split_at];
    [discriminate|].
  destruct (Ascii.eqb_spec c "@") as [->|_].
  - intros [= <- <-]. reflexivity.
  - destruct (AuthController.split_at s) as [[a' b']|]; [|discriminate].
    intros [= <- <-]. simpl. rewrite (IH a' eq_refl). reflexivity.
Qed.

Lemma dot_inside_app (u c : string) :
  c <> "" -> AuthController.dot_inside (String.append u (String "." c)) = true.
Proof.
  intros Hc. induction u as [|x u IH]; simpl.
  - rewrite (eqb_false_of_ne _ _ Hc). reflexivity.
  - rewrite IH. apply orb_true_r.
Qed.

Lemma dot_inside_inv (x : string) :
  AuthController.dot_inside x = true ->
  exists u v, x = String.append u (String "." v) /\ v <> "".
Proof.
  induction x as [|c x IH]; cbn [AuthController.dot_inside]; [discriminate|].
  intros H. apply orb_true_iff in H as [H|H].
  - apply andb_true_iff in H as [Hc Hx]. apply Ascii.eqb_eq in Hc as ->.
    exists "", x. split; [reflexivity|]. intros ->. discriminate Hx.
  - destruct (IH H) as (u & v & -> & Hv). exists (String c u), v. auto.
Qed.

(** X19: the test of the email pattern accepts exactly the strings of the
    form [a@b.c] in which [a], [b] and [c] are non-empty and contain neither
    white space nor [@]. *)
Theorem emailRegex_test_language (s : string) :
  AuthController.emailRegex_test s = true <-> matches_email_pattern s.
Proof.
  unfold AuthController.emailRegex_test, matches_email_pattern. split.
  - destruct (AuthController.split_at s) as [[a b]|] eqn:Hs; [|discriminate].
    intros H. apply andb_true_iff in H as [H Hdot].
    apply andb_true_iff in H as [H Hb]. apply andb_true_iff in H as [Ha Hpa].
    apply negb_true_iff, String.eqb_neq in Ha.
    destruct b as [|c0 b']; [discriminate|].
    destruct (dot_inside_inv b' Hdot) as (u & v & -> & Hv).
    change (String c0 (String.append u (String "." v)))
      with (String.append (String c0 u) (String "." v)) in *.
    rewrite all_plain_app in Hb. apply andb_true_iff in Hb as [Hu Hv'].
    cbn [AuthController.all_plain] in Hv'. apply andb_true_iff in Hv' as [_ Hv'].
    exists a, (String c0 u), v. rewrite (split_at_inv s _ _ Hs).
    repeat split; auto; discriminate.
  - intros (a & b & c & -> & Ha & Hb & Hc & Pa & Pb & Pc).
    rewrite (split_at_app a _ Pa).
    rewrite (eqb_false_of_ne _ _ Ha), Pa, all_plain_app, Pb. cbn [negb andb].
    cbn [AuthController.all_plain]. rewrite Pc.
    destruct b as [|c0 b']; [contradiction|].
    change (String.append (String c0 b') (String "." c))
      with (String c0 (String.append b' (String "." c))).
    cbv iota. rewrite (dot_inside_app b' c Hc). reflexivity.
Qed.

(** ** No response carries a password hash *)

Lemma mentions_key_cell (k : string) (c : option string) :
  mentions_key k (Pg.cell c) = false.
Proof. destruct c; reflexivity. Qed.

Lemma mentions_key_date_cell (k : string) (c : option Z) :
  mentions_key k (Pg.date_cell c) = false.
Proof. destruct c; reflexivity. Qed.

Lemma task_list_no_key (l : list (Z * Task.Row)) :
  existsb (mentions_key "password_hash")
    (map TaskController.task_json (map (fun kr => Pg.task_object kr.1 kr.2) l)) = false.
Proof.
  induction l as [|[id r] l IH]; [reflexivity|]. cbn [map existsb]. rewrite IH.
  cbn -[Pg.cell Pg.date_cell]. rewrite !mentions_key_cell, mentions_key_date_cell.
  reflexivity.
Qed.

Ltac no_hash :=
  cbn -[Pg.cell Pg.date_cell Pg.bind];
  rewrite ?mentions_key_cell, ?mentions_key_date_cell; reflexivity.

(** X20: no response of any route has a property named [password_hash],
    at any depth of its JSON body. *)
Theorem responses_never_carry_hash (rt : Runtime) (now : Z) (route : Route)
    (req : Request) (db : Db) :
  mentions_key "password_hash" (json (serve rt now route req db).2) = false.
Proof.
  destruct route; cbn [serve].
  - unfold AuthController.signup, UserModel.createUser, Pg.insert_user.
    unfold_monad. cbv zeta. repeat auth_step; no_hash.
  - unfold AuthController.login, UserModel.findUserByEmail.
    unfold_monad. repeat auth_step; no_hash.
  - unfold UserController.getCurrentUser, UserModel.findUserById.
    unfold_monad. repeat handler_step; no_hash.
  - unfold TaskController.getAllTasks, TaskModel.getTasksByUserId. unfold_monad.
    cbn [snd json mentions_key existsb]. rewrite task_list_no_key. reflexivity.
  - unfold TaskController.create, TaskModel.createTask, Pg.insert_task.
    unfold_monad. cbv zeta. repeat handler_step; no_hash.
  - unfold TaskController.getTask, TaskModel.getTaskById.
    unfold_monad. repeat handler_step; no_hash.
  - unfold TaskController.update, TaskModel.updateTask.
    unfold_monad. repeat handler_step; no_hash.
  - unfold TaskController.remove, TaskModel.deleteTask.
    unfold_monad. repeat handler_step; no_hash.
Qed.

(** ** The profile *)

(** X21: GET /api/users/me answers 404 "User not found" when the token's
    user id has no row, and otherwise 200 with that row's id, email, name
    and creation time; the store is unchanged. *)
Theorem getCurrentUser_profile (req : Request) (db : Db) :
  (users db !! userId req = None ->
   UserController.getCurrentUser req db = (db, error_response 404 "User not found"))
  /\ (forall r, users db !! userId req = Some r ->
      UserController.getCurrentUser req db
      = (db, mkResponse 200
               (JObj [("user",
                       JObj [("id", JNum (userId req));
                             ("email", Pg.cell (User.email r));
                             ("name", Pg.cell (User.name r));
                             ("createdAt", JDate (User.created_at r))])]))).
Proof.
  unfold UserController.getCurrentUser. unfold_monad. split.
  - intros Hnone.
    destruct (findUserById_shape (userId req) db) as [[-> _]|(r & Hr & _)];
      [reflexivity | congruence].
  - intros r Hr.
    destruct (findUserById_shape (userId req) db) as [[_ Hn]|(r' & Hr' & ->)];
      [congruence|].
    rewrite Hr in Hr'. injection Hr' as <-. reflexivity.
Qed.

(** ** The id in the path *)

Lemma digit_char_value (d : Z) :
  0 <= d <= 9 -> is_digit (Api.digit_char d) = true
                 /\ digit_value 10 (Api.digit_char d) = Some d.
Proof.
  intros Hd.
  assert (d = 0 \/ d = 1 \/ d = 2 \/ d = 3 \/ d = 4 \/ d = 5 \/ d = 6 \/ d = 7
          \/ d = 8 \/ d = 9) as H by lia.
  repeat (destruct H as [->|H]; [split; reflexivity|]). subst d. split; reflexivity.
Qed.

Lemma decimal_all_digits (fuel : nat) (n : Z) :
  (0 < fuel)%nat -> 0 <= n < 10 ^ Z.of_nat fuel ->
  all_digits (Api.decimal fuel n) = true /\ Api.decimal fuel n <> "".
Proof.
  revert n. induction fuel as [|fuel IH]; intros n Hf Hn; [lia|].
  cbn [Api.decimal]. destruct (Z.ltb_spec n 10) as [Hlt|Hge].
  - split; [|discriminate]. cbn [all_digits].
    rewrite (proj1 (digit_char_value n ltac:(lia))). reflexivity.
  - assert (0 <= n / 10 < 10 ^ Z.of_nat fuel) as Hq.
    { rewrite Nat2Z.inj_succ, Z.pow_succ_r in Hn by lia.
      split; [apply Z.div_pos; lia | apply Z.div_lt_upper_bound; lia]. }
    assert (0 < fuel)%nat as Hf'.
    { destruct fuel; [|lia]. cbn in Hq.
      assert (1 <= n / 10) by (apply Z.div_le_lower_bound; lia). lia. }
    destruct (IH _ Hf' Hq) as [Ha Hne]. split.
    + rewrite all_digits_app, Ha. cbn [all_digits andb].
      rewrite (proj1 (digit_char_value (n mod 10)
                        ltac:(pose proof (Z.mod_pos_bound n 10); lia))).
      reflexivity.
    + destruct (Api.decimal fuel (n / 10)); [contradiction | discriminate].
Qed.

Lemma read_decimal (fuel : nat) (n : Z) :
  (0 < fuel)%nat -> 0 <= n < 10 ^ Z.of_nat fuel ->
  read_digits 10 None (Api.decimal fuel n) = Some n.
Proof.
  revert n. induction fuel as [|fuel IH]; intros n Hf Hn; [lia|].
  cbn [Api.decimal]. destruct (Z.ltb_spec n 10) as [Hlt|Hge].
  - cbn [read_digits]. rewrite (proj2 (digit_char_value n ltac:(lia))). cbn [default].
    f_equal; lia.
  - assert (0 <= n / 10 < 10 ^ Z.of_nat fuel) as Hq.
    { rewrite Nat2Z.inj_succ, Z.pow_succ_r in Hn by lia.
      split; [apply Z.div_pos; lia | apply Z.div_lt_upper_bound; lia]. }
    assert (0 < fuel)%nat as Hf'.
    { destruct fuel; [|lia]. cbn in Hq.
      assert (1 <= n / 10) by (apply Z.div_le_lower_bound; lia). lia. }
    rewrite read_digits_app by (apply decimal_all_digits; assumption).
    rewrite (IH _ Hf' Hq). cbn [read_digits].
    rewrite (proj2 (digit_char_value (n mod 10)
                      ltac:(pose proof (Z.mod_pos_bound n 10); lia))).
    change (default 0 (Some (n / 10))) with (n / 10).
    f_equal. pose proof (Z.div_mod n 10 ltac:(lia)). lia.
Qed.

(** The decimal numeral of an id parses back to it. *)
Lemma path_id_parses (id : Z) :
  0 <= id < 2 ^ 53 ->
  is_numeric (Api.path_id id) = true /\ parseInt (Api.path_id id) = Some id.
Proof.
  intros Hid. unfold Api.path_id.
  assert (0 <= id < 10 ^ Z.of_nat 16) as Hid' by (cbn; lia).
  destruct (decimal_all_digits 16 id ltac:(lia) Hid') as [Ha Hne].
  assert (is_numeric (Api.decimal 16 id) = true) as Hnum.
  { unfold is_numeric. rewrite Ha, (eqb_false_of_ne _ _ Hne). reflexivity. }
  split; [exact Hnum|].
  rewrite (parseInt_numeric_value _ id Hnum (read_decimal 16 id ltac:(lia) Hid')).
  rewrite number_value_exact by lia. reflexivity.
Qed.

(** X22: the id the client writes into the path of GET, PUT and DELETE
    /api/tasks/:id is the id the server parses out of it: for every integer
    [0 <= id < 2^53], [parseInt] of its decimal numeral is [id], and for an
    id within the range of the id column [getTask] looks up the task of that
    id. *)
Theorem path_id_round_trip (id : Z) :
  0 <= id < 2 ^ 53 ->
  is_numeric (Api.path_id id) = true
  /\ parseInt (Api.path_id id) = Some id
  /\ (Pg.id_in_range id = true ->
      forall uid b db,
        TaskController.getTask (mkRequest uid (Api.path_id id) b) db
        = match Pg.owned_task id uid db with
          | None => (db, task_not_found)
          | Some r =>
              (db, mkResponse 200
                     (JObj [("task", TaskController.task_json (Pg.task_object id r))]))
          end).
Proof.
  intros Hid. destruct (path_id_parses id Hid) as [Hnum Hp].
  split; [exact Hnum|]. split; [exact Hp|].
  intros _ uid b db. apply getTask_parsed. exact Hp.
Qed.

Lemma path_id_round_trip_witness :
  is_numeric (Api.path_id 1207) = true /\ parseInt (Api.path_id 1207) = Some 1207
  /\ TaskController.getTask (mkRequest 1 (Api.path_id 1207) ∅) Sample.db_tasks
     = (Sample.db_tasks, task_not_found).
Proof.
  destruct (path_id_round_trip 1207 ltac:(lia)) as (H1 & H2 & H3).
  split; [exact H1|]. split; [exact H2|].
  exact (H3 eq_refl 1 ∅ Sample.db_tasks).
Defined.

Example path_id_examples :
  Api.path_id 0 = "0" /\ Api.path_id 7 = "7" /\ Api.path_id 1207 = "1207".
Proof. repeat split; reflexivity. Qed.

(** ** The client's interceptors *)

(** X23: after a response with status 401 or 403 the client is logged
    out: token and user are gone from storage and the next request gets no
    Authorization header from the interceptor.  Any other failure, also one
    without a response, leaves storage as it was, and a request made with a
    non-empty stored token carries [Bearer <token>]. *)
Theorem auth_failure_logs_out (storage headers : gmap string string) (status : option Z) :
  (status = Some 401 \/ status = Some 403 ->
   Client.on_response_error storage status !! "token" = None
   /\ Client.on_response_error storage status !! "user" = None
   /\ Client.on_request (Client.on_response_error storage status) headers = headers)
  /\ (status <> Some 401 -> status <> Some 403 ->
      Client.on_response_error storage status = storage)
  /\ (forall token, storage !! "token" = Some token -> token <> "" ->
      Client.on_request storage headers !! "Authorization"
      = Some (String.append "Bearer " token)).
Proof.
  split; [|split].
  - intros H.
    assert (Client.on_response_error storage status = delete "user" (delete "token" storage))
      as -> by (destruct H as [-> | ->]; reflexivity).
    assert (delete "user" (delete "token" storage) !! "token" = None) as Ht
      by (rewrite lookup_delete_ne by discriminate; apply lookup_delete_eq).
    split; [exact Ht|]. split; [apply lookup_delete_eq|].
    unfold Client.on_request. rewrite Ht. reflexivity.
  - intros H1 H3. unfold Client.on_response_error.
    destruct status as [c|]; [|reflexivity].
    destruct (Z.eqb_spec c 401) as [->|_]; [contradiction|].
    destruct (Z.eqb_spec c 403) as [->|_]; [contradiction|]. reflexivity.
  - intros token Ht Hne. unfold Client.on_request.
    rewrite Ht, (eqb_false_of_ne _ _ Hne). apply lookup_insert_eq.
Qed.

(** ** What the tasks page sends *)

Lemma json_body_absent (l : list (string * JsValue)) (k : string) :
  ~ In k (map fst l) -> Client.json_body l !! k = None.
Proof.
  induction l as [|[k' v] l IH]; intros Hk; [apply lookup_empty|].
  cbn [map fst In] in Hk. cbn [Client.json_body foldr snd fst].
  fold (Client.json_body l).
  assert (Client.json_body l !! k = None) as Hl by (apply IH; tauto).
  destruct v; try (rewrite lookup_insert_ne by (intros ->; tauto)); exact Hl.
Qed.

Lemma json_body_lookup (l : list (string * JsValue)) (k : string) :
  List.NoDup (map fst l) ->
  default JUndefined (Client.json_body l !! k) = default JUndefined (assoc k l).
Proof.
  induction l as [|[k' v] l IH]; intros Hnd.
  { change (Client.json_body []) with (∅ : gmap string JsValue).
    rewrite lookup_empty. reflexivity. }
  cbn [map fst] in Hnd. apply List.NoDup_cons_iff in Hnd as [Hnotin Hnd].
  cbn [Client.json_body foldr snd fst assoc]. fold (Client.json_body l).
  destruct (String.eqb_spec k k') as [->|Hne].
  - pose proof (json_body_absent l k' Hnotin) as Habs.
    destruct v; try (rewrite lookup_insert_eq; reflexivity).
    rewrite Habs. reflexivity.
  - destruct v; try (rewrite lookup_insert_ne by congruence); apply IH, Hnd.
Qed.

Lemma taskData_field (uid : Z) (id : string) (f : TasksPage.Form) (k : string) :
  field k (mkRequest uid id (Client.json_body (TasksPage.taskData f)))
  = default JUndefined (assoc k (TasksPage.taskData f)).
Proof.
  unfold field. cbn [body]. apply json_body_lookup.
  cbn. repeat constructor; cbn; intuition discriminate.
Qed.

Lemma accepted_of_valid (valid : list string) (x : string) :
  In x valid -> negb (truthy (JStr x) && negb (includes valid (JStr x))) = true.
Proof. intros H. rewrite (includes_In _ _ H). cbn [negb]. rewrite andb_false_r. reflexivity. Qed.

(** X24: a form with a non-blank title, any description, a priority and a
    status from the select boxes, and a due date that is empty or parses, sent
    by [handleCreate] for a registered user on a store whose next id is free
    and whose server takes the cells, is answered 201; the stored task has the
    trimmed title, the selected priority and status, the trimmed description
    or NULL when the description is blank, and the date the server read from
    the due date or NULL when it is empty. *)
Theorem page_create_is_accepted (rt : Runtime) (now : Z) (uid : Z) (db : Db)
    (u : User.Row) (t d p s dd : string) (due : option Z) :
  trim t <> "" ->
  In p TaskController.validPriorities ->
  In s TaskController.validStatuses ->
  (dd = "" \/ date_is_nan rt (JStr dd) = Ok false) ->
  Pg.task_params rt (Some (trim t)) (if all_white d then None else Some (trim d))
    (Some p) (if String.eqb dd "" then None else Some dd) (Some s) = Ok due ->
  users db !! uid = Some u ->
  tasks db !! task_seq db = None ->
  exists resp,
    TaskController.create rt now
      (TasksPage.create_request uid
         (TasksPage.mkForm (JStr t) (JStr d) (JStr p) (JStr s) (JStr dd))) db
    = (with_tasks db
         (<[task_seq db :=
              Task.mkRow uid (Some (trim t))
                (if all_white d then None else Some (trim d))
                (Some p) due (Some s) now now]> (tasks db))
         (task_seq db + 1), resp)
    /\ code_of resp = 201.
Proof.
  intros Hb Hp Hs Hdd Hparams Hu Hfree. unfold TasksPage.create_request.
  set (f := TasksPage.mkForm (JStr t) (JStr d) (JStr p) (JStr s) (JStr dd)).
  set (req := mkRequest uid "" (Client.json_body (TasksPage.taskData f))).
  assert (field "title" req = JStr t) as Ft by (apply taskData_field).
  assert (field "priority" req = JStr p) as Fp by (apply taskData_field).
  assert (field "status" req = JStr s) as Fs by (apply taskData_field).
  assert (field "dueDate" req = js_or (JStr dd) JUndefined) as Fdd by (apply taskData_field).
  assert (field "description" req = js_or (JStr d) JUndefined) as Fd
    by (apply taskData_field).
  set (d' := if String.eqb d "" then JUndefined else JStr (trim d)).
  assert (TaskController.optional_trim (field "description" req) = Ok d') as Od.
  { rewrite Fd. unfold js_or, d'. cbn [truthy]. destruct (String.eqb d ""); reflexivity. }
  assert (dueDate_accepted rt (field "dueDate" req) = true) as Ad.
  { apply dueDate_accepted_inv. unfold TaskController.invalid_date.
    rewrite Fdd. unfold js_or. cbn [truthy].
    destruct (String.eqb dd "") eqn:E; cbn [negb]; [reflexivity|].
    cbn [truthy]. rewrite E. cbn [negb].
    destruct Hdd as [->|Hok]; [discriminate E | exact Hok]. }
  assert (Pg.bind rt (js_or d' JNull) = if all_white d then None else Some (trim d)) as Cd.
  { unfold d'. destruct (String.eqb_spec d "") as [->|Hne]; [reflexivity|].
    unfold js_or. cbn [truthy].
    destruct (String.eqb_spec (trim d) "") as [He|Hn]; cbn [negb Pg.bind].
    - rewrite (proj1 (trim_empty d) He). reflexivity.
    - destruct (all_white d) eqn:Hw; [|reflexivity].
      exfalso. apply Hn, trim_empty, Hw. }
  assert (Pg.bind rt (js_or (field "dueDate" req) JNull)
          = if String.eqb dd "" then None else Some dd) as Cdd.
  { rewrite Fdd. unfold js_or. cbn [truthy].
    destruct (String.eqb dd "") eqn:E; cbn [negb truthy]; rewrite ?E; reflexivity. }
  assert (Pg.bind rt (js_or (field "priority" req) (JStr "medium")) = Some p) as Cp
    by (rewrite Fp, (js_or_truthy (JStr p))
          by (apply truthy_nonempty, valid_priority_nonempty, Hp); reflexivity).
  assert (Pg.bind rt (js_or (field "status" req) (JStr "pending")) = Some s) as Cs
    by (rewrite Fs, (js_or_truthy (JStr s))
          by (apply truthy_nonempty, valid_status_nonempty, Hs); reflexivity).
  assert (store_accepts rt req t d' due) as Hstore
    by (unfold store_accepts; rewrite Cd, Cp, Cdd, Cs; exact Hparams).
  rewrite (create_accepted rt now req db t d' Ft Hb
             ltac:(unfold priority_accepted; rewrite Fp; apply accepted_of_valid, Hp)
             ltac:(unfold status_accepted; rewrite Fs; apply accepted_of_valid, Hs)
             Ad Od due Hstore).
  rewrite Hfree. change (userId req) with uid. rewrite Hu. cbv zeta.
  unfold created_row. change (userId req) with uid. rewrite Cd, Cp, Cs.
  eexists. split; reflexivity.
Qed.

(** The page's defaults with a title, sent for Ann. *)
Lemma page_create_is_accepted_witness :
  exists resp,
    TaskController.create Sample.runtime 50
      (TasksPage.create_request 1
         (TasksPage.mkForm (JStr "Water plants ") (JStr " ") (JStr "medium")
            (JStr "pending") (JStr "2024-01-15"))) Sample.db_users
    = (with_tasks Sample.db_users
         (<[1 := Task.mkRow 1 (Some "Water plants") None (Some "medium")
                   (Some 1705276800000) (Some "pending") 50 50]> ∅) 2, resp)
    /\ code_of resp = 201.
Proof.
  apply (page_create_is_accepted Sample.runtime 50 1 Sample.db_users Sample.ann
           "Water plants " " " "medium" "pending" "2024-01-15" (Some 1705276800000));
    try reflexivity; try (cbn; tauto).
  vm_compute. discriminate.
Defined.

(** ** Editing a task on the page *)

Lemma handleEdit_of_row (rt : Runtime) (id : Z) (r : Task.Row) :
  TasksPage.handleEdit
    (Client.response_data rt (TaskController.task_json (Pg.task_object id r)))
  = Ok (TasksPage.mkForm (Pg.cell (Task.title r))
          (js_or (Pg.cell (Task.description r)) (JStr ""))
          (Pg.cell (Task.priority r)) (Pg.cell (Task.status r))
          (JStr (form_due_date rt (Task.due_date r)))).
Proof.
  destruct r as [u t d p dd s ca ua]. unfold TasksPage.handleEdit, form_due_date.
  cbn [Task.title Task.description Task.priority Task.status Task.due_date].
  destruct t, d, p, s, dd as [ms|]; cbn -[TasksPage.before_T];
    try reflexivity;
    destruct (String.eqb_spec (date_iso rt ms) "") as [->|_]; reflexivity.
Qed.

(** X25: opening a stored, well-formed task of the caller in the form
    ([handleEdit], on the task as it arrived in a response) and saving it
    unchanged ([handleUpdate]) sends as due date the part of its ISO text
    before the [T].  When that text is empty or parses and the server takes
    the cells, the save is answered 200 and, although the update replaces
    every field, writes back the same title, description, priority and
    status, keeps owner and creation time, sets [updated_at], and stores as
    due date the date the server reads from that text. *)
Theorem edit_and_save_keeps_task (rt : Runtime) (now : Z) (uid id : Z) (db : Db)
    (r : Task.Row) (due : option Z) :
  0 <= id < 2 ^ 53 ->
  tasks db !! id = Some r ->
  Task.user_id r = uid ->
  well_formed_task r ->
  (form_due_date rt (Task.due_date r) = ""
   \/ date_is_nan rt (JStr (form_due_date rt (Task.due_date r))) = Ok false) ->
  Pg.task_params rt (Task.title r) (Task.description r) (Task.priority r)
    (if String.eqb (form_due_date rt (Task.due_date r)) "" then None
     else Some (form_due_date rt (Task.due_date r)))
    (Task.status r) = Ok due ->
  exists form resp,
    TasksPage.handleEdit
      (Client.response_data rt (TaskController.task_json (Pg.task_object id r))) = Ok form
    /\ TaskController.update rt now (TasksPage.update_request uid id form) db
       = (with_tasks db
            (<[id := Task.mkRow (Task.user_id r) (Task.title r) (Task.description r)
                       (Task.priority r) due (Task.status r) (Task.created_at r) now]>
               (tasks db))
            (task_seq db), resp)
    /\ code_of resp = 200.
Proof.
  intros Hid Hr Hown ((t & Ht & Htne & Httrim) & Hdesc & (p & Hp & Hpin) & (s & Hs & Hsin))
    Hdate Hparams.
  pose proof (handleEdit_of_row rt id r) as Hedit.
  rewrite Ht, Hp, Hs in Hedit. cbn [Pg.cell] in Hedit.
  set (dtext := form_due_date rt (Task.due_date r)) in *.
  set (f := TasksPage.mkForm (JStr t) (js_or (Pg.cell (Task.description r)) (JStr ""))
              (JStr p) (JStr s) (JStr dtext)) in *.
  exists f. unfold TasksPage.update_request.
  set (req := mkRequest uid (Api.path_id id) (Client.json_body (TasksPage.taskData f))).
  assert (field "title" req = JStr t) as Ft by (apply taskData_field).
  assert (field "priority" req = JStr p) as Fp by (apply taskData_field).
  assert (field "status" req = JStr s) as Fs by (apply taskData_field).
  assert (field "dueDate" req = js_or (JStr dtext) JUndefined) as Fdd
    by (apply taskData_field).
  assert (field "description" req
          = js_or (js_or (Pg.cell (Task.description r)) (JStr "")) JUndefined) as Fd
    by (apply taskData_field).
  assert (trim t = t) as Et by (apply is_trimmed_trim, Httrim).
  assert (trim t <> "") as Hb by (rewrite Et; exact Htne).
  assert (dueDate_accepted rt (field "dueDate" req) = true) as Ad.
  { apply dueDate_accepted_inv. unfold TaskController.invalid_date.
    rewrite Fdd. unfold js_or. cbn [truthy].
    destruct (String.eqb dtext "") eqn:E; cbn [negb]; [reflexivity|].
    cbn [truthy]. rewrite E. cbn [negb].
    destruct Hdate as [Hd|Hok]; [rewrite Hd in E; discriminate E | exact Hok]. }
  assert (exists d', TaskController.optional_trim (field "description" req) = Ok d'
                     /\ Pg.bind rt (js_or d' JNull) = Task.description r) as (d' & Od & Hd').
  { rewrite Fd. destruct Hdesc as [Hn|(d & Hd & Hdne & Hdtrim)].
    - rewrite Hn. exists JUndefined. split; reflexivity.
    - rewrite Hd. cbn [Pg.cell]. rewrite (js_or_truthy (JStr d)) by (apply truthy_nonempty, Hdne).
      rewrite (js_or_truthy (JStr d)) by (apply truthy_nonempty, Hdne).
      exists (JStr d). cbn [TaskController.optional_trim call_trim].
      rewrite (is_trimmed_trim d Hdtrim). split; [reflexivity|].
      rewrite (js_or_truthy (JStr d)) by (apply truthy_nonempty, Hdne). reflexivity. }
  assert (Pg.bind rt (js_or (field "dueDate" req) JNull)
          = if String.eqb dtext "" then None else Some dtext) as Cdd.
  { rewrite Fdd. unfold js_or. cbn [truthy].
    destruct (String.eqb dtext "") eqn:E; cbn [negb truthy]; rewrite ?E; reflexivity. }
  assert (Pg.bind rt (js_or (field "priority" req) (JStr "medium")) = Some p) as Cp
    by (rewrite Fp, (js_or_truthy (JStr p))
          by (apply truthy_nonempty, valid_priority_nonempty, Hpin); reflexivity).
  assert (Pg.bind rt (js_or (field "status" req) (JStr "pending")) = Some s) as Cs
    by (rewrite Fs, (js_or_truthy (JStr s))
          by (apply truthy_nonempty, valid_status_nonempty, Hsin); reflexivity).
  assert (store_accepts rt req t d' due) as Hstore.
  { unfold store_accepts. rewrite Hd', Cp, Cdd, Cs, Et, <- Ht, <- Hp, <- Hs.
    exact Hparams. }
  destruct (path_id_parses id Hid) as (_ & Hparse).
  rewrite (update_accepted rt now req db t d' Ft Hb
             ltac:(unfold priority_accepted; rewrite Fp; apply accepted_of_valid, Hpin)
             ltac:(unfold status_accepted; rewrite Fs; apply accepted_of_valid, Hsin)
             Ad Od due Hstore id Hparse).
  assert (Pg.owned_task id (userId req) db = Some r) as ->
    by (apply owned_task_Some; auto).
  cbv zeta. unfold replaced_row. rewrite Hd', Cp, Cs, Et, Ht, Hp, Hs.
  eexists. split; [exact Hedit|]. split; reflexivity.
Qed.

(** Ann opens her task 1 and saves it as it is: the date part of
    2024-01-15T00:00:00.000Z is read back as the same date. *)
Lemma edit_and_save_keeps_task_witness :
  exists form resp,
    TasksPage.handleEdit
      (Client.response_data Sample.runtime
         (TaskController.task_json (Pg.task_object 1 Sample.milk))) = Ok form
    /\ TaskController.update Sample.runtime 70 (TasksPage.update_request 1 1 form)
         Sample.db_tasks
       = (with_tasks Sample.db_tasks
            (<[1 := Task.mkRow 1 (Some "Buy milk") (Some "two litres") (Some "high")
                      (Some 1705276800000) (Some "completed") 30 70]>
               (tasks Sample.db_tasks)) 3, resp)
    /\ code_of resp = 200.
Proof.
  apply (edit_and_save_keeps_task Sample.runtime 70 1 1 Sample.db_tasks Sample.milk
           (Some 1705276800000)).
  - lia.
  - reflexivity.
  - reflexivity.
  - repeat split.
    + exists "Buy milk". repeat split; try reflexivity; discriminate.
    + right. exists "two litres". repeat split; try reflexivity; discriminate.
    + exists "high". split; [reflexivity | cbn; tauto].
    + exists "completed". split; [reflexivity | cbn; tauto].
  - right. reflexivity.
  - reflexivity.
Defined.

(** ** Isolation between users *)

(** X26: a request made with the token of one user never creates,
    changes or removes a task of another: for every route and every request
    of a caller other than [owner], the rows owned by [owner] are the same
    before and after. *)
Theorem others_cannot_touch_my_tasks (rt : Runtime) (now : Z) (route : Route)
    (req : Request) (db : Db) (owner : Z) :
  userId req <> owner ->
  forall id r,
    Task.user_id r = owner ->
    (tasks (serve rt now route req db).1 !! id = Some r <-> tasks db !! id = Some r).
Proof.
  intros Hother id r Hr.
  assert (forall db', tasks db' = tasks db ->
            (tasks db' !! id = Some r <-> tasks db !! id = Some r)) as Hsame
    by (intros db' ->; reflexivity).
  destruct (task_route route) eqn:Ht;
    [|apply Hsame, (proj2 (serve_frame_tables rt now route req db) Ht)].
  destruct route; try discriminate Ht; cbn [serve].
  - rewrite getAllTasks_effect. reflexivity.
  - destruct (create_effect rt now req db)
      as [[-> _]|[-> |(r0 & Hfree & _ & Hu & _ & ->)]]; [reflexivity..|].
    cbn [fst with_tasks tasks].
    destruct (decide (id = task_seq db)) as [->|Hne].
    + rewrite lookup_insert_eq, Hfree. split; [intros [= <-]; congruence | discriminate].
    + rewrite lookup_insert_ne by congruence. reflexivity.
  - rewrite getTask_effect. reflexivity.
  - destruct (update_effect rt now req db)
      as [[-> _]|(taskId & old & new & _ & Hold & Hown & Hu & _ & _ & ->)];
      [reflexivity|].
    cbn [fst with_tasks tasks].
    destruct (decide (id = taskId)) as [->|Hne].
    + rewrite lookup_insert_eq, Hold.
      split; intros [= <-]; congruence.
    + rewrite lookup_insert_ne by congruence. reflexivity.
  - destruct (parseInt (params_id req)) as [taskId|] eqn:Hid.
    + rewrite (remove_parsed req db taskId Hid).
      destruct (Pg.owned_task taskId (userId req) db) as [old|] eqn:Ho; [|reflexivity].
      apply owned_task_Some in Ho as [Hold Hown]. cbn [fst with_tasks tasks].
      destruct (decide (id = taskId)) as [->|Hne].
      * rewrite lookup_delete_eq, Hold. split; [discriminate | intros [= <-]; congruence].
      * rewrite lookup_delete_ne by congruence. reflexivity.
    + assert ((TaskController.remove req db).1 = db) as ->
        by (unfold TaskController.remove; unfold_monad; rewrite Hid; reflexivity).
      reflexivity.
Qed.

(** Bob's create, update and delete leave Ann's task 1 as it is. *)
Lemma others_cannot_touch_my_tasks_witness :
  tasks (serve Sample.runtime 50 DeleteTaskId (mkRequest 2 "1" ∅) Sample.db_tasks).1 !! 1
    = Some Sample.milk
  /\ tasks (serve Sample.runtime 50 PutTaskId
              (mkRequest 2 "1" (Sample.body_of [("title", JStr "mine now")]))
              Sample.db_tasks).1 !! 1 = Some Sample.milk.
Proof.
  split.
  - apply (others_cannot_touch_my_tasks Sample.runtime 50 DeleteTaskId
             (mkRequest 2 "1" ∅) Sample.db_tasks 1); [discriminate | reflexivity..].
  - apply (others_cannot_touch_my_tasks Sample.runtime 50 PutTaskId
             (mkRequest 2 "1" (Sample.body_of [("title", JStr "mine now")]))
             Sample.db_tasks 1); [discriminate | reflexivity..].
Defined.

(** X27: a task sent back by GET /api/tasks/:id, by PUT, by POST or in
    the listing always belongs to the caller: its [userId] is the id of the
    token's user. *)
Theorem only_own_tasks_are_returned (rt : Runtime) (now : Z) (req : Request) (db : Db) :
  (code_of (TaskController.getTask req db).2 = 200 ->
   prop "userId" (prop "task" (json (TaskController.getTask req db).2))
   = JNum (userId req))
  /\ (code_of (TaskController.update rt now req db).2 = 200 ->
      prop "userId" (prop "task" (json (TaskController.update rt now req db).2))
      = JNum (userId req))
  /\ (code_of (TaskController.create rt now req db).2 = 201 ->
      prop "userId" (prop "task" (json (TaskController.create rt now req db).2))
      = JNum (userId req))
  /\ (exists items,
        json (TaskController.getAllTasks req db).2
        = JObj [("count", JNum (Z.of_nat (length items))); ("tasks", JArr items)]
        /\ Forall (fun item => prop "userId" item = JNum (userId req)) items).
Proof.
  split; [|split; [|split]].
  - destruct (parseInt (params_id req)) as [taskId|] eqn:Hid.
    + rewrite (getTask_parsed req db taskId Hid).
      destruct (Pg.owned_task taskId (userId req) db) as [r|] eqn:Ho; [|discriminate].
      apply owned_task_Some in Ho as [_ <-]. intros _. reflexivity.
    + unfold TaskController.getTask. unfold_monad. rewrite Hid. discriminate.
  - destruct (update_effect rt now req db)
      as [[_ Hne]|(taskId & old & new & _ & _ & Hown & Hu & _ & _ & ->)];
      [intros H; contradiction|].
    intros _. cbn. rewrite Hu, Hown. reflexivity.
  - destruct (create_effect rt now req db)
      as [[_ Hne]|[-> |(r & _ & _ & Hu & _ & ->)]];
      [intros H; rewrite H in Hne; cbn in Hne; exfalso; intuition discriminate
      | discriminate |].
    intros _. cbn. rewrite Hu. reflexivity.
  - destruct (getTasksByUserId_rows (userId req) db)
      as (rows & Hget & _ & Hmem & _).
    unfold TaskController.getAllTasks. unfold_monad. rewrite Hget.
    eexists. split; [cbn [snd json]; reflexivity|].
    apply Forall_forall. intros item Hin.
    apply list_elem_of_In, in_map_iff in Hin as (obj & <- & Hin).
    apply in_map_iff in Hin as ([id r] & <- & Hin).
    apply Hmem in Hin as [_ <-]. reflexivity.
Qed.

(** Ann reads her task. *)
Lemma only_own_tasks_are_returned_witness :
  prop "userId"
    (prop "task" (json (TaskController.getTask (mkRequest 1 "1" ∅) Sample.db_tasks).2))
  = JNum 1.
Proof.
  apply (proj1 (only_own_tasks_are_returned Sample.runtime 50 (mkRequest 1 "1" ∅)
                  Sample.db_tasks)).
  reflexivity.
Defined.


(** ** Ids *)

(** X28: ids are never reused: from a store whose sequence is ahead of
    its ids, an id below the sequence that holds no task (never used, or of a
    deleted task) holds none after any run of requests. *)
Theorem ids_never_reused (rt : Runtime) (reqs : list (Z * Route * Request)) (db : Db)
    (id : Z) :
  sequence_ahead db ->
  id < task_seq db ->
  tasks db !! id = None ->
  tasks (serve_all rt reqs db) !! id = None.
Proof.
  revert db. induction reqs as [|[[now route] req] rest IH]; intros db Hwf Hlt Hnone;
    cbn [serve_all]; [exact Hnone|].
  destruct (serve_sequence rt now route req db Hwf) as (Hwf' & Hle & Hgone).
  apply IH; [exact Hwf' | lia | apply Hgone; assumption].
Qed.

(** Task 2 is gone and the sequence is at 3: Bob's two new tasks get other
    ids. *)
Lemma ids_never_reused_witness :
  tasks (serve_all Sample.runtime
           [(51, PostTasks, mkRequest 2 "" (Sample.body_of [("title", JStr "one")]));
            (52, PostTasks, mkRequest 2 "" (Sample.body_of [("title", JStr "two")]))]
           (with_tasks Sample.db_users {[1 := Sample.milk]} 3)) !! 2 = None.
Proof.
  apply ids_never_reused.
  - intros id [r Hr]. cbn [with_tasks tasks task_seq] in *.
    apply lookup_singleton_Some in Hr as [<- _]. lia.
  - cbn. lia.
  - reflexivity.
Defined.

(** X29: a successful create or update writes exactly one row: create
    adds a row under the next id of the sequence and update replaces the row
    under the parsed id, every row under another id is as before, and the
    table grows by one row on create and keeps its size on update. *)
Theorem writes_touch_one_row (rt : Runtime) (now : Z) (req : Request) (db : Db) :
  (code_of (TaskController.create rt now req db).2 = 201 ->
   is_Some (tasks (TaskController.create rt now req db).1 !! task_seq db)
   /\ (forall j, j <> task_seq db ->
         tasks (TaskController.create rt now req db).1 !! j = tasks db !! j)
   /\ size (tasks (TaskController.create rt now req db).1) = S (size (tasks db))
   /\ task_seq (TaskController.create rt now req db).1 = task_seq db + 1)
  /\ (code_of (TaskController.update rt now req db).2 = 200 ->
      exists taskId,
        parseInt (params_id req) = Some taskId
        /\ (forall j, j <> taskId ->
              tasks (TaskController.update rt now req db).1 !! j = tasks db !! j)
        /\ size (tasks (TaskController.update rt now req db).1) = size (tasks db)
        /\ task_seq (TaskController.update rt now req db).1 = task_seq db).
Proof.
  split.
  - destruct (create_effect rt now req db)
      as [[_ Hne]|[-> |(r & Hfree & _ & _ & _ & ->)]];
      [intros H; rewrite H in Hne; cbn in Hne; exfalso; intuition discriminate
      | discriminate |].
    intros _. cbn [fst with_tasks tasks task_seq].
    split; [rewrite lookup_insert_eq; eauto|].
    split; [intros j Hj; apply lookup_insert_ne; congruence|].
    split; [apply map_size_insert_None, Hfree | reflexivity].
  - destruct (update_effect rt now req db)
      as [[_ Hne]|(taskId & old & new & Hid & Hold & _ & _ & _ & _ & ->)];
      [intros H; contradiction|].
    intros _. exists taskId. cbn [fst with_tasks tasks task_seq].
    split; [exact Hid|]. split; [intros j Hj; apply lookup_insert_ne; congruence|].
    split; [|reflexivity].
    apply map_size_insert_Some. eauto.
Qed.

(** Ann renames her task: Bob's row is as before and the table keeps its
    two rows. *)
Lemma writes_touch_one_row_witness :
  tasks (TaskController.update Sample.runtime 50
           (mkRequest 1 "1" (Sample.body_of [("title", JStr "Buy oat milk")]))
           Sample.db_tasks).1 !! 2
  = Some Sample.report
  /\ size (tasks (TaskController.update Sample.runtime 50
                    (mkRequest 1 "1" (Sample.body_of [("title", JStr "Buy oat milk")]))
                    Sample.db_tasks).1)
     = 2%nat.
Proof.
  destruct (proj2 (writes_touch_one_row Sample.runtime 50
                     (mkRequest 1 "1" (Sample.body_of [("title", JStr "Buy oat milk")]))
                     Sample.db_tasks) eq_refl)
    as (taskId & Hid & Hother & Hsize & _).
  vm_compute in Hid. injection Hid as <-.
  split; [rewrite Hother by lia | rewrite Hsize]; reflexivity.
Defined.
